(** * STL CAM tool: mesh loader, surface query, path generator, G-code exporter

    A shallow embedding of the geometry engine of [stl-cam-tool]
    ([stl-loader.js], [toolpath-generator.js], [gcode-exporter.js]) and the
    properties its specification states about it.

    Numbers.  JavaScript numbers are modelled by exact rationals ([Q]),
    extended with [NaN] and the two infinities where the loader can meet
    them (a 32-bit float read from a file, an empty bounding box).  The
    arithmetic of the path generator and of the statistics is therefore the
    exact one; rounding of binary floating point is not part of the model.
    Every concrete run below uses values on which both arithmetics agree.

    Parameters.  The machining parameters are positive (section 3 of the
    specification).  A zero step makes a JavaScript loop bound Infinity or
    NaN; [Q] has neither (a division by zero gives 0 there), so the model
    says nothing of such runs.

    Environment.  What the program calls and does not define (three.js,
    [parseFloat], [Date]) is a parameter of the development: a class whose
    instance the properties quantify over, with one reference instance for
    the concrete runs. *)

From Stdlib Require Import ZArith QArith Qround Qabs Lqa Lia.
From Stdlib.Strings Require Import Byte Ascii String.
From Stdlib Require Import DecimalString.
From Stdlib Require Import Sorted Permutation.
From stdpp Require Import base option list.

Set Default Proof Using "Type".

(** * Part I: the program *)

(** ** JavaScript values shared by the three components *)

Module JS.

(** A JavaScript number: a finite value, an infinity or NaN. *)
Inductive number : Type :=
  | NaN
  | NegInf
  | Fin (q : Q)
  | PosInf.

Definition zero : number := Fin 0.

(** [a < b] on numbers; any comparison with NaN is false. *)
Definition lt (a b : number) : bool :=
  match a, b with
  | NaN, _ | _, NaN => false
  | NegInf, NegInf => false
  | NegInf, _ => true
  | _, NegInf => false
  | PosInf, _ => false
  | Fin _, PosInf => true
  | Fin x, Fin y => negb (Qle_bool y x)
  end.

Definition gt (a b : number) : bool := lt b a.

Definition add (a b : number) : number :=
  match a, b with
  | NaN, _ | _, NaN => NaN
  | PosInf, NegInf | NegInf, PosInf => NaN
  | PosInf, _ | _, PosInf => PosInf
  | NegInf, _ | _, NegInf => NegInf
  | Fin x, Fin y => Fin (x + y)
  end.

Definition neg (a : number) : number :=
  match a with
  | NaN => NaN
  | NegInf => PosInf
  | PosInf => NegInf
  | Fin x => Fin (- x)
  end.

Definition sub (a b : number) : number := add a (neg b).

(** Division by the literal 2, as [getStats] uses it. *)
Definition half (a : number) : number :=
  match a with
  | Fin x => Fin (x / 2)
  | other => other
  end.

(** Exceptions the built-in objects raise. *)
Inductive exn : Type :=
  | RangeError
  | TypeError.

(** A computation that returns a value or throws. *)
Inductive result (A : Type) : Type :=
  | Ok (a : A)
  | Throw (e : exn).
Arguments Ok {A} a.
Arguments Throw {A} e.

Definition bind {A B : Type} (c : result A) (k : A -> result B) : result B :=
  match c with
  | Ok a => k a
  | Throw e => Throw e
  end.

(** A string is the sequence of its code points. *)
Abbreviation jsstring := (list N) (only parsing).

Definition codes (s : string) : jsstring :=
  map (fun c => N_of_ascii c) (list_ascii_of_string s).

End JS.

Import JS.

Declare Scope js_scope.
Delimit Scope js_scope with js.
Notation "x <- c ;; k" := (bind c (fun x => k))
  (at level 100, c at next level, right associativity) : js_scope.

(** ** ArrayBuffer and DataView *)

Module DataView.

Local Open Scope Z_scope.

Abbreviation ArrayBuffer := (list byte) (only parsing).

Definition byteLength (buffer : ArrayBuffer) : Z := Z.of_nat (length buffer).

(** The unsigned value of the byte at [i]; [0] outside the buffer (never
    reached: every read checks its range first). *)
Definition byteAt (buffer : ArrayBuffer) (i : Z) : Z :=
  match buffer !! Z.to_nat i with
  | Some b => Z.of_N (Byte.to_N b)
  | None => 0
  end.

(** [view.getUint32(byteOffset, true)]: four bytes, least significant first;
    a RangeError when the four bytes do not all lie inside the buffer. *)
Definition getUint32 (buffer : ArrayBuffer) (byteOffset : Z) : result Z :=
  if (byteOffset <? 0) || (byteLength buffer <? byteOffset + 4)
  then Throw RangeError
  else Ok (byteAt buffer byteOffset
           + 2 ^ 8 * byteAt buffer (byteOffset + 1)
           + 2 ^ 16 * byteAt buffer (byteOffset + 2)
           + 2 ^ 24 * byteAt buffer (byteOffset + 3)).

(** The value of an IEEE 754 binary32 bit pattern: sign bit 31, biased
    exponent in bits 30..23, fraction in bits 22..0. *)
Definition float32_value (w : Z) : Q :=
  let s := Z.testbit w 31 in
  let e := Z.land (Z.shiftr w 23) 255 in
  let m := Z.land w (2 ^ 23 - 1) in
  let mag : Q :=
    if e =? 0 then (inject_Z m * Qpower 2 (-149))%Q
    else (inject_Z (2 ^ 23 + m) * Qpower 2 (e - 150))%Q in
  Qred (if s then (- mag)%Q else mag).

Definition float32_of_bits (w : Z) : number :=
  let s := Z.testbit w 31 in
  let e := Z.land (Z.shiftr w 23) 255 in
  let m := Z.land w (2 ^ 23 - 1) in
  if e =? 255 then
    if m =? 0 then (if s then NegInf else PosInf) else NaN
  else Fin (float32_value w).

(** [view.getFloat32(byteOffset, true)]. *)
Definition getFloat32 (buffer : ArrayBuffer) (byteOffset : Z) : result number :=
  bind (getUint32 buffer byteOffset) (fun w => Ok (float32_of_bits w)).

End DataView.

(** ** The parts of three.js the loader calls *)

Module THREE.

Record Vector3 (A : Type) : Type := vec3 { x : A; y : A; z : A }.
Arguments vec3 {A} x y z.
Arguments x {A} v.
Arguments y {A} v.
Arguments z {A} v.

Record Box3 : Type := box3 { min : Vector3 number; max : Vector3 number }.

(** A non-indexed BufferGeometry: two flat Float32Array attributes of item
    size 3, and the bounding volumes once they have been computed. *)
Record BufferGeometry (Sphere : Type) : Type := bufferGeometry {
  position : list number;
  normal : list number;
  boundingBox : option Box3;
  boundingSphere : option Sphere
}.
Arguments bufferGeometry {Sphere} position normal boundingBox boundingSphere.
Arguments position {Sphere} b.
Arguments normal {Sphere} b.
Arguments boundingBox {Sphere} b.
Arguments boundingSphere {Sphere} b.

(** [attribute.count]: the number of whole items of size 3. *)
Definition count (array : list number) : Z := (Z.of_nat (length array) / 3)%Z.

(** The items of an attribute of item size 3, in order. *)
Fixpoint items (array : list number) : list (Vector3 number) :=
  match array with
  | a :: b :: c :: rest => vec3 a b c :: items rest
  | _ => []
  end.

(** The faces of a non-indexed geometry: consecutive triples of vertices.
    A last face that lacks vertices reads them as NaN (undefined). *)
Fixpoint faces (vs : list (Vector3 number))
  : list (Vector3 number * Vector3 number * Vector3 number) :=
  let undef := vec3 NaN NaN NaN in
  match vs with
  | a :: b :: c :: rest => (a, b, c) :: faces rest
  | [a; b] => [(a, b, undef)]
  | [a] => [(a, undef, undef)]
  | [] => []
  end.

Definition flat (v : Vector3 number) : list number := [x v; y v; z v].

(** The three axes, to speak of one coordinate at a time. *)
Inductive Axis : Type := AxisX | AxisY | AxisZ.

Definition component {A : Type} (a : Axis) (v : Vector3 A) : A :=
  match a with
  | AxisX => x v
  | AxisY => y v
  | AxisZ => z v
  end.

(** Modelled from the spec: [Box3.setFromBufferAttribute], which is part of
    three.js and not of this repository.  The componentwise minimum and
    maximum over all vertices, starting from the empty box
    (+Infinity, -Infinity). *)
Definition lower (m v : number) : number := if JS.lt v m then v else m.
Definition upper (m v : number) : number := if JS.gt v m then v else m.

Definition expandByPoint (b : Box3) (p : Vector3 number) : Box3 :=
  box3 (vec3 (lower (x (min b)) (x p)) (lower (y (min b)) (y p))
             (lower (z (min b)) (z p)))
       (vec3 (upper (x (max b)) (x p)) (upper (y (max b)) (y p))
             (upper (z (max b)) (z p))).

Definition emptyBox : Box3 :=
  box3 (vec3 PosInf PosInf PosInf) (vec3 NegInf NegInf NegInf).

Definition setFromBufferAttribute (array : list number) : Box3 :=
  fold_left expandByPoint (items array) emptyBox.

End THREE.

Import THREE.

(** What the loader takes from its JavaScript environment.  None of it is
    code of this repository; the loader is verified for every environment. *)
Module JSRuntime.

Class Runtime : Type := {
  (** the global [parseFloat] *)
  parseFloat : jsstring -> number;
  (** storing a number into a Float32Array *)
  fround : number -> number;
  (** the normalised face normal that [computeVertexNormals] gives to the
      three vertices of a face: a function of the vertices alone *)
  faceNormal : Vector3 number -> Vector3 number -> Vector3 number -> Vector3 number;
  (** the bounding sphere that [computeBoundingSphere] derives from the
      position attribute *)
  Sphere : Type;
  sphereFromPositions : list number -> Sphere
}.

End JSRuntime.

Import JSRuntime.

(** ** stl-loader.js *)

Module STLLoader.

Import DataView.
Local Open Scope Z_scope.
Local Open Scope js_scope.

(** *** Text: [TextDecoder], [split], [trim], [startsWith] *)

(** UTF-8 decoding as [new TextDecoder().decode] does it: ill-formed input
    yields U+FFFD, a leading byte order mark is dropped. *)
Definition replacement : N := 65533%N.

(** The decoder between two bytes: the code point under construction, the
    number of continuation bytes still [needed], and the range the next
    continuation byte must lie in. *)
Record Utf8State : Type := utf8State {
  codePoint : N; needed : nat; lowerBoundary : N; upperBoundary : N
}.

Definition utf8Initial : Utf8State := utf8State 0 0 128 191.

(** A byte read with no sequence open. *)
Definition utf8Lead (b : N) : Utf8State * list N :=
  (if b <=? 127 then (utf8Initial, [b])
   else if (194 <=? b) && (b <=? 223) then (utf8State (N.land b 31) 1 128 191, [])
   else if (224 <=? b) && (b <=? 239) then
     (utf8State (N.land b 15) 2 (if b =? 224 then 160 else 128)
                (if b =? 237 then 159 else 191), [])
   else if (240 <=? b) && (b <=? 244) then
     (utf8State (N.land b 7) 3 (if b =? 240 then 144 else 128)
                (if b =? 244 then 143 else 191), [])
   else (utf8Initial, [replacement]))%N.

Definition utf8Step (st : Utf8State) (b : N) : Utf8State * list N :=
  match needed st with
  | O => utf8Lead b
  | S n =>
      if ((lowerBoundary st <=? b) && (b <=? upperBoundary st))%N then
        let cp := N.lor (N.shiftl (codePoint st) 6) (N.land b 63) in
        match n with
        | O => (utf8Initial, [cp])
        | S _ => (utf8State cp n 128 191, [])
        end
      else
        (* the sequence is broken: U+FFFD, and the byte is read again *)
        let (st', out) := utf8Lead b in (st', replacement :: out)
  end.

Fixpoint utf8Run (st : Utf8State) (bytes : list byte) : list N :=
  match bytes with
  | [] => match needed st with O => [] | S _ => [replacement] end
  | b :: rest =>
      let (st', out) := utf8Step st (Byte.to_N b) in
      out ++ utf8Run st' rest
  end.

Definition decode (buffer : ArrayBuffer) : jsstring :=
  match utf8Run utf8Initial buffer with
  | 65279%N :: text => text
  | text => text
  end.

(** [text.split('\n')]. *)
Fixpoint splitLines (text : jsstring) : list jsstring :=
  match text with
  | [] => [[]]
  | c :: rest =>
      if (c =? 10)%N then [] :: splitLines rest
      else match splitLines rest with
           | line :: lines => (c :: line) :: lines
           | [] => [[c]]
           end
  end.

(** White space and line terminators: what [trim] strips and [\s] matches. *)
Definition isWhiteSpace (c : N) : bool :=
  ((9 <=? c) && (c <=? 13) || (c =? 32) || (c =? 160) || (c =? 5760)
   || (8192 <=? c) && (c <=? 8202) || (c =? 8232) || (c =? 8233)
   || (c =? 8239) || (c =? 8287) || (c =? 12288) || (c =? 65279))%N.

Fixpoint trimStart (s : jsstring) : jsstring :=
  match s with
  | c :: rest => if isWhiteSpace c then trimStart rest else s
  | [] => []
  end.

Definition trim (s : jsstring) : jsstring :=
  rev (trimStart (rev (trimStart s))).

Fixpoint startsWith (s prefix : jsstring) : bool :=
  match prefix, s with
  | [], _ => true
  | p :: prefix', c :: s' => (c =? p)%N && startsWith s' prefix'
  | _ :: _, [] => false
  end.

(** [line.split(/\s+/)]: the pieces between maximal runs of white space;
    a run at either end leaves an empty piece there. *)
Fixpoint splitWhiteSpace (s : jsstring) (inRun : bool) : list jsstring :=
  match s with
  | [] => [[]]
  | c :: rest =>
      if isWhiteSpace c then
        if inRun then splitWhiteSpace rest true
        else [] :: splitWhiteSpace rest true
      else match splitWhiteSpace rest false with
           | piece :: pieces => (c :: piece) :: pieces
           | [] => [[c]]
           end
  end.

Section Loader.

Context `{RT : Runtime}.

Definition Geometry : Type := BufferGeometry Sphere.

(** The loader object: [this.geometry] ([this.model] is never written). *)
Record STLLoader : Type := stlLoader { geometry : option Geometry }.

Definition constructor : STLLoader := stlLoader None.

(** *** isBinarySTL *)

Definition isBinarySTL (buffer : ArrayBuffer) : result bool :=
  numTriangles <- getUint32 buffer 80 ;;
  let expectedSize := 84 + numTriangles * 50 in
  Ok (byteLength buffer =? expectedSize).

(** *** parseBinary *)

(** [array[index] = value] on a typed array: ignored outside its range. *)
Definition store (array : list number) (index : Z) (value : number) : list number :=
  if index <? 0 then array else <[Z.to_nat index := value]> array.

(** The body of the [for] loop, run [n] more times from triangle [i]. *)
Fixpoint parseBinaryLoop (buffer : ArrayBuffer) (n : nat) (i offset : Z)
    (positions normals : list number) : result (list number * list number) :=
  match n with
  | O => Ok (positions, normals)
  | S n' =>
      let normalOffset := offset in
      let v1Offset := offset + 12 in
      let v2Offset := offset + 24 in
      let v3Offset := offset + 36 in
      nx <- getFloat32 buffer normalOffset ;;
      ny <- getFloat32 buffer (normalOffset + 4) ;;
      nz <- getFloat32 buffer (normalOffset + 8) ;;
      v1x <- getFloat32 buffer v1Offset ;;
      v1y <- getFloat32 buffer (v1Offset + 4) ;;
      v1z <- getFloat32 buffer (v1Offset + 8) ;;
      v2x <- getFloat32 buffer v2Offset ;;
      v2y <- getFloat32 buffer (v2Offset + 4) ;;
      v2z <- getFloat32 buffer (v2Offset + 8) ;;
      v3x <- getFloat32 buffer v3Offset ;;
      v3y <- getFloat32 buffer (v3Offset + 4) ;;
      v3z <- getFloat32 buffer (v3Offset + 8) ;;
      let posIndex := i * 9 in
      let positions := store positions posIndex v1x in
      let positions := store positions (posIndex + 1) v1y in
      let positions := store positions (posIndex + 2) v1z in
      let positions := store positions (posIndex + 3) v2x in
      let positions := store positions (posIndex + 4) v2y in
      let positions := store positions (posIndex + 5) v2z in
      let positions := store positions (posIndex + 6) v3x in
      let positions := store positions (posIndex + 7) v3y in
      let positions := store positions (posIndex + 8) v3z in
      let normals := store normals posIndex nx in
      let normals := store normals (posIndex + 1) ny in
      let normals := store normals (posIndex + 2) nz in
      let normals := store normals (posIndex + 3) nx in
      let normals := store normals (posIndex + 4) ny in
      let normals := store normals (posIndex + 5) nz in
      let normals := store normals (posIndex + 6) nx in
      let normals := store normals (posIndex + 7) ny in
      let normals := store normals (posIndex + 8) nz in
      parseBinaryLoop buffer n' (i + 1) (offset + 50) positions normals
  end.

Definition parseBinary (buffer : ArrayBuffer) : result Geometry :=
  numTriangles <- getUint32 buffer 80 ;;
  let positions := replicate (Z.to_nat (numTriangles * 9)) JS.zero in
  let normals := replicate (Z.to_nat (numTriangles * 9)) JS.zero in
  filled <- parseBinaryLoop buffer (Z.to_nat numTriangles) 0 84 positions normals ;;
  Ok (bufferGeometry (fst filled) (snd filled) None None).

(** *** parseASCII *)

(** [parseFloat(parts[k])]; a missing part is [undefined]. *)
Definition parseFloatAt (parts : list jsstring) (k : nat) : number :=
  match parts !! k with
  | Some s => parseFloat s
  | None => parseFloat (codes "undefined")
  end.

(** The loop over the lines: the two growing arrays and [currentNormal]. *)
Fixpoint parseASCIILines (lines : list jsstring)
    (positions normals : list number) (currentNormal : option (list number))
    : list number * list number :=
  match lines with
  | [] => (positions, normals)
  | line :: rest =>
      let line := trim line in
      if startsWith line (codes "facet normal") then
        let parts := splitWhiteSpace line false in
        let currentNormal :=
          Some [parseFloatAt parts 2; parseFloatAt parts 3; parseFloatAt parts 4] in
        parseASCIILines rest positions normals currentNormal
      else if startsWith line (codes "vertex") then
        let parts := splitWhiteSpace line false in
        let positions :=
          positions ++ [parseFloatAt parts 1; parseFloatAt parts 2; parseFloatAt parts 3] in
        let normals :=
          match currentNormal with
          | Some n => normals ++ n
          | None => normals
          end in
        parseASCIILines rest positions normals currentNormal
      else parseASCIILines rest positions normals currentNormal
  end.

Definition parseASCII (buffer : ArrayBuffer) : Geometry :=
  let text := decode buffer in
  let lines := splitLines text in
  let parsed := parseASCIILines lines [] [] None in
  bufferGeometry (map fround (fst parsed)) (map fround (snd parsed)) None None.

(** *** The three.js post-processing [load] asks for *)

(** [geometry.computeVertexNormals()], as three.js documents it for a
    non-indexed geometry: vertices are not shared, and every vertex normal
    is set to the normal of its face.  The existing normal attribute is
    cleared, then every face writes its face normal at its three vertices;
    writes beyond the attribute are ignored. *)
Definition computeVertexNormals (g : Geometry) : Geometry :=
  let fresh :=
    flat_map (fun f : Vector3 number * Vector3 number * Vector3 number =>
                let n := flat (faceNormal (fst (fst f)) (snd (fst f)) (snd f)) in
                n ++ n ++ n)
             (faces (items (position g))) in
  let size := length (normal g) in
  bufferGeometry (position g)
    (take size fresh ++ replicate (size - length fresh) JS.zero)
    (boundingBox g) (boundingSphere g).

Definition computeBoundingBox (g : Geometry) : Geometry :=
  bufferGeometry (position g) (normal g)
    (Some (setFromBufferAttribute (position g))) (boundingSphere g).

Definition computeBoundingSphere (g : Geometry) : Geometry :=
  bufferGeometry (position g) (normal g) (boundingBox g)
    (Some (sphereFromPositions (position g))).

(** *** load *)

(** [load(buffer)]: the loader after the call and what the call returned.
    A throw leaves [this.geometry] as it was. *)
Definition load (this : STLLoader) (buffer : ArrayBuffer)
  : STLLoader * result Geometry :=
  match
    (isBinary <- isBinarySTL buffer ;;
     if isBinary : bool then parseBinary buffer else Ok (parseASCII buffer))
  with
  | Throw e => (this, Throw e)
  | Ok parsed =>
      let g := computeVertexNormals parsed in
      let g := computeBoundingBox g in
      let g := computeBoundingSphere g in
      (stlLoader (Some g), Ok g)
  end.

(** *** getStats *)

Record Stats : Type := stats {
  triangleCount : Q;
  vertexCount : Z;
  dimensions : Vector3 number;
  center : Vector3 number;
  statsMin : Vector3 number;
  statsMax : Vector3 number
}.

(** [getStats()]: [None] is [null]; reading [bbox.max] of a geometry whose
    bounding box was never computed is a TypeError. *)
Definition getStats (this : STLLoader) : result (option Stats) :=
  match geometry this with
  | None => Ok None
  | Some g =>
      match boundingBox g with
      | None => Throw TypeError
      | Some bbox =>
          let positions := position g in
          Ok (Some (stats
            (inject_Z (count positions) / 3)%Q
            (count positions)
            (vec3 (JS.sub (x (max bbox)) (x (min bbox)))
                  (JS.sub (y (max bbox)) (y (min bbox)))
                  (JS.sub (z (max bbox)) (z (min bbox))))
            (vec3 (JS.half (JS.add (x (max bbox)) (x (min bbox))))
                  (JS.half (JS.add (y (max bbox)) (y (min bbox))))
                  (JS.half (JS.add (z (max bbox)) (z (min bbox)))))
            (min bbox)
            (max bbox)))
      end
  end.

(** *** The fixed-record encoding, written out *)

(** One 50-byte record as bit patterns: twelve binary32 words (the normal,
    then the three vertices) and the 16-bit attribute count. *)
Record Facet : Type := facet {
  nx : Z; ny : Z; nz : Z;
  v1x : Z; v1y : Z; v1z : Z;
  v2x : Z; v2y : Z; v2z : Z;
  v3x : Z; v3y : Z; v3z : Z;
  attribute : Z
}.

Definition facetWords (t : Facet) : list Z :=
  [nx t; ny t; nz t; v1x t; v1y t; v1z t; v2x t; v2y t; v2z t; v3x t; v3y t; v3z t].

Definition facetVertexWords (t : Facet) : list Z :=
  [v1x t; v1y t; v1z t; v2x t; v2y t; v2z t; v3x t; v3y t; v3z t].

Definition facetNormalWords (t : Facet) : list Z := [nx t; ny t; nz t].

(** Every word of the record fits its field. *)
Definition wellFormed (t : Facet) : Prop :=
  Forall (fun w => 0 <= w < 2 ^ 32) (facetWords t).

Definition byteOf (v : Z) : byte :=
  match Byte.of_N (Z.to_N (v mod 256)) with
  | Some b => b
  | None => x00
  end.

Definition encodeUint16 (w : Z) : list byte := [byteOf w; byteOf (w / 2 ^ 8)].

Definition encodeUint32 (w : Z) : list byte :=
  [byteOf w; byteOf (w / 2 ^ 8); byteOf (w / 2 ^ 16); byteOf (w / 2 ^ 24)].

Definition encodeFacet (t : Facet) : list byte :=
  flat_map encodeUint32 (facetWords t) ++ encodeUint16 (attribute t).

(** The stream of section 6 of the specification: an 80-byte header, the
    triangle count, one record per triangle. *)
Definition encodeSTL (header : list byte) (facets : list Facet) : ArrayBuffer :=
  header ++ encodeUint32 (Z.of_nat (length facets)) ++ flat_map encodeFacet facets.

(** The positions buffer the facets describe: 9 numbers per triangle. *)
Definition facetPositions (facets : list Facet) : list number :=
  flat_map (fun t => map float32_of_bits (facetVertexWords t)) facets.

(** The normals buffer with each face normal repeated for its three vertices. *)
Definition facetNormals (facets : list Facet) : list number :=
  flat_map (fun t => let n := map float32_of_bits (facetNormalWords t) in n ++ n ++ n)
           facets.

(** A binary32 word that is neither an infinity nor a NaN. *)
Definition finiteWord (w : Z) : bool := negb (Z.land (Z.shiftr w 23) 255 =? 255).

(** The three post-processing calls of [load], in their order. *)
Definition postProcess (parsed : Geometry) : Geometry :=
  computeBoundingSphere (computeBoundingBox (computeVertexNormals parsed)).

(** What a call returned, reduced to the two attribute buffers. *)
Definition buffersOf (r : result Geometry) : result (list number * list number) :=
  bind r (fun g => Ok (position g, normal g)).

(** *** What an encoded stream describes *)

(** The three vertices of a record, as numbers. *)
Definition facetVertices (t : Facet) : Vector3 number * Vector3 number * Vector3 number :=
  (vec3 (float32_of_bits (v1x t)) (float32_of_bits (v1y t)) (float32_of_bits (v1z t)),
   vec3 (float32_of_bits (v2x t)) (float32_of_bits (v2y t)) (float32_of_bits (v2z t)),
   vec3 (float32_of_bits (v3x t)) (float32_of_bits (v3y t)) (float32_of_bits (v3z t))).

(** All vertices of the records, three per record, in order. *)
Definition facetVertexList (facets : list Facet) : list (Vector3 number) :=
  flat_map (fun t => let '(a, b, c) := facetVertices t in [a; b; c]) facets.

(** The normals buffer [computeVertexNormals] leaves: per record, the
    normal computed from its vertices, repeated three times. *)
Definition computedNormals (facets : list Facet) : list number :=
  flat_map (fun t => let '(a, b, c) := facetVertices t in
                     let n := flat (faceNormal a b c) in n ++ n ++ n) facets.

(** The geometry [load] returns for an encoded stream. *)
Definition loadedGeometry (facets : list Facet) : Geometry :=
  bufferGeometry (facetPositions facets) (computedNormals facets)
    (Some (setFromBufferAttribute (facetPositions facets)))
    (Some (sphereFromPositions (facetPositions facets))).

(** [m] is the least (greatest) element of [qs]: the bound computed by hand. *)
Definition minimumOf (qs : list Q) (m : Q) : Prop :=
  In m qs /\ forall q, In q qs -> (m <= q)%Q.

Definition maximumOf (qs : list Q) (m : Q) : Prop :=
  In m qs /\ forall q, In q qs -> (q <= m)%Q.

(** The vertices of a record as bit patterns. *)
Definition facetVertexTriples (t : Facet) : list (Vector3 Z) :=
  [vec3 (v1x t) (v1y t) (v1z t); vec3 (v2x t) (v2y t) (v2z t);
   vec3 (v3x t) (v3y t) (v3z t)].

(** The values of one coordinate over all vertices of the records. *)
Definition facetCoordinates (a : Axis) (facets : list Facet) : list Q :=
  flat_map (fun t => map (fun v => float32_value (component a v)) (facetVertexTriples t))
           facets.

(** Every vertex coordinate of the record is a finite number. *)
Definition finiteFacet (t : Facet) : Prop :=
  forallb finiteWord (facetVertexWords t) = true.

(** A record with another attribute count. *)
Definition withAttribute (a : Z) (t : Facet) : Facet :=
  facet (nx t) (ny t) (nz t) (v1x t) (v1y t) (v1z t) (v2x t) (v2y t) (v2z t)
        (v3x t) (v3y t) (v3z t) a.

(** *** The lines the textual parser tells apart *)

Inductive LineKind : Type := FacetLine | VertexLine | OtherLine.

(** The two tests of the loop of [parseASCII], in their order. *)
Definition lineKind (line : jsstring) : LineKind :=
  let line := trim line in
  if startsWith line (codes "facet normal") then FacetLine
  else if startsWith line (codes "vertex") then VertexLine
  else OtherLine.

Definition isVertexLine (line : jsstring) : bool :=
  match lineKind line with VertexLine => true | _ => false end.

Definition isRead (line : jsstring) : bool :=
  match lineKind line with OtherLine => false | _ => true end.

(** The number of vertex lines among [lines]. *)
Definition vertexLines (lines : list jsstring) : nat :=
  length (List.filter isVertexLine lines).

(** The lines that follow the first [facet normal] line. *)
Fixpoint afterFirstFacet (lines : list jsstring) : list jsstring :=
  match lines with
  | [] => []
  | line :: rest =>
      match lineKind line with
      | FacetLine => rest
      | _ => afterFirstFacet rest
      end
  end.

(** *** The textual encoding, written out *)

(** A number as the file spells it: some ASCII characters, none of them
    white space. *)
Definition tokenChar (c : N) : bool := (c <? 128)%N && negb (isWhiteSpace c).

Definition isToken (s : jsstring) : bool :=
  match s with
  | [] => false
  | _ => forallb tokenChar s
  end.

(** Tokens separated by single spaces. *)
Fixpoint joinTokens (tokens : list jsstring) : jsstring :=
  match tokens with
  | [] => []
  | [t] => t
  | t :: rest => t ++ 32%N :: joinTokens rest
  end.

(** Lines separated by line feeds. *)
Fixpoint joinLines (lines : list jsstring) : jsstring :=
  match lines with
  | [] => []
  | [l] => l
  | l :: rest => l ++ 10%N :: joinLines rest
  end.

Definition indentation (n : nat) : jsstring := repeat 32%N n.

(** One facet of an ASCII file: the spellings of its normal and of its
    three vertices. *)
Record TextFacet : Type := textFacet {
  normalText : Vector3 jsstring;
  vertexAText : Vector3 jsstring;
  vertexBText : Vector3 jsstring;
  vertexCText : Vector3 jsstring
}.

Definition spellings (v : Vector3 jsstring) : list jsstring := [x v; y v; z v].

Definition wellSpelled (t : TextFacet) : bool :=
  forallb isToken
    (spellings (normalText t) ++ spellings (vertexAText t)
     ++ spellings (vertexBText t) ++ spellings (vertexCText t)).

Definition facetLine (t : TextFacet) : jsstring :=
  indentation 2 ++ joinTokens (codes "facet" :: codes "normal" :: spellings (normalText t)).

Definition vertexLine (v : Vector3 jsstring) : jsstring :=
  indentation 6 ++ joinTokens (codes "vertex" :: spellings v).

(** The seven lines of a facet, indented as the format's description in
    the source shows them. *)
Definition renderFacet (t : TextFacet) : list jsstring :=
  [facetLine t;
   indentation 4 ++ codes "outer loop";
   vertexLine (vertexAText t);
   vertexLine (vertexBText t);
   vertexLine (vertexCText t);
   indentation 4 ++ codes "endloop";
   indentation 2 ++ codes "endfacet"].

Definition renderSolid (name : jsstring) (facets : list TextFacet) : list jsstring :=
  (codes "solid " ++ name) :: flat_map renderFacet facets ++ [codes "endsolid " ++ name].

(** ASCII characters without a line feed: a solid's name, a line. *)
Definition isPlain (s : jsstring) : bool :=
  forallb (fun c => (c <? 128)%N && negb (c =? 10)%N) s.

(** ASCII text as bytes. *)
Definition encodeText (text : jsstring) : ArrayBuffer :=
  map (fun c => byteOf (Z.of_N c)) text.

Definition encodeASCII (name : jsstring) (facets : list TextFacet) : ArrayBuffer :=
  encodeText (joinLines (renderSolid name facets)).

(** What the parser makes of the spellings. *)
Definition textNormal (t : TextFacet) : list number :=
  map parseFloat (spellings (normalText t)).

Definition textVertices (t : TextFacet) : list number :=
  map parseFloat (spellings (vertexAText t) ++ spellings (vertexBText t)
                  ++ spellings (vertexCText t)).

Definition textPositions (facets : list TextFacet) : list number :=
  flat_map textVertices facets.

Definition textNormals (facets : list TextFacet) : list number :=
  flat_map (fun t => textNormal t ++ textNormal t ++ textNormal t) facets.

(** [currentNormal] is [null] or an array of three numbers. *)
Definition threeOrNull (currentNormal : option (list number)) : Prop :=
  match currentNormal with
  | Some n => length n = 3%nat
  | None => True
  end.

(** The string begins, and ends, with a character that is no white space. *)
Definition starts (s : jsstring) : Prop :=
  exists c r, s = c :: r /\ isWhiteSpace c = false.

Definition finishes (s : jsstring) : Prop :=
  exists d r, s = r ++ [d] /\ isWhiteSpace d = false.

(** The statistics of a mesh without vertices: the empty box is
    (+Infinity, -Infinity). *)
Definition emptyStats (st : Stats) : Prop :=
  (triangleCount st == 0)%Q /\ vertexCount st = 0 /\
  dimensions st = vec3 NegInf NegInf NegInf /\
  center st = vec3 NaN NaN NaN /\
  statsMin st = vec3 PosInf PosInf PosInf /\
  statsMax st = vec3 NegInf NegInf NegInf.

End Loader.

(** *** A reference environment, for concrete runs

    Decimal literals are read exactly and rounded to the nearest binary64;
    a store into a Float32Array rounds to the nearest binary32; face normals
    and the bounding sphere are computed in exact arithmetic with the square
    root taken to 64 binary places.  It agrees with the JavaScript
    arithmetic wherever that is exact, which is the case in every run
    below. *)

Module Reference.

(** Rounding to the nearest integer, ties to even. *)
Definition roundHalfEven (t : Q) : Z :=
  let f := Qfloor t in
  match (t - inject_Z f ?= 1 # 2)%Q with
  | Lt => f
  | Gt => f + 1
  | Eq => if Z.even f then f else f + 1
  end.

(** Rounding to a binary format of [prec] significant bits whose least
    quantum is [2 ^ qmin] and whose values lie below [2 ^ emax]. *)
Definition roundBinary (prec qmin emax : Z) (n : number) : number :=
  match n with
  | Fin q =>
      if Qeq_bool q 0 then Fin 0
      else
        let a := Qabs q in
        let e0 := Z.log2 (Qnum a) - Z.log2 (Zpos (Qden a)) in
        let e := if Qle_bool (Qpower 2 e0) a then e0 else e0 - 1 in
        let qe := Z.max (e - prec + 1) qmin in
        let r := (inject_Z (roundHalfEven (a / Qpower 2 qe)) * Qpower 2 qe)%Q in
        if Qle_bool (Qpower 2 emax) r
        then (if Qle_bool 0 q then PosInf else NegInf)
        else Fin (Qred (if Qle_bool 0 q then r else - r))%Q
  | other => other
  end.

Definition toBinary64 : number -> number := roundBinary 53 (-1074) 1024.
Definition toBinary32 : number -> number := roundBinary 24 (-149) 128.

(** The longest run of decimal digits at the head of [s]: their value
    appended to [acc], how many there are, and what follows. *)
Fixpoint readDigits (s : list N) (acc : Z) (n : Z) : Z * Z * list N :=
  match s with
  | c :: rest =>
      if ((48 <=? c) && (c <=? 57))%N
      then readDigits rest (10 * acc + Z.of_N (c - 48)) (n + 1)
      else (acc, n, s)
  | [] => (acc, n, s)
  end.

(** An exponent part [e], [e+] or [e-] followed by digits, when present. *)
Definition readExponent (s : list N) : Z :=
  match s with
  | c :: rest =>
      if ((c =? 101) || (c =? 69))%N then
        let '(sign, rest) :=
          match rest with
          | 43%N :: r => (1, r)
          | 45%N :: r => (-1, r)
          | _ => (1, rest)
          end in
        let '(v, n, _) := readDigits rest 0 0 in
        if n =? 0 then 0 else sign * v
      else 0
  | [] => 0
  end.

(** The global [parseFloat]: leading white space, a sign, then [Infinity]
    or the longest decimal literal; NaN when there is none. *)
Definition parseFloat (s : list N) : number :=
  let s := trimStart s in
  let '(negative, s) :=
    match s with
    | 43%N :: r => (false, r)
    | 45%N :: r => (true, r)
    | _ => (false, s)
    end in
  if startsWith s (codes "Infinity") then (if negative then NegInf else PosInf)
  else
    let '(int, intLen, s) := readDigits s 0 0 in
    let '(all, fracLen, s) :=
      match s with
      | 46%N :: r => readDigits r int 0
      | _ => (int, 0, s)
      end in
    if (intLen + fracLen =? 0) then NaN
    else
      let e := readExponent s - fracLen in
      let v := (inject_Z all * Qpower 10 e)%Q in
      toBinary64 (Fin (if negative then - v else v)%Q).

(** A square root to 64 binary places, exact on squares of such numbers. *)
Definition sqrtQ (q : Q) : Q :=
  Qred (Z.sqrt (Qfloor (q * inject_Z (2 ^ 128))) # 2 ^ 64).

Definition finite3 (v : Vector3 number) : option (Q * Q * Q) :=
  match x v, y v, z v with
  | Fin a, Fin b, Fin c => Some (a, b, c)
  | _, _, _ => None
  end.

(** [cb.subVectors(pC, pB); ab.subVectors(pA, pB); cb.cross(ab)], then
    [normalize()] and the store into the normal attribute. *)
Definition faceNormal (pA pB pC : Vector3 number) : Vector3 number :=
  match finite3 pA, finite3 pB, finite3 pC with
  | Some (ax, ay, az), Some (bx, by_, bz), Some (cx, cy, cz) =>
      let '(ux, uy, uz) := (cx - bx, cy - by_, cz - bz)%Q in
      let '(vx, vy, vz) := (ax - bx, ay - by_, az - bz)%Q in
      let '(nx, ny, nz) :=
        (uy * vz - uz * vy, uz * vx - ux * vz, ux * vy - uy * vx)%Q in
      let len := sqrtQ (nx * nx + ny * ny + nz * nz) in
      let len := if Qeq_bool len 0 then 1%Q else len in
      vec3 (toBinary32 (Fin (Qred (nx / len))))
           (toBinary32 (Fin (Qred (ny / len))))
           (toBinary32 (Fin (Qred (nz / len))))
  | _, _, _ => vec3 NaN NaN NaN
  end.

Record Sphere : Type := sphere { sphereCenter : Vector3 number; radius : number }.

(** The sphere around the centre of the bounding box that reaches the
    farthest vertex. *)
Definition sphereFromPositions (array : list number) : Sphere :=
  let b := setFromBufferAttribute array in
  let c := vec3 (JS.half (JS.add (x (min b)) (x (max b))))
                (JS.half (JS.add (y (min b)) (y (max b))))
                (JS.half (JS.add (z (min b)) (z (max b)))) in
  match finite3 c with
  | Some (cx, cy, cz) =>
      let distSq (p : Vector3 number) : Q :=
        match finite3 p with
        | Some (px, py, pz) =>
            ((px - cx) * (px - cx) + (py - cy) * (py - cy) + (pz - cz) * (pz - cz))%Q
        | None => 0%Q
        end in
      let far := fold_left (fun m p => if Qle_bool m (distSq p) then distSq p else m)
                           (items array) 0%Q in
      sphere c (Fin (sqrtQ far))
  | None => sphere c NaN
  end.

#[export] Instance runtime : Runtime := {
  JSRuntime.parseFloat := parseFloat;
  JSRuntime.fround := toBinary32;
  JSRuntime.faceNormal := faceNormal;
  JSRuntime.Sphere := Sphere;
  JSRuntime.sphereFromPositions := sphereFromPositions
}.

End Reference.

(** *** Concrete streams *)

Module Streams.

Import Reference.

Local Open Scope Z_scope.

Definition bytesOf (s : string) : list byte :=
  map byte_of_ascii (list_ascii_of_string s).

(** A header of 80 zero bytes. *)
Definition blankHeader : list byte := repeat x00 80.

(** The triangle (0,0,0), (1,0,0), (0,1,0), which faces +Z, recorded with
    the normal (0,0,-1).  [1.0] is 0x3F800000 and [-1.0] is 0xBF800000. *)
Definition flippedFacet : Facet :=
  facet 0 0 3212836864
        0 0 0
        1065353216 0 0
        0 1065353216 0
        0.

(** A stream that declares two records and carries one. *)
Definition truncatedStream : list byte :=
  blankHeader ++ encodeUint32 2 ++ encodeFacet flippedFacet.

(** An empty solid in the textual encoding: 18 bytes. *)
Definition emptySolid : list byte := bytesOf "solid a
endsolid a".

(** The triangle (0,0,0), (1,0,0), (0,1.5,0) as a textual facet, with the
    normal (0,0,1). *)
Definition textTriangle : TextFacet :=
  textFacet (vec3 (codes "0") (codes "0") (codes "1"))
            (vec3 (codes "0") (codes "0") (codes "0"))
            (vec3 (codes "1") (codes "0") (codes "0"))
            (vec3 (codes "0") (codes "1.5") (codes "0")).

(** A header of 80 bytes 0xFF. *)
Definition filledHeader : list byte := repeat xff 80.

(** Three vertex lines ahead of the only [facet normal] line. *)
Definition vertexFirstSolid : list byte := bytesOf "vertex 0 0 0
vertex 1 0 0
vertex 0 1 0
facet normal 0 0 1".

End Streams.

End STLLoader.

(** ** THREE.Raycaster, as the path generator uses it *)

Module Raycasting.

Local Open Scope Q_scope.

(** One entry of the array [raycaster.intersectObject] returns. *)
Record Intersection : Type := intersection {
  distance : Q;
  point : Vector3 Q
}.

(** The ray caster of the environment: the intersections of the ray from
    [origin] along [direction] with a mesh.  It is part of three.js, not of
    this repository; the generator is verified for every ray caster. *)
Class Raycaster (Mesh : Type) : Type := {
  intersectObject : Mesh -> Vector3 Q -> Vector3 Q -> list Intersection
}.

End Raycasting.

Import Raycasting.

(** ** toolpath-generator.js *)

Module ToolpathGenerator.

Local Open Scope Q_scope.

Definition Qlt_bool (a b : Q) : bool := negb (Qle_bool b a).

(** [Math.max] and [Math.ceil]. *)
Definition mathMax (a b : Q) : Q := if Qle_bool a b then b else a.
Definition mathCeil (a : Q) : Z := Qceiling a.

(** The selection volume. *)
Record Bounds : Type := makeBounds { min : Vector3 Q; max : Vector3 Q }.

Record Params : Type := makeParams {
  toolDiameter : Q;
  stepover : Q;
  stepdown : Q;
  feedRate : Q;
  safeZ : Q
}.

(** The constructor's parameters; [0.4] is 40% of the tool diameter. *)
Definition defaultParams : Params := makeParams 1 (4 # 10) (1 # 2) 100 5.

(** One entry of [this.toolpath]. *)
Module Layer.
Record t : Type := make {
  layer : Z;
  z : Q;
  points : list (Vector3 Q)
}.
End Layer.

Section Generator.

Context {Mesh : Type} `{RC : Raycaster Mesh}.

(** The generator object.  [this.raycaster] is the ray caster of the
    environment. *)
Record ToolpathGenerator : Type := toolpathGenerator {
  mesh : option Mesh;
  bounds : option Bounds;
  params : Params;
  toolpath : list Layer.t
}.

Definition constructor : ToolpathGenerator :=
  toolpathGenerator None None defaultParams [].

(** [this.bounds].  The scanning methods are called by [generate] only,
    after it has set [this.mesh] and [this.bounds]; on the constructor's
    nulls they would raise a TypeError, which the model leaves out. *)
Definition thisBounds (this : ToolpathGenerator) : Bounds :=
  match bounds this with
  | Some b => b
  | None => makeBounds (vec3 0 0 0) (vec3 0 0 0)
  end.

(** *** findSurfaceAtPoint *)

(** The [for (let hit of intersects)] loop: the first hit in range. *)
Fixpoint firstHitWithin (floorZ maxZ : Q) (intersects : list Intersection) : option Q :=
  match intersects with
  | [] => None
  | hit :: rest =>
      if Qle_bool (THREE.z (point hit)) maxZ && Qle_bool floorZ (THREE.z (point hit))
      then Some (THREE.z (point hit))
      else firstHitWithin floorZ maxZ rest
  end.

(** [findSurfaceAtPoint(x, y, maxZ)]; [None] is [null]. *)
Definition findSurfaceAtPoint (this : ToolpathGenerator) (x y maxZ : Q) : option Q :=
  let origin := vec3 x y (maxZ + 100) in
  let direction := vec3 0 0 (-1) in
  let intersects :=
    match mesh this with
    | Some m => intersectObject m origin direction
    | None => []
    end in
  firstHitWithin (THREE.z (min (thisBounds this))) maxZ intersects.

(** *** checkNeedsMachining *)

Definition checkNeedsMachining (this : ToolpathGenerator) (x y z : Q) : bool :=
  let b := thisBounds this in
  if Qlt_bool x (THREE.x (min b)) || Qlt_bool (THREE.x (max b)) x
     || Qlt_bool y (THREE.y (min b)) || Qlt_bool (THREE.y (max b)) y
     || Qlt_bool z (THREE.z (min b)) || Qlt_bool (THREE.z (max b)) z
  then false
  else true.

(** *** scanLine *)

(** The [for] loop over [i], with [n] steps left. *)
Fixpoint scanLineLoop (this : ToolpathGenerator) (n : nat) (i : Z)
    (xStart scanStep y z toolRadius : Q) (points : list (Vector3 Q))
    : list (Vector3 Q) :=
  match n with
  | O => points
  | S n' =>
      let x := xStart + inject_Z i * scanStep in
      let points :=
        match findSurfaceAtPoint this x y z with
        | Some surfaceZ =>
            if checkNeedsMachining this x y surfaceZ
            then points ++ [vec3 x y (surfaceZ + toolRadius)]
            else points
        | None => points
        end in
      scanLineLoop this n' (i + 1) xStart scanStep y z toolRadius points
  end.

(** [i] runs from 0 to [numSteps] inclusive. *)
Definition scanLine (this : ToolpathGenerator) (xStart xEnd y z toolRadius : Q)
  : list (Vector3 Q) :=
  let scanStep := toolDiameter (params this) * (2 # 10) in
  let numSteps := mathCeil ((xEnd - xStart) / scanStep) in
  scanLineLoop this (Z.to_nat (numSteps + 1)) 0 xStart scanStep y z toolRadius [].

(** *** generateContourAtZ *)

(** The [for] loop over [scanIdx], with [n] rows left; [break] ends it. *)
Fixpoint contourLoop (this : ToolpathGenerator) (n : nat) (scanIdx : Z)
    (zLevel stepover toolRadius : Q) (points : list (Vector3 Q))
    : list (Vector3 Q) :=
  match n with
  | O => points
  | S n' =>
      let b := thisBounds this in
      let y := THREE.y (min b) + inject_Z scanIdx * stepover in
      if Qlt_bool (THREE.y (max b)) y then points
      else
        let scanPoints :=
          scanLine this (THREE.x (min b)) (THREE.x (max b)) y zLevel toolRadius in
        let scanPoints :=
          if (scanIdx mod 2 =? 1)%Z then rev scanPoints else scanPoints in
        contourLoop this n' (scanIdx + 1) zLevel stepover toolRadius
                    (points ++ scanPoints)
  end.

Definition generateContourAtZ (this : ToolpathGenerator) (zLevel stepover toolRadius : Q)
  : list (Vector3 Q) :=
  let b := thisBounds this in
  let numScans := mathCeil ((THREE.y (max b) - THREE.y (min b)) / stepover) in
  contourLoop this (Z.to_nat numScans) 0 zLevel stepover toolRadius [].

(** *** generate *)

(** The layer loop with [n] layers left: the generator (its [toolpath]
    grows) and the values passed to the progress callback so far. *)
Fixpoint generateLoop (this : ToolpathGenerator) (n : nat) (layerIdx numLayers : Z)
    (stepover toolRadius : Q) (progress : list Q)
    : ToolpathGenerator * list Q :=
  match n with
  | O => (this, progress)
  | S n' =>
      let zStart := THREE.z (max (thisBounds this)) in
      let zEnd := THREE.z (min (thisBounds this)) in
      let zLevel := zStart - inject_Z layerIdx * stepdown (params this) in
      let actualZ := mathMax zLevel zEnd in
      let progress := progress ++ [inject_Z (layerIdx + 1) / inject_Z numLayers] in
      let contourPoints := generateContourAtZ this actualZ stepover toolRadius in
      let this :=
        if (0 <? length contourPoints)%nat
        then toolpathGenerator (mesh this) (bounds this) (params this)
               (toolpath this ++ [Layer.make layerIdx actualZ contourPoints])
        else this in
      generateLoop this n' (layerIdx + 1) numLayers stepover toolRadius progress
  end.

(** [generate(mesh, bounds, progressCallback)]: the generator after the
    call and the progress reports; the returned array is its [toolpath].
    The awaits only yield to the event loop between layers. *)
Definition generate (this : ToolpathGenerator) (m : Mesh) (b : Bounds)
  : ToolpathGenerator * list Q :=
  let this := toolpathGenerator (Some m) (Some b) (params this) [] in
  let toolRadius := toolDiameter (params this) / 2 in
  let stepover := toolDiameter (params this) * stepover (params this) in
  let zStart := THREE.z (max b) in
  let zEnd := THREE.z (min b) in
  let numLayers := mathCeil ((zStart - zEnd) / stepdown (params this)) in
  generateLoop this (Z.to_nat numLayers) 0 numLayers stepover toolRadius [].

(** [setParams]: the given fields replace the held ones. *)
Definition setParams (this : ToolpathGenerator) (p : Params) : ToolpathGenerator :=
  toolpathGenerator (mesh this) (bounds this) p (toolpath this).

(** [getTotalPoints]. *)
Definition getTotalPoints (this : ToolpathGenerator) : nat :=
  fold_left (fun sum l => (sum + length (Layer.points l))%nat) (toolpath this) 0%nat.

(** *** The state the scanning methods read *)

(** The generator as [generate] sets it up: mesh, selection and parameters
    fixed, the path grown so far. *)
Definition running (m : Mesh) (b : Bounds) (p : Params) (path : list Layer.t)
  : ToolpathGenerator :=
  toolpathGenerator (Some m) (Some b) p path.

(** *** The layers of a run *)

Definition toolRadiusOf (p : Params) : Q := toolDiameter p / 2.
Definition stepoverOf (p : Params) : Q := toolDiameter p * stepover p.

(** [numLayers] of [generate]. *)
Definition numLayersOf (b : Bounds) (p : Params) : Z :=
  mathCeil ((THREE.z (max b) - THREE.z (min b)) / stepdown p).

(** [actualZ] of iteration [k]. *)
Definition layerPlane (b : Bounds) (p : Params) (k : Z) : Q :=
  mathMax (THREE.z (max b) - inject_Z k * stepdown p) (THREE.z (min b)).

(** What the scan of iteration [k] yields. *)
Definition layerContour (m : Mesh) (b : Bounds) (p : Params) (k : Z) : list (Vector3 Q) :=
  generateContourAtZ (running m b p []) (layerPlane b p k) (stepoverOf p) (toolRadiusOf p).

(** The entry iteration [k] would push. *)
Definition layerAt (m : Mesh) (b : Bounds) (p : Params) (k : Z) : Layer.t :=
  Layer.make k (layerPlane b p k) (layerContour m b p k).

Definition nonEmpty (l : Layer.t) : bool := (0 <? length (Layer.points l))%nat.

(** [k, k+1, ..., k+n-1]. *)
Fixpoint indices (n : nat) (k : Z) : list Z :=
  match n with
  | O => []
  | S n' => k :: indices n' (k + 1)
  end.

(** *** The surface query *)

(** The height of a hit lies in the closed interval [floorZ, maxZ]. *)
Definition within (floorZ maxZ : Q) (hit : Intersection) : Prop :=
  floorZ <= THREE.z (point hit) <= maxZ.

(** *** The points of a row, of a layer *)

(** A point emitted for the layer plane [zLevel]: scanned at [(x, y)]
    inside the selection, over a surface height inside the selection and
    not above the plane, and lifted by the tool radius. *)
Definition emitted (b : Bounds) (toolRadius zLevel : Q) (p : Vector3 Q) : Prop :=
  exists surfaceZ,
    THREE.z p = surfaceZ + toolRadius /\
    THREE.x (min b) <= THREE.x p <= THREE.x (max b) /\
    THREE.y (min b) <= THREE.y p <= THREE.y (max b) /\
    THREE.z (min b) <= surfaceZ <= THREE.z (max b) /\
    surfaceZ <= zLevel.

(** *** The rows of a layer *)

Definition increasingX (row : list (Vector3 Q)) : Prop :=
  StronglySorted (fun p q => THREE.x p < THREE.x q) row.

Definition decreasingX (row : list (Vector3 Q)) : Prop :=
  StronglySorted (fun p q => THREE.x q < THREE.x p) row.

(** The Y position of the row with Y-step index [j]. *)
Definition rowY (b : Bounds) (stepover : Q) (j : Z) : Q :=
  THREE.y (min b) + inject_Z j * stepover.

(** Row [j] as scanned, from the least X to the greatest. *)
Definition rowScan (this : ToolpathGenerator) (zLevel stepover toolRadius : Q) (j : Z)
  : list (Vector3 Q) :=
  let b := thisBounds this in
  scanLine this (THREE.x (min b)) (THREE.x (max b)) (rowY b stepover j) zLevel toolRadius.

(** Row [j] as appended to the layer. *)
Definition rowAppended (this : ToolpathGenerator) (zLevel stepover toolRadius : Q) (j : Z)
  : list (Vector3 Q) :=
  if (j mod 2 =? 1)%Z then rev (rowScan this zLevel stepover toolRadius j)
  else rowScan this zLevel stepover toolRadius j.

(** *** The other methods *)

(** [getToolpath]. *)
Definition getToolpath (this : ToolpathGenerator) : list Layer.t := toolpath this.

(** [clear]: the path, the mesh and the selection are dropped, the
    parameters stay. *)
Definition clear (this : ToolpathGenerator) : ToolpathGenerator :=
  toolpathGenerator None None (params this) [].

(** *** The scan grid *)

(** [scanStep] and [numSteps] of [scanLine], [numScans] of
    [generateContourAtZ], for the rows of a run. *)
Definition scanStepOf (p : Params) : Q := toolDiameter p * (2 # 10).

Definition numStepsOf (b : Bounds) (p : Params) : Z :=
  mathCeil ((THREE.x (max b) - THREE.x (min b)) / scanStepOf p).

Definition numScansOf (b : Bounds) (p : Params) : Z :=
  mathCeil ((THREE.y (max b) - THREE.y (min b)) / stepoverOf p).

(** A position of the grid the loops visit: column [i] of row [j]. *)
Definition onGrid (b : Bounds) (p : Params) (pt : Vector3 Q) : Prop :=
  exists i j : Z,
    (0 <= i <= numStepsOf b p)%Z /\ (0 <= j < numScansOf b p)%Z /\
    THREE.x pt = THREE.x (min b) + inject_Z i * scanStepOf p /\
    THREE.y pt = rowY b (stepoverOf p) j.

(** A point scanned in the row at [y], at a column from [lo] up to, not
    including, [hi]. *)
Definition inRow (xStart scanStep y : Q) (lo hi : Z) (pt : Vector3 Q) : Prop :=
  exists i : Z,
    (lo <= i < hi)%Z /\
    THREE.x pt = xStart + inject_Z i * scanStep /\ THREE.y pt = y.

(** The point counts of the layers of a path. *)
Definition pointCounts (path : list Layer.t) : list nat :=
  map (fun l => length (Layer.points l)) path.

(** *** Planes one above the other *)

(** Whether [scanLine] pushes a point when it stands at [(x, y)] for the
    plane [z]: the surface query answers and the answer passes
    [checkNeedsMachining]. *)
Definition machinable (this : ToolpathGenerator) (x y z : Q) : bool :=
  match findSurfaceAtPoint this x y z with
  | Some surfaceZ => checkNeedsMachining this x y surfaceZ
  | None => false
  end.

(** What the generator needs of the ray caster to compare two planes: a
    hit of a ray cast straight down is still hit, at the same height, when
    the ray starts higher up. *)
Definition keepsHitsWhenRaised (m : Mesh) : Prop :=
  forall (x y z z' : Q) (hit : Intersection),
    z <= z' ->
    In hit (intersectObject m (vec3 x y z) (vec3 0 0 (-1))) ->
    exists hit',
      In hit' (intersectObject m (vec3 x y z') (vec3 0 0 (-1))) /\
      THREE.z (point hit') == THREE.z (point hit).

End Generator.

Arguments ToolpathGenerator Mesh : clear implicits.

(** *** A ray caster over a triangle soup *)

(** Modelled from the spec: [THREE.Raycaster.intersectObject] on a
    double-sided mesh, which is part of three.js and not of this
    repository.  Section 4.2: the ray is tested against every triangle with
    an exact ray-triangle test, a triangle of zero area or parallel to the
    ray gives no hit, all intersections are collected and sorted by
    increasing distance from the ray origin.  Directions are unit vectors,
    so the distance of a hit is its ray parameter. *)
Module MeshRaycaster.

Record Triangle : Type := triangle {
  vertexA : Vector3 Q;
  vertexB : Vector3 Q;
  vertexC : Vector3 Q
}.

Definition sub (u v : Vector3 Q) : Vector3 Q :=
  vec3 (THREE.x u - THREE.x v) (THREE.y u - THREE.y v) (THREE.z u - THREE.z v).

Definition cross (u v : Vector3 Q) : Vector3 Q :=
  vec3 (THREE.y u * THREE.z v - THREE.z u * THREE.y v)
       (THREE.z u * THREE.x v - THREE.x u * THREE.z v)
       (THREE.x u * THREE.y v - THREE.y u * THREE.x v).

Definition dot (u v : Vector3 Q) : Q :=
  THREE.x u * THREE.x v + THREE.y u * THREE.y v + THREE.z u * THREE.z v.

(** [ray.at(t)]. *)
Definition at_ (origin direction : Vector3 Q) (t : Q) : Vector3 Q :=
  vec3 (Qred (THREE.x origin + t * THREE.x direction))
       (Qred (THREE.y origin + t * THREE.y direction))
       (Qred (THREE.z origin + t * THREE.z direction)).

(** [ray.intersectTriangle(a, b, c, false)]: edges and corners belong to
    the triangle; a hit behind the origin is none. *)
Definition intersectTriangle (origin direction : Vector3 Q) (t : Triangle)
  : option Intersection :=
  let edge1 := sub (vertexB t) (vertexA t) in
  let edge2 := sub (vertexC t) (vertexA t) in
  let normal := cross edge1 edge2 in
  let DdN := dot direction normal in
  if Qeq_bool DdN 0 then None
  else
    let sign : Q := if Qlt_bool 0 DdN then 1 else -1 in
    let DdN := sign * DdN in
    let diff := sub origin (vertexA t) in
    let DdQxE2 := sign * dot direction (cross diff edge2) in
    if Qlt_bool DdQxE2 0 then None
    else
      let DdE1xQ := sign * dot direction (cross edge1 diff) in
      if Qlt_bool DdE1xQ 0 then None
      else if Qlt_bool DdN (DdQxE2 + DdE1xQ) then None
      else
        let QdN := - sign * dot diff normal in
        if Qlt_bool QdN 0 then None
        else
          let t := Qred (QdN / DdN) in
          Some (intersection t (at_ origin direction t)).

(** The hits of the ray with the triangles, in the order of the mesh. *)
Definition triangleHits (origin direction : Vector3 Q) (mesh : list Triangle)
  : list Intersection :=
  flat_map (fun t => match intersectTriangle origin direction t with
                     | Some hit => [hit]
                     | None => []
                     end) mesh.

(** [intersects.sort(ascSort)], a stable sort by distance. *)
Fixpoint insertHit (hit : Intersection) (sorted : list Intersection) : list Intersection :=
  match sorted with
  | [] => [hit]
  | h :: rest =>
      if Qle_bool (distance hit) (distance h) then hit :: sorted
      else h :: insertHit hit rest
  end.

Definition sortByDistance (hits : list Intersection) : list Intersection :=
  fold_right insertHit [] hits.

#[export] Instance raycaster : Raycaster (list Triangle) := {
  intersectObject mesh origin direction :=
    sortByDistance (triangleHits origin direction mesh)
}.

Definition byDistance (h h' : Intersection) : Prop := distance h <= distance h'.

End MeshRaycaster.

(** *** Concrete meshes, selections and parameters *)

Module Plates.

Import MeshRaycaster.

(** A horizontal plate at height [h]: two triangles over [-10, 10] x [-10, 10]. *)
Definition plate (h : Q) : list Triangle :=
  [triangle (vec3 (-10) (-10) h) (vec3 10 (-10) h) (vec3 10 10 h);
   triangle (vec3 (-10) (-10) h) (vec3 10 10 h) (vec3 (-10) 10 h)].

(** Tool diameter 5 (radius 5/2, row spacing 2, scan step 1), stepdown 3/4. *)
Definition coarse : Params := makeParams 5 (4 # 10) (3 # 4) 100 5.

(** The same tool with stepdown 1. *)
Definition unitStep : Params := makeParams 5 (4 # 10) 1 100 5.

(** The selection [0, 2] x [0, 4] x [-1, 1]: Z-extent 2, two rows (y = 0
    and y = 2) of three scan positions (x = 0, 1, 2). *)
Definition box : Bounds := makeBounds (vec3 0 0 (-1)) (vec3 2 4 1).

Definition generator (p : Params) : ToolpathGenerator (list Triangle) :=
  setParams constructor p.

(** A layer with its numbers in lowest terms. *)
Definition normalised (l : Layer.t) : Layer.t :=
  Layer.make (Layer.layer l) (Qred (Layer.z l))
    (map (fun q => vec3 (Qred (THREE.x q)) (Qred (THREE.y q)) (Qred (THREE.z q)))
         (Layer.points l)).

(** The path of a run, in lowest terms. *)
Definition run (p : Params) (mesh : list Triangle) (b : Bounds) : list Layer.t :=
  map normalised (toolpath (fst (generate (generator p) mesh b))).

(** The zig-zag over the plate: row 0 left to right, row 1 right to left,
    every point lifted by the tool radius over the plate. *)
Definition zigzag (h : Q) : list (Vector3 Q) :=
  [vec3 0 0 h; vec3 1 0 h; vec3 2 0 h; vec3 2 2 h; vec3 1 2 h; vec3 0 2 h].

End Plates.

End ToolpathGenerator.

(** ** gcode-exporter.js *)

Module GCodeExporter.

Import ToolpathGenerator.
Local Open Scope Q_scope.

(** What the exporter takes from its environment: how a number prints in a
    template literal, and the time stamp of the header. *)
Class Printing : Type := {
  numberToString : Q -> string;
  toISOString : string
}.

(** An integer in a template literal. *)
Definition integerToString (n : Z) : string := NilZero.string_of_int (Z.to_int n).

Definition digit (n : Z) : ascii := ascii_of_nat (48 + Z.to_nat n).

(** [value.toFixed(3)]: the sign, then the integer nearest to
    [|value| * 1000] (the larger one on a tie) written with a point before
    its last three digits.  Magnitudes of 10^21 and more, which print in
    exponent notation, are outside the model. *)
Definition toFixed3 (value : Q) : string :=
  let n := Qfloor (Qabs value * 1000 + (1 # 2)) in
  let sign := if Qle_bool 0 value then EmptyString else "-"%string in
  let fraction :=
    String (digit ((n / 100) mod 10))
      (String (digit ((n / 10) mod 10)) (String (digit (n mod 10)) EmptyString)) in
  String.concat "" [sign; integerToString (n / 1000); "."%string; fraction].

(** A template literal: its pieces one after the other. *)
Definition template (pieces : list string) : string := String.concat "" pieces.

Record Params : Type := makeParams {
  feedRate : Q;
  safeZ : Q;
  toolDiameter : Q
}.

Record GCodeExporter : Type := gcodeExporter { params : Params }.

Definition constructor : GCodeExporter := gcodeExporter (makeParams 100 5 1).

Definition setParams (this : GCodeExporter) (p : Params) : GCodeExporter :=
  gcodeExporter p.

(** [lines.push(line)]. *)
Definition push (lines : list string) (line : string) : list string := lines ++ [line].

(** [countTotalPoints]. *)
Definition countTotalPoints (toolpath : list Layer.t) : nat :=
  fold_left (fun sum layer => (sum + length (Layer.points layer))%nat) toolpath 0%nat.

Section Exporter.

Context `{PR : Printing}.

(** The cutting loop from index [j] on, over the points not yet written. *)
Fixpoint cuttingLoop (lines : list string) (j : nat) (rest : list (Vector3 Q))
    (pointCount : nat) : list string :=
  match rest with
  | [] => lines
  | point :: rest' =>
      let lines :=
        push lines (template ["G1 X"; toFixed3 (THREE.x point);
                              " Y"; toFixed3 (THREE.y point);
                              " Z"; toFixed3 (THREE.z point)]%string) in
      let lines :=
        if (j mod 50 =? 0)%nat
        then push lines (template ["; Progress: "; integerToString (Z.of_nat j); "/";
                                   integerToString (Z.of_nat pointCount);
                                   " points"]%string)
        else lines in
      cuttingLoop lines (S j) rest' pointCount
  end.

(** The loop over the layers. *)
Fixpoint layerLoop (this : GCodeExporter) (lines : list string) (total : nat)
    (layers : list Layer.t) : list string :=
  match layers with
  | [] => lines
  | layer :: layers' =>
      let lines :=
        push lines (template ["; ====== Layer "; integerToString (Layer.layer layer + 1);
                              "/"; integerToString (Z.of_nat total);
                              " - Z="; toFixed3 (Layer.z layer); " ======"]%string) in
      let lines :=
        push lines (template ["; Points in layer: ";
                              integerToString (Z.of_nat (length (Layer.points layer)))]%string) in
      let lines := push lines ""%string in
      match Layer.points layer with
      | [] =>
          let lines := push lines "; (No points in this layer)"%string in
          let lines := push lines ""%string in
          layerLoop this lines total layers'
      | firstPoint :: rest =>
          let lines := push lines "; Move to start position"%string in
          let lines :=
            push lines (template ["G0 Z"; toFixed3 (safeZ (params this));
                                  "    ; Safe height"]%string) in
          let lines :=
            push lines (template ["G0 X"; toFixed3 (THREE.x firstPoint);
                                  " Y"; toFixed3 (THREE.y firstPoint)]%string) in
          let lines :=
            push lines (template ["G1 Z"; toFixed3 (THREE.z firstPoint);
                                  "   ; Lower to cutting depth"]%string) in
          let lines := push lines ""%string in
          let lines := push lines "; Start cutting"%string in
          let lines := cuttingLoop lines 1 rest (length (Layer.points layer)) in
          let lines := push lines ""%string in
          let lines :=
            push lines (template ["G0 Z"; toFixed3 (safeZ (params this));
                                  "    ; Retract"]%string) in
          let lines := push lines ""%string in
          layerLoop this lines total layers'
      end
  end.

(** The lines of [export(toolpath)], before [lines.join]. *)
Definition exportLines (this : GCodeExporter) (toolpath : list Layer.t) : list string :=
  let lines := [] in
  let lines := push lines "%"%string in
  let lines := push lines "; ============================================================"%string in
  let lines := push lines "; STL CAM Tool - Auto-generated G-code"%string in
  let lines := push lines "; ============================================================"%string in
  let lines := push lines ";"%string in
  let lines := push lines (template ["; Generated: "; toISOString]%string) in
  let lines :=
    push lines (template ["; Tool Diameter: "; numberToString (toolDiameter (params this));
                          " mm"]%string) in
  let lines :=
    push lines (template ["; Feed Rate: "; numberToString (feedRate (params this));
                          " mm/min"]%string) in
  let lines :=
    push lines (template ["; Safe Z: "; numberToString (safeZ (params this)); " mm"]%string) in
  let lines :=
    push lines (template ["; Total Layers: ";
                          integerToString (Z.of_nat (length toolpath))]%string) in
  let lines :=
    push lines (template ["; Total Points: ";
                          integerToString (Z.of_nat (countTotalPoints toolpath))]%string) in
  let lines := push lines "; ============================================================"%string in
  let lines := push lines ""%string in
  let lines := push lines "; ========== INITIALIZATION =========="%string in
  let lines := push lines "G90                 ; Absolute coordinates"%string in
  let lines := push lines "G21                 ; Metric units (mm)"%string in
  let lines := push lines "G40 G49 G80         ; Cancel offsets and cycles"%string in
  let lines := push lines "G94                 ; Feed per minute mode"%string in
  let lines := push lines ""%string in
  let lines :=
    push lines (template ["F"; numberToString (feedRate (params this));
                          "       ; Set feed rate"]%string) in
  let lines := push lines ""%string in
  let lines :=
    push lines (template ["G0 Z"; toFixed3 (safeZ (params this));
                          "    ; Retract to safe height"]%string) in
  let lines := push lines "G0 X0.000 Y0.000   ; Move to origin"%string in
  let lines := push lines ""%string in
  let lines := push lines "; ========== MACHINING OPERATIONS =========="%string in
  let lines := push lines ""%string in
  let lines := layerLoop this lines (length toolpath) toolpath in
  let lines := push lines "; ========== PROGRAM END =========="%string in
  let lines :=
    push lines (template ["G0 Z"; toFixed3 (safeZ (params this));
                          "    ; Final retract"]%string) in
  let lines := push lines "G0 X0.000 Y0.000   ; Return to origin"%string in
  let lines := push lines "M5                  ; Stop spindle (if applicable)"%string in
  let lines := push lines "M30                 ; Program end and rewind"%string in
  let lines := push lines "%"%string in
  lines.

(** [export(toolpath)]: the lines joined by line feeds. *)
Definition export (this : GCodeExporter) (toolpath : list Layer.t) : string :=
  String.concat (String (ascii_of_nat 10) EmptyString) (exportLines this toolpath).

(** *** The program, block by block *)

(** The lines before the layers. *)
Definition preamble (this : GCodeExporter) (toolpath : list Layer.t) : list string :=
  ["%"; "; ============================================================";
   "; STL CAM Tool - Auto-generated G-code";
   "; ============================================================";
   ";";
   template ["; Generated: "; toISOString];
   template ["; Tool Diameter: "; numberToString (toolDiameter (params this)); " mm"];
   template ["; Feed Rate: "; numberToString (feedRate (params this)); " mm/min"];
   template ["; Safe Z: "; numberToString (safeZ (params this)); " mm"];
   template ["; Total Layers: "; integerToString (Z.of_nat (length toolpath))];
   template ["; Total Points: "; integerToString (Z.of_nat (countTotalPoints toolpath))];
   "; ============================================================";
   "";
   "; ========== INITIALIZATION ==========";
   "G90                 ; Absolute coordinates";
   "G21                 ; Metric units (mm)";
   "G40 G49 G80         ; Cancel offsets and cycles";
   "G94                 ; Feed per minute mode";
   "";
   template ["F"; numberToString (feedRate (params this)); "       ; Set feed rate"];
   "";
   template ["G0 Z"; toFixed3 (safeZ (params this)); "    ; Retract to safe height"];
   "G0 X0.000 Y0.000   ; Move to origin";
   "";
   "; ========== MACHINING OPERATIONS ==========";
   ""]%string.

(** The lines after the layers. *)
Definition ending (this : GCodeExporter) : list string :=
  ["; ========== PROGRAM END ==========";
   template ["G0 Z"; toFixed3 (safeZ (params this)); "    ; Final retract"];
   "G0 X0.000 Y0.000   ; Return to origin";
   "M5                  ; Stop spindle (if applicable)";
   "M30                 ; Program end and rewind";
   "%"]%string.

(** A rapid move to the safe height, with its trailing remark. *)
Definition rapidToSafeZ (this : GCodeExporter) (remark : string) : string :=
  template ["G0 Z"%string; toFixed3 (safeZ (params this)); remark].

(** A rapid move over the XY position of a point. *)
Definition rapidToXY (p : Vector3 Q) : string :=
  template ["G0 X"; toFixed3 (THREE.x p); " Y"; toFixed3 (THREE.y p)]%string.

(** The plunge: a controlled-feed move to the height of a point. *)
Definition plungeTo (p : Vector3 Q) : string :=
  template ["G1 Z"; toFixed3 (THREE.z p); "   ; Lower to cutting depth"]%string.

(** A controlled-feed move to a point, with X, Y and Z. *)
Definition feedTo (p : Vector3 Q) : string :=
  template ["G1 X"; toFixed3 (THREE.x p); " Y"; toFixed3 (THREE.y p);
            " Z"; toFixed3 (THREE.z p)]%string.

Definition progressComment (j pointCount : nat) : string :=
  template ["; Progress: "; integerToString (Z.of_nat j); "/";
            integerToString (Z.of_nat pointCount); " points"]%string.

(** The banner of a layer: two comments and a blank line. *)
Definition banner (total : nat) (layer : Layer.t) : list string :=
  [template ["; ====== Layer "; integerToString (Layer.layer layer + 1); "/";
             integerToString (Z.of_nat total); " - Z="; toFixed3 (Layer.z layer);
             " ======"];
   template ["; Points in layer: ";
             integerToString (Z.of_nat (length (Layer.points layer)))];
   ""]%string.

(** The moves over the points from index [j] on: one move per point, and
    after the move of a point whose index is a multiple of 50 a comment. *)
Fixpoint cuttingBlock (j : nat) (rest : list (Vector3 Q)) (pointCount : nat) : list string :=
  match rest with
  | [] => []
  | point :: rest' =>
      feedTo point
        :: (if (j mod 50 =? 0)%nat then [progressComment j pointCount] else [])
        ++ cuttingBlock (S j) rest' pointCount
  end.

(** The lines of one layer. *)
Definition layerBlock (this : GCodeExporter) (total : nat) (layer : Layer.t) : list string :=
  banner total layer ++
  match Layer.points layer with
  | [] => ["; (No points in this layer)"; ""]%string
  | firstPoint :: rest =>
      ["; Move to start position";
       rapidToSafeZ this "    ; Safe height"%string;
       rapidToXY firstPoint;
       plungeTo firstPoint;
       "";
       "; Start cutting"]%string
      ++ cuttingBlock 1 rest (length (Layer.points layer))
      ++ [""%string; rapidToSafeZ this "    ; Retract"%string; ""%string]
  end.

(** The motion commands among some lines, in order: the lines that start
    with the letter G. *)
Definition commands (lines : list string) : list string :=
  List.filter (String.prefix "G"%string) lines.

(** The controlled-feed moves, the rapid moves and the placeholder
    comments among some lines. *)
Definition feedMoves (lines : list string) : list string :=
  List.filter (String.prefix "G1"%string) lines.

Definition rapidMoves (lines : list string) : list string :=
  List.filter (String.prefix "G0"%string) lines.

Definition placeholders (lines : list string) : list string :=
  List.filter (String.eqb "; (No points in this layer)"%string) lines.

(** The layers of a path that hold a point. *)
Definition layersWithPoints (toolpath : list Layer.t) : list Layer.t :=
  List.filter nonEmpty toolpath.

(** The progress comments among some lines. *)
Definition progressComments (lines : list string) : list string :=
  List.filter (String.prefix "; Progress: "%string) lines.

(** The number of lines a layer of [n] points takes in the program: the
    banner and the placeholder, or the banner, the approach, one line per
    further point, a comment for every fiftieth of them, and the retract. *)
Definition blockLength (n : nat) : nat :=
  match n with
  | O => 5
  | S further => 12 + further + further / 50
  end%nat.

(** Stepping through the commands of a program: every rapid move in X and
    Y comes straight after a rapid move to [height]. *)
Fixpoint rapidsFollowRetract (height : string) (retracted : bool) (cmds : list string)
  : bool :=
  match cmds with
  | [] => true
  | cmd :: rest =>
      if String.prefix "G0 X"%string cmd
      then retracted && rapidsFollowRetract height false rest
      else rapidsFollowRetract height (String.prefix ("G0 Z" ++ height)%string cmd) rest
  end.

(** [estimateSize]. *)
Definition estimateSize (toolpath : list Layer.t) : nat :=
  let totalPoints := countTotalPoints toolpath in
  let avgBytesPerLine := 40%nat in
  let headerFooterBytes := 1000%nat in
  (totalPoints * avgBytesPerLine + headerFooterBytes)%nat.

End Exporter.

(** *** A reference environment and the specification's example *)

Module Reference.

(** The digits after the point of a value in [0, 1), at most [places] of
    them, without trailing zeros. *)
Fixpoint fractionDigits (places : nat) (r : Q) : string :=
  match places with
  | O => EmptyString
  | S places' =>
      if Qeq_bool r 0 then EmptyString
      else
        let d := Qfloor (r * 10) in
        String (digit d) (fractionDigits places' (r * 10 - inject_Z d))
  end.

(** Numbers in template literals: the decimal expansion to at most 16
    places, which is what JavaScript prints for the values of the run. *)
Definition decimalToString (q : Q) : string :=
  let whole := Qfloor (Qabs q) in
  let r := Qabs q - inject_Z whole in
  String.concat "" [if Qle_bool 0 q then EmptyString else "-"%string;
                    integerToString whole;
                    if Qeq_bool r 0 then EmptyString
                    else String "." (fractionDigits 16 r)].

#[export] Instance printing : Printing := {
  numberToString := decimalToString;
  toISOString := "2024-01-01T00:00:00.000Z"
}.

(** The layer of the specification's example: z = -0.5 with the points
    (0, 0, 0.5) and (1, 0, 0.5), exported with safeZ = 5. *)
Definition exampleLayer : Layer.t :=
  Layer.make 0 (-1 # 2) [vec3 0 0 (1 # 2); vec3 1 0 (1 # 2)].

End Reference.

End GCodeExporter.

(** ** selection-tool.js: the selection tool *)

(** The tool's own state, and what it reads and writes of the viewport: the
    scene, the orbit controls, the canvas.  The ray cast of the pointer
    handlers is three.js's and depends on the camera: what it returns comes
    with the event.  The [dispose] calls on geometries and materials free
    graphics memory and change nothing the program reads. *)

Module SelectionTool.

Local Open Scope Q_scope.

Abbreviation Bounds := ToolpathGenerator.Bounds (only parsing).
Abbreviation makeBounds := ToolpathGenerator.makeBounds (only parsing).
Abbreviation boundsMin := ToolpathGenerator.min (only parsing).
Abbreviation boundsMax := ToolpathGenerator.max (only parsing).

(** [Math.min]; [Math.max] is the generator's. *)
Definition mathMin (a b : Q) : Q := if Qle_bool a b then a else b.
Definition mathMax (a b : Q) : Q := ToolpathGenerator.mathMax a b.

(** What the tool adds to the scene: the edges of the selection box and
    its translucent fill; the scene holds other objects too. *)
Inductive Kind : Type := Edges | Fill | Foreign.

(** An object of the scene: its [id], which three.js takes from a counter,
    and the two vectors the tool writes. *)
Record Object3D : Type := object3D {
  id : nat;
  kind : Kind;
  position : Vector3 Q;
  scale : Vector3 Q
}.

(** A pointer event as the handlers on the canvas read it: the button, the
    pointer position, the rectangle and the [clientHeight] of the canvas at
    that moment, and what the ray through the pointer hits first on the
    model, the point [intersects[0].point], when it hits anything. *)
Record PointerEvent : Type := pointerEvent {
  button : Z;
  clientX : Q;
  clientY : Q;
  rectLeft : Q;
  rectTop : Q;
  rectWidth : Q;
  rectHeight : Q;
  clientHeight : Q;
  picked : option (Vector3 Q)
}.

(** The same event over another point of the model. *)
Definition picking (event : PointerEvent) (point : Vector3 Q) : PointerEvent :=
  pointerEvent (button event) (clientX event) (clientY event) (rectLeft event)
    (rectTop event) (rectWidth event) (rectHeight event) (clientHeight event)
    (Some point).

(** The tool with what it shares with the viewport: the scene, the
    counter of object ids, the orbit controls ([None] when the viewport has
    none), the listeners and cursor of the canvas, and whether a model is
    shown. *)
Record SelectionTool : Type := selectionTool {
  enabled : bool;
  isSelecting : bool;
  selectionHelper : option nat;
  selectionFill : option nat;
  bounds : Bounds;
  mouse : Q * Q;
  startPoint : Vector3 Q;
  endPoint : Vector3 Q;
  scene : list Object3D;
  nextId : nat;
  controlsEnabled : option bool;
  listening : bool;
  cursor : string;
  hasModelMesh : bool
}.

Definition origin : Vector3 Q := vec3 0 0 0.

(** [new SelectionTool(viewport)] on a viewport with the given scene,
    counter, controls and model. *)
Definition constructor (viewportScene : list Object3D) (counter : nat)
    (controls : option bool) (model : bool) : SelectionTool :=
  selectionTool false false None None (makeBounds origin origin) (0, 0) origin origin
    viewportScene counter controls false "default" model.

(** Field updates. *)
Definition withBounds (this : SelectionTool) (b : Bounds) : SelectionTool :=
  selectionTool (enabled this) (isSelecting this) (selectionHelper this)
    (selectionFill this) b (mouse this) (startPoint this) (endPoint this)
    (scene this) (nextId this) (controlsEnabled this) (listening this) (cursor this)
    (hasModelMesh this).

Definition withScene (this : SelectionTool) (objects : list Object3D) : SelectionTool :=
  selectionTool (enabled this) (isSelecting this) (selectionHelper this)
    (selectionFill this) (bounds this) (mouse this) (startPoint this) (endPoint this)
    objects (nextId this) (controlsEnabled this) (listening this) (cursor this)
    (hasModelMesh this).

Definition withHelper (this : SelectionTool) (helper : option nat) : SelectionTool :=
  selectionTool (enabled this) (isSelecting this) helper
    (selectionFill this) (bounds this) (mouse this) (startPoint this) (endPoint this)
    (scene this) (nextId this) (controlsEnabled this) (listening this) (cursor this)
    (hasModelMesh this).

Definition withSelecting (this : SelectionTool) (selecting : bool) : SelectionTool :=
  selectionTool (enabled this) selecting (selectionHelper this)
    (selectionFill this) (bounds this) (mouse this) (startPoint this) (endPoint this)
    (scene this) (nextId this) (controlsEnabled this) (listening this) (cursor this)
    (hasModelMesh this).

Definition withPoints (this : SelectionTool) (first last : Vector3 Q) : SelectionTool :=
  selectionTool (enabled this) (isSelecting this) (selectionHelper this)
    (selectionFill this) (bounds this) (mouse this) first last
    (scene this) (nextId this) (controlsEnabled this) (listening this) (cursor this)
    (hasModelMesh this).

(** [scene.add] and [scene.remove]. *)
Definition sceneAdd (objects : list Object3D) (o : Object3D) : list Object3D :=
  objects ++ [o].

Definition sceneRemove (objects : list Object3D) (target : nat) : list Object3D :=
  List.filter (fun o => negb (id o =? target)%nat) objects.

(** [object.position.copy(p); object.scale.copy(s)] on the object with the
    given id. *)
Definition place (objects : list Object3D) (target : nat) (p s : Vector3 Q)
  : list Object3D :=
  map (fun o => if (id o =? target)%nat then object3D (id o) (kind o) p s else o) objects.

(** *** enable, disable *)

Definition enable (this : SelectionTool) : SelectionTool :=
  if enabled this then this
  else
    selectionTool true (isSelecting this) (selectionHelper this) (selectionFill this)
      (bounds this) (mouse this) (startPoint this) (endPoint this) (scene this)
      (nextId this)
      (match controlsEnabled this with Some _ => Some false | None => None end)
      true "crosshair" (hasModelMesh this).

Definition disable (this : SelectionTool) : SelectionTool :=
  if enabled this then
    selectionTool false (isSelecting this) (selectionHelper this) (selectionFill this)
      (bounds this) (mouse this) (startPoint this) (endPoint this) (scene this)
      (nextId this)
      (match controlsEnabled this with Some _ => Some true | None => None end)
      false "default" (hasModelMesh this)
  else this.

(** *** clear *)

(** The helper leaves the scene and is forgotten; the bounds are zeroed.
    The fill is neither removed nor forgotten. *)
Definition clear (this : SelectionTool) : SelectionTool :=
  let this :=
    match selectionHelper this with
    | Some helper => withHelper (withScene this (sceneRemove (scene this) helper)) None
    | None => this
    end in
  withBounds this (makeBounds origin origin).

(** *** updateMouse *)

Definition updateMouse (this : SelectionTool) (event : PointerEvent) : SelectionTool :=
  selectionTool (enabled this) (isSelecting this) (selectionHelper this)
    (selectionFill this) (bounds this)
    ((clientX event - rectLeft event) / rectWidth event * 2 - 1,
     - ((clientY event - rectTop event) / rectHeight event) * 2 + 1)
    (startPoint this) (endPoint this) (scene this) (nextId this)
    (controlsEnabled this) (listening this) (cursor this) (hasModelMesh this).

(** *** createSelectionHelper *)

(** A former helper leaves the scene; new edges and a new fill, each a
    unit cube at the origin, enter it.  A former fill stays. *)
Definition createSelectionHelper (this : SelectionTool) : SelectionTool :=
  let objects :=
    match selectionHelper this with
    | Some helper => sceneRemove (scene this) helper
    | None => scene this
    end in
  let helper := object3D (nextId this) Edges origin (vec3 1 1 1) in
  let objects := sceneAdd objects helper in
  let fill := object3D (S (nextId this)) Fill origin (vec3 1 1 1) in
  let objects := sceneAdd objects fill in
  selectionTool (enabled this) (isSelecting this) (Some (id helper)) (Some (id fill))
    (bounds this) (mouse this) (startPoint this) (endPoint this) objects
    (S (S (nextId this))) (controlsEnabled this) (listening this) (cursor this)
    (hasModelMesh this).

(** *** updateSelectionHelper *)

Definition cornerMin (p q : Vector3 Q) : Vector3 Q :=
  vec3 (mathMin (THREE.x p) (THREE.x q)) (mathMin (THREE.y p) (THREE.y q))
       (mathMin (THREE.z p) (THREE.z q)).

Definition cornerMax (p q : Vector3 Q) : Vector3 Q :=
  vec3 (mathMax (THREE.x p) (THREE.x q)) (mathMax (THREE.y p) (THREE.y q))
       (mathMax (THREE.z p) (THREE.z q)).

(** [size.subVectors(max, min)]. *)
Definition sizeOf (b : Bounds) : Vector3 Q :=
  vec3 (THREE.x (boundsMax b) - THREE.x (boundsMin b))
       (THREE.y (boundsMax b) - THREE.y (boundsMin b))
       (THREE.z (boundsMax b) - THREE.z (boundsMin b)).

(** [center.addVectors(min, max).multiplyScalar(0.5)]. *)
Definition centerOf (b : Bounds) : Vector3 Q :=
  vec3 ((THREE.x (boundsMin b) + THREE.x (boundsMax b)) * (1 # 2))
       ((THREE.y (boundsMin b) + THREE.y (boundsMax b)) * (1 # 2))
       ((THREE.z (boundsMin b) + THREE.z (boundsMax b)) * (1 # 2)).

Definition updateSelectionHelper (this : SelectionTool) : SelectionTool :=
  match selectionHelper this with
  | None => this
  | Some helper =>
      let b := makeBounds (cornerMin (startPoint this) (endPoint this))
                          (cornerMax (startPoint this) (endPoint this)) in
      let center := centerOf b in
      let size := sizeOf b in
      let objects := place (scene this) helper center size in
      let objects :=
        match selectionFill this with
        | Some fill => place objects fill center size
        | None => objects
        end in
      withScene (withBounds this b) objects
  end.

(** *** finalizeSelection *)

Definition minSize : Q := 1 # 10.

Definition finalizeSelection (this : SelectionTool) : SelectionTool * bool :=
  let size := sizeOf (bounds this) in
  if ToolpathGenerator.Qlt_bool (THREE.x size) minSize
     || ToolpathGenerator.Qlt_bool (THREE.y size) minSize
     || ToolpathGenerator.Qlt_bool (THREE.z size) minSize
  then (clear this, false)
  else (this, true).

(** *** The pointer handlers *)

Definition onPointerDown (this : SelectionTool) (event : PointerEvent) : SelectionTool :=
  if negb (enabled this) || negb (hasModelMesh this) then this
  else
    let this := withSelecting this true in
    let this := updateMouse this event in
    match picked event with
    | Some point => createSelectionHelper (withPoints this point (endPoint this))
    | None => this
    end.

Definition onPointerMove (this : SelectionTool) (event : PointerEvent) : SelectionTool :=
  if negb (enabled this) || negb (isSelecting this) || negb (hasModelMesh this) then this
  else
    let this := updateMouse this event in
    match picked event with
    | Some point => updateSelectionHelper (withPoints this (startPoint this) point)
    | None => this
    end.

Definition onPointerUp (this : SelectionTool) : SelectionTool :=
  if negb (enabled this) || negb (isSelecting this) then this
  else fst (finalizeSelection (withSelecting this false)).

(** *** getBounds, getVolume, containsPoint, setBounds *)

(** The corners are cloned: the result shares nothing with the tool. *)
Definition getBounds (this : SelectionTool) : Bounds :=
  makeBounds (boundsMin (bounds this)) (boundsMax (bounds this)).

Definition getVolume (this : SelectionTool) : Q :=
  let size := sizeOf (bounds this) in
  THREE.x size * THREE.y size * THREE.z size.

Definition containsPoint (this : SelectionTool) (point : Vector3 Q) : bool :=
  let b := bounds this in
  Qle_bool (THREE.x (boundsMin b)) (THREE.x point)
  && Qle_bool (THREE.x point) (THREE.x (boundsMax b))
  && Qle_bool (THREE.y (boundsMin b)) (THREE.y point)
  && Qle_bool (THREE.y point) (THREE.y (boundsMax b))
  && Qle_bool (THREE.z (boundsMin b)) (THREE.z point)
  && Qle_bool (THREE.z point) (THREE.z (boundsMax b)).

Definition setBounds (this : SelectionTool) (lo hi : Vector3 Q) : SelectionTool :=
  let this := withBounds this (makeBounds lo hi) in
  let this := withPoints this lo hi in
  updateSelectionHelper (createSelectionHelper this).

(** *** What happens to the tool *)

(** The calls the application and the canvas make on the tool.  The canvas
    delivers a pointer event only while the tool's listeners are on it. *)
Inductive Action : Type :=
  | Enable
  | Disable
  | Clear
  | SetBounds (lo hi : Vector3 Q)
  | PointerDown (event : PointerEvent)
  | PointerMove (event : PointerEvent)
  | PointerUp.

Definition act (this : SelectionTool) (a : Action) : SelectionTool :=
  match a with
  | Enable => enable this
  | Disable => disable this
  | Clear => clear this
  | SetBounds lo hi => setBounds this lo hi
  | PointerDown event => if listening this then onPointerDown this event else this
  | PointerMove event => if listening this then onPointerMove this event else this
  | PointerUp => if listening this then onPointerUp this else this
  end.

Definition run (this : SelectionTool) (actions : list Action) : SelectionTool :=
  fold_left act actions this.

(** *** What the properties speak of *)

(** The corners are in order on every axis. *)
Definition ordered (b : Bounds) : Prop :=
  THREE.x (boundsMin b) <= THREE.x (boundsMax b) /\
  THREE.y (boundsMin b) <= THREE.y (boundsMax b) /\
  THREE.z (boundsMin b) <= THREE.z (boundsMax b).

(** The ids of the fills, and of the edges, in a scene. *)
Definition idsOf (k : Kind) (objects : list Object3D) : list nat :=
  map id (List.filter (fun o => match kind o, k with
                                | Edges, Edges | Fill, Fill | Foreign, Foreign => true
                                | _, _ => false
                                end) objects).

(** The actions that create a box: each adds a fill to the scene. *)
Definition creations (this : SelectionTool) (a : Action) : nat :=
  match a with
  | SetBounds _ _ => 1
  | PointerDown event =>
      if listening this && enabled this && hasModelMesh this
      then match picked event with Some _ => 1 | None => 0 end
      else 0
  | _ => 0
  end%nat.

(** How many boxes a sequence of actions creates. *)
Fixpoint created (this : SelectionTool) (actions : list Action) : nat :=
  match actions with
  | [] => 0
  | a :: rest => creations this a + created (act this a) rest
  end%nat.

(** The box spanned by two points, and whether [finalizeSelection] lets a
    box stand. *)
Definition boxOf (p q : Vector3 Q) : Bounds := makeBounds (cornerMin p q) (cornerMax p q).

Definition largeEnough (b : Bounds) : bool :=
  negb (ToolpathGenerator.Qlt_bool (THREE.x (sizeOf b)) minSize
        || ToolpathGenerator.Qlt_bool (THREE.y (sizeOf b)) minSize
        || ToolpathGenerator.Qlt_bool (THREE.z (sizeOf b)) minSize).

(** Every extent of the box is positive. *)
Definition solid (b : Bounds) : Prop :=
  0 < THREE.x (sizeOf b) /\ 0 < THREE.y (sizeOf b) /\ 0 < THREE.z (sizeOf b).

(** A viewport scene before the tool touches it: foreign objects with
    distinct ids below the counter. *)
Definition pristine (objects : list Object3D) (counter : nat) : Prop :=
  List.NoDup (map id objects) /\
  List.Forall (fun o => kind o = Foreign /\ (id o < counter)%nat) objects.

(** The scene as the tool keeps it: distinct ids below the counter, and
    no edges but those of the helper the tool holds. *)
Definition tidy (this : SelectionTool) : Prop :=
  List.NoDup (map id (scene this)) /\
  List.Forall (fun o => (id o < nextId this)%nat) (scene this) /\
  idsOf Edges (scene this)
  = match selectionHelper this with Some helper => [helper] | None => [] end.

(** The scene once a helper the tool may hold has left it. *)
Definition withoutHelper (this : SelectionTool) : list Object3D :=
  match selectionHelper this with
  | Some helper => sceneRemove (scene this) helper
  | None => scene this
  end.

(** The pointer stands inside the canvas rectangle, edges included. *)
Definition overCanvas (event : PointerEvent) : Prop :=
  rectLeft event <= clientX event <= rectLeft event + rectWidth event /\
  rectTop event <= clientY event <= rectTop event + rectHeight event.

(** A press at [first], a move to [last] and the release, on the model. *)
Definition drag (first last : Vector3 Q) (press move : PointerEvent) : list Action :=
  [PointerDown (picking press first); PointerMove (picking move last); PointerUp].

(** *** A concrete session *)

Module Session.

(** A viewport scene of one foreign object, the model, with id 0. *)
Definition viewportScene : list Object3D := [object3D 0 Foreign origin (vec3 1 1 1)].

Definition fresh : SelectionTool := constructor viewportScene 1 (Some true) true.

(** A pointer event of the left button in the middle of a canvas of
    800 x 600 pixels. *)
Definition atCentre (point : option (Vector3 Q)) : PointerEvent :=
  pointerEvent 0 400 300 0 0 800 600 600 point.

(** The tool is enabled, a box is dragged from (0,0,0) to (1,2,3), the
    selection is cleared, and a box is set by its corners, given in the
    reverse order. *)
Definition session : list Action :=
  Enable :: drag (vec3 0 0 0) (vec3 1 2 3) (atCentre None) (atCentre None)
  ++ [Clear; SetBounds (vec3 4 4 4) (vec3 2 2 2)].

End Session.

End SelectionTool.

(** ** viewport.js: the orbit controls and the canvas *)

Module OrbitControls.

Local Open Scope Q_scope.

Inductive State : Type := NONE | ROTATE | PAN.

(** What [pan] reads of the camera: the first two columns of its matrix and
    its distance to the target. *)
Record CameraFrame : Type := cameraFrame {
  matrixColumn0 : Vector3 Q;
  matrixColumn1 : Vector3 Q;
  targetDistance : Q
}.

(** The controls, with the fields the pointer and wheel handlers use.  The
    two angles of [sphericalDelta] are kept as multiples of pi: the angle
    is [Math.PI] times the number held.  [update], which turns the pending
    deltas into a camera pose with three.js's spherical coordinates and
    quaternions, is outside the model; so are the fields only it reads. *)
Record OrbitControls : Type := orbitControls {
  sphericalDeltaTheta : Q;
  sphericalDeltaPhi : Q;
  scale : Q;
  panOffset : Vector3 Q;
  rotateStart : Q * Q;
  rotateEnd : Q * Q;
  rotateDelta : Q * Q;
  panStart : Q * Q;
  panEnd : Q * Q;
  panDelta : Q * Q;
  state : State
}.

Definition constructor : OrbitControls :=
  orbitControls 0 0 1 (vec3 0 0 0) (0, 0) (0, 0) (0, 0) (0, 0) (0, 0) (0, 0) NONE.

Definition position (event : SelectionTool.PointerEvent) : Q * Q :=
  (SelectionTool.clientX event, SelectionTool.clientY event).

(** [subVectors] on two-vectors. *)
Definition subVectors (a b : Q * Q) : Q * Q := (fst a - fst b, snd a - snd b).

Definition onPointerDown (this : OrbitControls) (event : SelectionTool.PointerEvent)
  : OrbitControls :=
  if (SelectionTool.button event =? 0)%Z then
    orbitControls (sphericalDeltaTheta this) (sphericalDeltaPhi this) (scale this)
      (panOffset this) (position event) (rotateEnd this) (rotateDelta this)
      (panStart this) (panEnd this) (panDelta this) ROTATE
  else if (SelectionTool.button event =? 2)%Z then
    orbitControls (sphericalDeltaTheta this) (sphericalDeltaPhi this) (scale this)
      (panOffset this) (rotateStart this) (rotateEnd this) (rotateDelta this)
      (position event) (panEnd this) (panDelta this) PAN
  else this.

(** [pan(deltaX, deltaY)]: the offset grows by the two scaled columns. *)
Definition pan (offset : Vector3 Q) (frame : CameraFrame) (deltaX deltaY height : Q)
  : Vector3 Q :=
  let leftScale := - deltaX * targetDistance frame / height in
  let upScale := deltaY * targetDistance frame / height in
  vec3 (THREE.x offset + THREE.x (matrixColumn0 frame) * leftScale
        + THREE.x (matrixColumn1 frame) * upScale)
       (THREE.y offset + THREE.y (matrixColumn0 frame) * leftScale
        + THREE.y (matrixColumn1 frame) * upScale)
       (THREE.z offset + THREE.z (matrixColumn0 frame) * leftScale
        + THREE.z (matrixColumn1 frame) * upScale).

Definition onPointerMove (this : OrbitControls) (frame : CameraFrame)
    (event : SelectionTool.PointerEvent) : OrbitControls :=
  match state this with
  | ROTATE =>
      let rotateEnd := position event in
      let rotateDelta := subVectors rotateEnd (rotateStart this) in
      orbitControls
        (sphericalDeltaTheta this
         - 2 * fst rotateDelta / SelectionTool.clientHeight event)
        (sphericalDeltaPhi this
         - 2 * snd rotateDelta / SelectionTool.clientHeight event)
        (scale this) (panOffset this) rotateEnd rotateEnd rotateDelta
        (panStart this) (panEnd this) (panDelta this) ROTATE
  | PAN =>
      let panEnd := position event in
      let panDelta := subVectors panEnd (panStart this) in
      orbitControls (sphericalDeltaTheta this) (sphericalDeltaPhi this) (scale this)
        (pan (panOffset this) frame (fst panDelta) (snd panDelta)
             (SelectionTool.clientHeight event))
        (rotateStart this) (rotateEnd this) (rotateDelta this)
        panEnd panEnd panDelta PAN
  | NONE => this
  end.

Definition onPointerUp (this : OrbitControls) : OrbitControls :=
  orbitControls (sphericalDeltaTheta this) (sphericalDeltaPhi this) (scale this)
    (panOffset this) (rotateStart this) (rotateEnd this) (rotateDelta this)
    (panStart this) (panEnd this) (panDelta this) NONE.

(** [onWheel]: [0.95] is 19/20. *)
Definition onWheel (this : OrbitControls) (deltaY : Q) : OrbitControls :=
  orbitControls (sphericalDeltaTheta this) (sphericalDeltaPhi this)
    (if ToolpathGenerator.Qlt_bool deltaY 0 then scale this / (95 # 100)
     else scale this * (95 # 100))
    (panOffset this) (rotateStart this) (rotateEnd this) (rotateDelta this)
    (panStart this) (panEnd this) (panDelta this) (state this).

End OrbitControls.

(** The canvas with its two sets of listeners: those of the orbit
    controls, bound when the viewport is built and never removed, and those
    of the selection tool, on the canvas while the tool is enabled. *)
Module Canvas.

Local Open Scope Q_scope.

Record Canvas : Type := canvas {
  controls : OrbitControls.OrbitControls;
  selection : SelectionTool.SelectionTool
}.

Inductive Event : Type :=
  | Pressed (event : SelectionTool.PointerEvent)
  | Moved (frame : OrbitControls.CameraFrame) (event : SelectionTool.PointerEvent)
  | Released
  | Wheeled (deltaY : Q).

(** An event on the canvas goes to every listener on it. *)
Definition dispatch (c : Canvas) (e : Event) : Canvas :=
  match e with
  | Pressed event =>
      canvas (OrbitControls.onPointerDown (controls c) event)
             (SelectionTool.act (selection c) (SelectionTool.PointerDown event))
  | Moved frame event =>
      canvas (OrbitControls.onPointerMove (controls c) frame event)
             (SelectionTool.act (selection c) (SelectionTool.PointerMove event))
  | Released =>
      canvas (OrbitControls.onPointerUp (controls c))
             (SelectionTool.act (selection c) SelectionTool.PointerUp)
  | Wheeled deltaY =>
      canvas (OrbitControls.onWheel (controls c) deltaY) (selection c)
  end.

(** The application turns the selection mode on. *)
Definition enableSelection (c : Canvas) : Canvas :=
  canvas (controls c) (SelectionTool.enable (selection c)).

(** A viewport as built, with a model, and its selection tool. *)
Definition fresh : Canvas := canvas OrbitControls.constructor SelectionTool.Session.fresh.

(** A camera looking down the Z axis from a distance of 100. *)
Definition frame : OrbitControls.CameraFrame :=
  OrbitControls.cameraFrame (vec3 1 0 0) (vec3 0 1 0) 100.

End Canvas.

(** ** app.js: when the application generates *)

Module App.

Local Open Scope Q_scope.

(** The test that opens [generateToolpath]:
    [!currentModel || selectionTool.getVolume() <= 0] makes it return
    without generating. *)
Definition refusesToGenerate (currentModel : bool)
    (selection : SelectionTool.SelectionTool) : bool :=
  negb currentModel || Qle_bool (SelectionTool.getVolume selection) 0.

End App.

(** * Part II: properties *)

(** ** The loader *)

Module LoaderProperties.

Import DataView STLLoader.
Local Open Scope Z_scope.
Local Open Scope js_scope.

Section Loader.

Context `{RT : Runtime}.

(** *** Reading the header *)

Lemma byteAt_range (buffer : ArrayBuffer) (i : Z) : 0 <= byteAt buffer i < 256.
Proof.
  unfold byteAt. destruct (buffer !! Z.to_nat i) as [b|]; [|lia].
  pose proof (Byte.to_N_bounded b). lia.
Qed.

Lemma getUint32_short (buffer : ArrayBuffer) (byteOffset : Z) :
  byteLength buffer < byteOffset + 4 -> getUint32 buffer byteOffset = Throw RangeError.
Proof.
  intros Hlen. unfold getUint32.
  destruct (byteOffset <? 0); [reflexivity|].
  destruct (Z.ltb_spec (byteLength buffer) (byteOffset + 4)); [reflexivity|lia].
Qed.

Lemma getUint32_inside (buffer : ArrayBuffer) (byteOffset : Z) :
  0 <= byteOffset -> byteOffset + 4 <= byteLength buffer ->
  exists w, getUint32 buffer byteOffset = Ok w /\ 0 <= w < 2 ^ 32.
Proof.
  intros Hoff Hlen. unfold getUint32.
  destruct (Z.ltb_spec byteOffset 0); [lia|].
  destruct (Z.ltb_spec (byteLength buffer) (byteOffset + 4)); [lia|].
  simpl. eexists. split; [reflexivity|].
  pose proof (byteAt_range buffer byteOffset).
  pose proof (byteAt_range buffer (byteOffset + 1)).
  pose proof (byteAt_range buffer (byteOffset + 2)).
  pose proof (byteAt_range buffer (byteOffset + 3)).
  lia.
Qed.

Lemma load_short (this : STLLoader) (buffer : ArrayBuffer) :
  byteLength buffer < 84 ->
  isBinarySTL buffer = Throw RangeError /\ load this buffer = (this, Throw RangeError).
Proof.
  intros Hlen. unfold load, isBinarySTL.
  rewrite getUint32_short by lia. split; reflexivity.
Qed.

Lemma isBinarySTL_inside (buffer : ArrayBuffer) :
  84 <= byteLength buffer ->
  exists numTriangles,
    getUint32 buffer 80 = Ok numTriangles /\ 0 <= numTriangles < 2 ^ 32 /\
    isBinarySTL buffer = Ok (byteLength buffer =? 84 + numTriangles * 50).
Proof.
  intros Hlen.
  destruct (getUint32_inside buffer 80) as (w & Hw & Hrange); [lia|lia|].
  exists w. unfold isBinarySTL. rewrite Hw. auto.
Qed.

Lemma load_textual (this : STLLoader) (buffer : ArrayBuffer) (numTriangles : Z) :
  getUint32 buffer 80 = Ok numTriangles ->
  byteLength buffer <> 84 + numTriangles * 50 ->
  isBinarySTL buffer = Ok false /\
  load this buffer =
    (stlLoader (Some (postProcess (parseASCII buffer))),
     Ok (postProcess (parseASCII buffer))).
Proof.
  intros Hw Hlen. unfold load, isBinarySTL. rewrite Hw. simpl.
  destruct (Z.eqb_spec (byteLength buffer) (84 + numTriangles * 50)); [lia|].
  split; reflexivity.
Qed.

Lemma load_binary (this : STLLoader) (buffer : ArrayBuffer) (numTriangles : Z) :
  getUint32 buffer 80 = Ok numTriangles ->
  byteLength buffer = 84 + numTriangles * 50 ->
  isBinarySTL buffer = Ok true /\
  load this buffer =
    match parseBinary buffer with
    | Ok parsed => (stlLoader (Some (postProcess parsed)), Ok (postProcess parsed))
    | Throw e => (this, Throw e)
    end.
Proof.
  intros Hw Hlen. unfold load, isBinarySTL. rewrite Hw. simpl.
  rewrite (proj2 (Z.eqb_eq _ _) Hlen). split; reflexivity.
Qed.

(** *** A stream of the fixed-record length is read to its end *)

Lemma getFloat32_inside (buffer : ArrayBuffer) (byteOffset : Z) :
  0 <= byteOffset -> byteOffset + 4 <= byteLength buffer ->
  exists v, getFloat32 buffer byteOffset = Ok v.
Proof.
  intros Hoff Hlen. unfold getFloat32.
  destruct (getUint32_inside buffer byteOffset Hoff Hlen) as (w & -> & _).
  eexists. reflexivity.
Qed.

Ltac read_inside buffer :=
  match goal with
  | |- context [getFloat32 buffer ?o] =>
      let v := fresh "v" in
      let Hv := fresh "Hv" in
      destruct (getFloat32_inside buffer o) as (v & Hv); [lia|lia|];
      rewrite Hv; cbn [bind]
  end.

(** No read of the loop leaves a buffer that holds the records it is to
    read: the loop ends without a throw. *)
Lemma parseBinaryLoop_total (buffer : ArrayBuffer) (n : nat) :
  forall (i offset : Z) (positions normals : list number),
  0 <= offset -> offset + 50 * Z.of_nat n <= byteLength buffer ->
  exists filled, parseBinaryLoop buffer n i offset positions normals = Ok filled.
Proof.
  induction n as [|n IH]; intros i offset positions normals Hoff Hlen.
  - eexists. reflexivity.
  - cbn [parseBinaryLoop]. do 12 (read_inside buffer).
    apply IH; lia.
Qed.

Lemma parseBinary_total (buffer : ArrayBuffer) (numTriangles : Z) :
  getUint32 buffer 80 = Ok numTriangles ->
  byteLength buffer = 84 + numTriangles * 50 ->
  exists parsed, parseBinary buffer = Ok parsed.
Proof.
  intros Hn Hlen. unfold parseBinary. rewrite Hn. cbn [bind].
  assert (Hpos : 0 <= numTriangles).
  { unfold byteLength in Hlen.
    destruct (getUint32_inside buffer 80) as (w & Hw & Hrange).
    - lia.
    - unfold getUint32 in Hn.
      destruct ((80 <? 0) || (byteLength buffer <? 80 + 4)) eqn:Htest; [discriminate|].
      apply orb_false_elim in Htest. destruct Htest as [_ Htest].
      apply Z.ltb_ge in Htest. exact Htest.
    - rewrite Hw in Hn. injection Hn as <-. lia. }
  destruct (parseBinaryLoop_total buffer (Z.to_nat numTriangles) 0 84
              (replicate (Z.to_nat (numTriangles * 9)) JS.zero)
              (replicate (Z.to_nat (numTriangles * 9)) JS.zero)) as (filled & Hfilled).
  { lia. }
  { lia. }
  rewrite Hfilled. eexists. reflexivity.
Qed.

(** [load] returns a mesh for every stream of at least 84 bytes. *)
Lemma load_total (this : STLLoader) (buffer : ArrayBuffer) :
  84 <= byteLength buffer ->
  exists g, load this buffer = (stlLoader (Some g), Ok g).
Proof.
  intros Hlen.
  destruct (isBinarySTL_inside buffer Hlen) as (n & Hn & _ & _).
  destruct (Z.eq_dec (byteLength buffer) (84 + n * 50)) as [Heq|Hne].
  - destruct (load_binary this buffer n Hn Heq) as [_ Hload].
    destruct (parseBinary_total buffer n Hn Heq) as (parsed & Hparsed).
    rewrite Hparsed in Hload. eexists. exact Hload.
  - destruct (load_textual this buffer n Hn Hne) as [_ Hload].
    eexists. exact Hload.
Qed.

(** *** Reading back what the encoder wrote *)

Lemma byteOf_value (v : Z) : Z.of_N (Byte.to_N (byteOf v)) = v mod 256.
Proof.
  unfold byteOf.
  assert (Hlt : (Z.to_N (v mod 256) < 256)%N).
  { pose proof (Z.mod_pos_bound v 256). lia. }
  destruct (Byte.of_N (Z.to_N (v mod 256))) as [b|] eqn:Hb.
  - apply Byte.to_of_N in Hb. rewrite Hb.
    pose proof (Z.mod_pos_bound v 256). lia.
  - apply Byte.of_N_None_iff in Hb. lia.
Qed.

Lemma byteAt_app (pre post : ArrayBuffer) (i : Z) (k : nat) :
  i = Z.of_nat (length pre) + Z.of_nat k ->
  byteAt (pre ++ post) i = byteAt post (Z.of_nat k).
Proof.
  intros ->. unfold byteAt.
  replace (Z.to_nat (Z.of_nat (length pre) + Z.of_nat k)) with (length pre + k)%nat by lia.
  rewrite lookup_app_r by lia.
  replace (length pre + k - length pre)%nat with k by lia.
  rewrite Nat2Z.id. reflexivity.
Qed.

Lemma uint32_digits (w : Z) :
  0 <= w < 2 ^ 32 ->
  w mod 256 + 2 ^ 8 * ((w / 2 ^ 8) mod 256) + 2 ^ 16 * ((w / 2 ^ 16) mod 256)
    + 2 ^ 24 * ((w / 2 ^ 24) mod 256) = w.
Proof.
  intros Hw.
  change (2 ^ 8) with 256. change (2 ^ 16) with (256 * 256).
  change (2 ^ 24) with (256 * 256 * 256).
  rewrite <- !Z.div_div by lia.
  assert (Hsmall : w / 256 / 256 / 256 < 256).
  { apply Z.div_lt_upper_bound; [lia|]. apply Z.div_lt_upper_bound; [lia|].
    apply Z.div_lt_upper_bound; lia. }
  assert (0 <= w / 256 / 256 / 256).
  { repeat (apply Z.div_pos; [|lia]). lia. }
  rewrite (Z.mod_small (w / 256 / 256 / 256)) by lia.
  pose proof (Z.div_mod w 256). pose proof (Z.div_mod (w / 256) 256).
  pose proof (Z.div_mod (w / 256 / 256) 256). lia.
Qed.

Lemma getUint32_encoded (pre post : ArrayBuffer) (w byteOffset : Z) :
  0 <= w < 2 ^ 32 ->
  byteOffset = Z.of_nat (length pre) ->
  getUint32 (pre ++ encodeUint32 w ++ post) byteOffset = Ok w.
Proof.
  intros Hw ->. unfold getUint32.
  destruct (Z.ltb_spec (Z.of_nat (length pre)) 0); [lia|].
  unfold byteLength. rewrite !length_app. simpl length.
  destruct (Z.ltb_spec (Z.of_nat (length pre + (4 + length post))) (Z.of_nat (length pre) + 4));
    [lia|].
  simpl orb. cbv iota.
  rewrite (byteAt_app pre _ _ 0), (byteAt_app pre _ _ 1),
          (byteAt_app pre _ _ 2), (byteAt_app pre _ _ 3) by lia.
  unfold byteAt, encodeUint32. simpl.
  rewrite !byteOf_value. f_equal. apply uint32_digits, Hw.
Qed.

(** The [k]-th word of a run of encoded words. *)
Lemma getUint32_word (ws : list Z) :
  forall (pre post : ArrayBuffer) (k : nat) (w byteOffset : Z),
  Forall (fun w => 0 <= w < 2 ^ 32) ws ->
  ws !! k = Some w ->
  byteOffset = Z.of_nat (length pre) + 4 * Z.of_nat k ->
  getUint32 (pre ++ flat_map encodeUint32 ws ++ post) byteOffset = Ok w.
Proof.
  induction ws as [|w0 ws IH]; intros pre post k w byteOffset Hall Hk Hoff.
  - discriminate.
  - inversion Hall as [|? ? Hw0 Hall']; subst.
    change (flat_map encodeUint32 (w0 :: ws))
      with (encodeUint32 w0 ++ flat_map encodeUint32 ws).
    destruct k as [|k]; simpl in Hk.
    + injection Hk as ->. rewrite <- app_assoc.
      apply getUint32_encoded; [assumption|lia].
    + rewrite <- app_assoc.
      replace (pre ++ encodeUint32 w0 ++ flat_map encodeUint32 ws ++ post)
        with ((pre ++ encodeUint32 w0) ++ flat_map encodeUint32 ws ++ post)
        by (rewrite <- app_assoc; reflexivity).
      apply (IH _ _ k); [assumption|assumption|].
      rewrite length_app. simpl length. lia.
Qed.

Lemma store_app (a b : list number) (index : Z) (k : nat) (v : number) :
  index = Z.of_nat (length a) + Z.of_nat k ->
  store (a ++ b) index v = a ++ <[k := v]> b.
Proof.
  intros ->. unfold store.
  destruct (Z.ltb_spec (Z.of_nat (length a) + Z.of_nat k) 0); [lia|].
  replace (Z.to_nat (Z.of_nat (length a) + Z.of_nat k)) with (length a + k)%nat by lia.
  apply insert_app_r.
Qed.

Lemma length_encodeFacet (t : Facet) : length (encodeFacet t) = 50%nat.
Proof. reflexivity. Qed.

Lemma length_encoded_facets (facets : list Facet) :
  length (flat_map encodeFacet facets) = (50 * length facets)%nat.
Proof.
  induction facets as [|t facets IH]; [reflexivity|].
  cbn [flat_map]. rewrite length_app, IH, length_encodeFacet. simpl length. lia.
Qed.

Lemma length_facetPositions (facets : list Facet) :
  length (facetPositions facets) = (9 * length facets)%nat.
Proof.
  induction facets as [|t facets IH]; [reflexivity|].
  unfold facetPositions in *. cbn [flat_map]. rewrite length_app, IH. simpl length. lia.
Qed.

Lemma length_facetNormals (facets : list Facet) :
  length (facetNormals facets) = (9 * length facets)%nat.
Proof.
  induction facets as [|t facets IH]; [reflexivity|].
  unfold facetNormals in *. cbn [flat_map]. rewrite length_app, IH. simpl length. lia.
Qed.

Lemma getFloat32_word (ws : list Z) (pre post : ArrayBuffer) (k : nat) (w byteOffset : Z) :
  Forall (fun w => 0 <= w < 2 ^ 32) ws ->
  ws !! k = Some w ->
  byteOffset = Z.of_nat (length pre) + 4 * Z.of_nat k ->
  getFloat32 (pre ++ flat_map encodeUint32 ws ++ post) byteOffset = Ok (float32_of_bits w).
Proof.
  intros Hall Hk Hoff. unfold getFloat32.
  rewrite (getUint32_word ws pre post k w) by assumption. reflexivity.
Qed.

Ltac read_word k :=
  erewrite (getFloat32_word _ _ _ k) by (first [eassumption | reflexivity | lia]);
  cbn [bind].

Ltac store_word k :=
  rewrite (store_app _ _ _ k) by lia; cbn [insert list_insert].

(** The loop invariant of [parseBinary] on an encoded stream: with [d]
    records done, both arrays hold the values of those records followed by
    the zeros they were allocated with. *)
Lemma parseBinaryLoop_encoded (todo : list Facet) :
  forall (pre : ArrayBuffer) (d : nat) (positionsDone normalsDone : list number),
  Forall wellFormed todo ->
  length pre = (84 + 50 * d)%nat ->
  length positionsDone = (9 * d)%nat ->
  length normalsDone = (9 * d)%nat ->
  parseBinaryLoop (pre ++ flat_map encodeFacet todo) (length todo)
    (Z.of_nat d) (84 + 50 * Z.of_nat d)
    (positionsDone ++ replicate (9 * length todo) JS.zero)
    (normalsDone ++ replicate (9 * length todo) JS.zero)
  = Ok (positionsDone ++ facetPositions todo, normalsDone ++ facetNormals todo).
Proof.
  induction todo as [|t todo IH]; intros pre d positionsDone normalsDone Hwf Hpre Hpos Hnor.
  - reflexivity.
  - inversion Hwf as [|? ? Ht Hwf']; subst. unfold wellFormed in Ht.
    cbn [length parseBinaryLoop].
    change (pre ++ flat_map encodeFacet (t :: todo))
      with (pre ++ flat_map encodeUint32 (facetWords t)
                ++ (encodeUint16 (attribute t) ++ flat_map encodeFacet todo)).
    read_word 0%nat. read_word 1%nat. read_word 2%nat. read_word 3%nat.
    read_word 4%nat. read_word 5%nat. read_word 6%nat. read_word 7%nat.
    read_word 8%nat. read_word 9%nat. read_word 10%nat. read_word 11%nat.
    replace (9 * S (length todo))%nat with (9 + 9 * length todo)%nat by lia.
    rewrite replicate_add. cbn [replicate app].
    store_word 0%nat. store_word 1%nat. store_word 2%nat. store_word 3%nat.
    store_word 4%nat. store_word 5%nat. store_word 6%nat. store_word 7%nat.
    store_word 8%nat.
    store_word 0%nat. store_word 1%nat. store_word 2%nat. store_word 3%nat.
    store_word 4%nat. store_word 5%nat. store_word 6%nat. store_word 7%nat.
    store_word 8%nat.
    change (pre ++ flat_map encodeUint32 (facetWords t)
                ++ (encodeUint16 (attribute t) ++ flat_map encodeFacet todo))
      with (pre ++ encodeFacet t ++ flat_map encodeFacet todo).
    set (vs := map float32_of_bits (facetVertexWords t)).
    set (ns := map float32_of_bits (facetNormalWords t)).
    specialize (IH (pre ++ encodeFacet t) (S d) (positionsDone ++ vs)
                   (normalsDone ++ (ns ++ ns ++ ns)) Hwf').
    rewrite !length_app, length_encodeFacet in IH.
    replace (Z.of_nat d + 1) with (Z.of_nat (S d)) by lia.
    replace (84 + 50 * Z.of_nat d + 50) with (84 + 50 * Z.of_nat (S d)) by lia.
    rewrite <- !app_assoc in IH.
    apply IH; subst vs ns; simpl length; lia.
Qed.

Lemma byteLength_encodeSTL (header : list byte) (facets : list Facet) :
  length header = 80%nat ->
  byteLength (encodeSTL header facets) = 84 + Z.of_nat (length facets) * 50.
Proof.
  intros Hh. unfold byteLength, encodeSTL.
  rewrite !length_app, length_encoded_facets, Hh. simpl length. lia.
Qed.

Lemma getUint32_count (header : list byte) (facets : list Facet) :
  length header = 80%nat ->
  Z.of_nat (length facets) < 2 ^ 32 ->
  getUint32 (encodeSTL header facets) 80 = Ok (Z.of_nat (length facets)).
Proof.
  intros Hh Hn. unfold encodeSTL. apply getUint32_encoded; lia.
Qed.

Lemma parseBinary_encoded (header : list byte) (facets : list Facet) :
  length header = 80%nat ->
  Z.of_nat (length facets) < 2 ^ 32 ->
  Forall wellFormed facets ->
  parseBinary (encodeSTL header facets)
  = Ok (bufferGeometry (facetPositions facets) (facetNormals facets) None None).
Proof.
  intros Hh Hn Hwf. unfold parseBinary.
  rewrite getUint32_count by assumption. cbn [bind].
  rewrite Nat2Z.id.
  replace (Z.to_nat (Z.of_nat (length facets) * 9)) with (9 * length facets)%nat by lia.
  unfold encodeSTL. rewrite app_assoc.
  pose proof (parseBinaryLoop_encoded facets
                (header ++ encodeUint32 (Z.of_nat (length facets))) 0 [] [] Hwf) as Hloop.
  assert (Hpre : length (header ++ encodeUint32 (Z.of_nat (length facets)))
                 = (84 + 50 * 0)%nat) by (rewrite length_app, Hh; reflexivity).
  specialize (Hloop Hpre eq_refl eq_refl).
  change (Z.of_nat 0) with 0 in Hloop. change (84 + 50 * 0) with 84 in Hloop.
  cbn [app] in Hloop. rewrite Hloop. reflexivity.
Qed.

(** *** The geometry after the post-processing *)

Lemma items_facetPositions (facets : list Facet) :
  items (facetPositions facets) = facetVertexList facets.
Proof.
  induction facets as [|t facets IH]; [reflexivity|].
  unfold facetPositions, facetVertexList in *. cbn [flat_map].
  cbn [facetVertexWords map app items facetVertices]. do 3 f_equal. exact IH.
Qed.

Lemma faces_facetVertexList (facets : list Facet) :
  faces (facetVertexList facets) = map facetVertices facets.
Proof.
  induction facets as [|t facets IH]; [reflexivity|].
  unfold facetVertexList in *. cbn [flat_map map facetVertices app faces].
  f_equal. exact IH.
Qed.

Lemma length_computedNormals (facets : list Facet) :
  length (computedNormals facets) = (9 * length facets)%nat.
Proof.
  induction facets as [|t facets IH]; [reflexivity|].
  unfold computedNormals in *. cbn [flat_map]. rewrite length_app, IH.
  simpl length. lia.
Qed.

Lemma fresh_normals (facets : list Facet) :
  flat_map (fun f : Vector3 number * Vector3 number * Vector3 number =>
              let n := flat (faceNormal (fst (fst f)) (snd (fst f)) (snd f)) in
              n ++ n ++ n)
           (map facetVertices facets)
  = computedNormals facets.
Proof.
  induction facets as [|t facets IH]; [reflexivity|].
  unfold computedNormals in *. cbn [map flat_map]. f_equal. exact IH.
Qed.

Lemma computeVertexNormals_encoded (facets : list Facet) (bb : option Box3)
    (bs : option Sphere) :
  computeVertexNormals (bufferGeometry (facetPositions facets) (facetNormals facets) bb bs)
  = bufferGeometry (facetPositions facets) (computedNormals facets) bb bs.
Proof.
  unfold computeVertexNormals. cbn [position normal boundingBox boundingSphere].
  rewrite items_facetPositions, faces_facetVertexList, fresh_normals.
  rewrite length_facetNormals, <- (length_computedNormals facets).
  rewrite firstn_all, Nat.sub_diag. cbn [replicate]. rewrite app_nil_r. reflexivity.
Qed.

(** *** The bounding box of finite vertices *)

Lemma fold_expand_min (a : Axis) (ps : list (Vector3 number)) :
  forall b : Box3,
  component a (min (fold_left expandByPoint ps b))
  = fold_left lower (map (component a) ps) (component a (min b)).
Proof.
  induction ps as [|p ps IH]; intros b; [reflexivity|].
  cbn [fold_left map]. rewrite IH. destruct a; reflexivity.
Qed.

Lemma fold_expand_max (a : Axis) (ps : list (Vector3 number)) :
  forall b : Box3,
  component a (max (fold_left expandByPoint ps b))
  = fold_left upper (map (component a) ps) (component a (max b)).
Proof.
  induction ps as [|p ps IH]; intros b; [reflexivity|].
  cbn [fold_left map]. rewrite IH. destruct a; reflexivity.
Qed.

Lemma fold_lower_Fin (qs : list Q) :
  forall m0 : Q,
  exists m, fold_left lower (map Fin qs) (Fin m0) = Fin m /\ minimumOf (m0 :: qs) m.
Proof.
  induction qs as [|q qs IH]; intros m0.
  - exists m0. split; [reflexivity|]. split; [left; reflexivity|].
    intros q [<-|[]]. apply Qle_refl.
  - cbn [map fold_left]. unfold lower at 2. cbn [JS.lt].
    destruct (Qle_bool m0 q) eqn:Hle; cbn [negb].
    + apply Qle_bool_iff in Hle.
      destruct (IH m0) as (m & Hfold & Hin & Hmin).
      exists m. split; [exact Hfold|]. split.
      * destruct Hin as [<-|Hin]; [left; reflexivity|right; right; exact Hin].
      * intros q' [<-|[<-|Hq']].
        -- apply Hmin. left; reflexivity.
        -- apply Qle_trans with m0; [apply Hmin; left; reflexivity|exact Hle].
        -- apply Hmin. right; exact Hq'.
    + assert (Hlt : (q < m0)%Q).
      { apply Qnot_le_lt. intros H. apply Qle_bool_iff in H. congruence. }
      destruct (IH q) as (m & Hfold & Hin & Hmin).
      exists m. split; [exact Hfold|]. split.
      * right. exact Hin.
      * intros q' [<-|Hq'].
        -- apply Qle_trans with q; [apply Hmin; left; reflexivity|].
           apply Qlt_le_weak, Hlt.
        -- apply Hmin. exact Hq'.
Qed.

Lemma fold_upper_Fin (qs : list Q) :
  forall m0 : Q,
  exists m, fold_left upper (map Fin qs) (Fin m0) = Fin m /\ maximumOf (m0 :: qs) m.
Proof.
  induction qs as [|q qs IH]; intros m0.
  - exists m0. split; [reflexivity|]. split; [left; reflexivity|].
    intros q [<-|[]]. apply Qle_refl.
  - cbn [map fold_left]. unfold upper at 2. cbn [JS.gt JS.lt].
    destruct (Qle_bool q m0) eqn:Hle; cbn [negb].
    + apply Qle_bool_iff in Hle.
      destruct (IH m0) as (m & Hfold & Hin & Hmax).
      exists m. split; [exact Hfold|]. split.
      * destruct Hin as [<-|Hin]; [left; reflexivity|right; right; exact Hin].
      * intros q' [<-|[<-|Hq']].
        -- apply Hmax. left; reflexivity.
        -- apply Qle_trans with m0; [exact Hle|apply Hmax; left; reflexivity].
        -- apply Hmax. right; exact Hq'.
    + assert (Hlt : (m0 < q)%Q).
      { apply Qnot_le_lt. intros H. apply Qle_bool_iff in H. congruence. }
      destruct (IH q) as (m & Hfold & Hin & Hmax).
      exists m. split; [exact Hfold|]. split.
      * right. exact Hin.
      * intros q' [<-|Hq'].
        -- apply Qle_trans with q; [apply Qlt_le_weak, Hlt|].
           apply Hmax. left; reflexivity.
        -- apply Hmax. exact Hq'.
Qed.

(** The box of a non-empty set of finite coordinates: its corners are the
    least and the greatest coordinate on every axis. *)
Lemma box_of_finite (a : Axis) (ps : list (Vector3 number)) (qs : list Q) :
  qs <> [] ->
  map (component a) ps = map Fin qs ->
  exists lo hi,
    minimumOf qs lo /\ maximumOf qs hi /\
    component a (min (fold_left expandByPoint ps emptyBox)) = Fin lo /\
    component a (max (fold_left expandByPoint ps emptyBox)) = Fin hi.
Proof.
  intros Hne Hps. rewrite fold_expand_min, fold_expand_max, Hps.
  destruct qs as [|q qs]; [congruence|].
  destruct (fold_lower_Fin qs q) as (lo & Hlo & Hmin).
  destruct (fold_upper_Fin qs q) as (hi & Hhi & Hmax).
  exists lo, hi. split; [exact Hmin|]. split; [exact Hmax|].
  cbn [map fold_left].
  replace (lower (component a (min emptyBox)) (Fin q)) with (Fin q)
    by (destruct a; reflexivity).
  replace (upper (component a (max emptyBox)) (Fin q)) with (Fin q)
    by (destruct a; reflexivity).
  split; assumption.
Qed.

(** *** Statistics of a loaded stream *)

Lemma float32_of_bits_finite (w : Z) :
  finiteWord w = true -> float32_of_bits w = Fin (float32_value w).
Proof.
  unfold finiteWord, float32_of_bits. intros H.
  destruct (Z.land (Z.shiftr w 23) 255 =? 255); [discriminate|reflexivity].
Qed.

Lemma finite_components (a : Axis) (facets : list Facet) :
  Forall finiteFacet facets ->
  map (component a) (facetVertexList facets) = map Fin (facetCoordinates a facets).
Proof.
  induction 1 as [|t facets Ht _ IH]; [reflexivity|].
  unfold facetVertexList, facetCoordinates in *. cbn [flat_map].
  rewrite !map_app, IH. f_equal.
  unfold finiteFacet in Ht. cbn [facetVertexWords forallb] in Ht.
  repeat (apply andb_prop in Ht; destruct Ht as [? Ht]).
  cbn [facetVertices facetVertexTriples map].
  destruct a; cbn [component x y z];
    rewrite !float32_of_bits_finite by assumption; reflexivity.
Qed.

Lemma facetCoordinates_nonempty (a : Axis) (facets : list Facet) :
  facets <> [] -> facetCoordinates a facets <> [].
Proof.
  destruct facets as [|t facets]; [congruence|]. intros _. discriminate.
Qed.

Lemma count_facetPositions (facets : list Facet) :
  count (facetPositions facets) = 3 * Z.of_nat (length facets).
Proof.
  unfold count. rewrite length_facetPositions.
  replace (Z.of_nat (9 * length facets)) with (3 * Z.of_nat (length facets) * 3) by lia.
  apply Z.div_mul. lia.
Qed.

Lemma load_encoded (this : STLLoader) (header : list byte) (facets : list Facet) :
  length header = 80%nat ->
  Z.of_nat (length facets) < 2 ^ 32 ->
  Forall wellFormed facets ->
  isBinarySTL (encodeSTL header facets) = Ok true /\
  load this (encodeSTL header facets)
  = (stlLoader (Some (loadedGeometry facets)), Ok (loadedGeometry facets)).
Proof.
  intros Hh Hn Hwf.
  destruct (load_binary this (encodeSTL header facets) (Z.of_nat (length facets)))
    as [Hbin Hload].
  { apply getUint32_count; assumption. }
  { apply byteLength_encodeSTL, Hh. }
  split; [exact Hbin|]. rewrite Hload, parseBinary_encoded by assumption.
  unfold postProcess. rewrite computeVertexNormals_encoded. reflexivity.
Qed.

(** The statistics of the loaded geometry, one axis at a time. *)
Lemma stats_of_loaded (facets : list Facet) :
  exists st,
    getStats (stlLoader (Some (loadedGeometry facets))) = Ok (Some st) /\
    (triangleCount st == inject_Z (Z.of_nat (length facets)))%Q /\
    vertexCount st = 3 * Z.of_nat (length facets) /\
    (facets <> [] -> Forall finiteFacet facets ->
     forall a, exists lo hi,
       minimumOf (facetCoordinates a facets) lo /\
       maximumOf (facetCoordinates a facets) hi /\
       component a (statsMin st) = Fin lo /\
       component a (statsMax st) = Fin hi /\
       component a (dimensions st) = Fin (hi - lo) /\
       component a (center st) = Fin ((hi + lo) / 2)).
Proof.
  eexists. split; [reflexivity|].
  cbn [triangleCount vertexCount statsMin statsMax dimensions center
       loadedGeometry position].
  rewrite count_facetPositions. split; [|split; [reflexivity|]].
  - rewrite inject_Z_mult. field.
  - intros Hne Hfin a.
    destruct (box_of_finite a (items (facetPositions facets)) (facetCoordinates a facets))
      as (lo & hi & Hmin & Hmax & Hlo & Hhi).
    { apply facetCoordinates_nonempty, Hne. }
    { rewrite items_facetPositions. apply finite_components, Hfin. }
    exists lo, hi. fold (setFromBufferAttribute (facetPositions facets)) in Hlo, Hhi.
    split; [exact Hmin|]. split; [exact Hmax|].
    split; [exact Hlo|]. split; [exact Hhi|].
    destruct a; cbn [component x y z] in *; rewrite Hlo, Hhi; split; reflexivity.
Qed.

(** *** What the specification says of the loader *)

(** C10.  A buffer shorter than 84 bytes, the empty one included, is not
    classified and no mesh is returned: reading the 32-bit triangle count at
    byte offset 80 raises a RangeError, which [load] lets through, leaving
    the loader as it was. *)
Theorem load_short_buffer_throws (this : STLLoader) (buffer : ArrayBuffer) :
  byteLength buffer < 84 ->
  getUint32 buffer 80 = Throw RangeError /\
  isBinarySTL buffer = Throw RangeError /\
  load this buffer = (this, Throw RangeError).
Proof.
  intros Hlen. split.
  - apply getUint32_short. lia.
  - apply load_short, Hlen.
Qed.

(** C7, amended.  A stream of at least 84 bytes is classified as the
    fixed-record encoding if and only if its length is exactly
    [84 + count * 50], [count] being the little-endian 32-bit integer at
    offset 80; with any other length it is classified as textual and [load]
    returns what the textual parser builds.  (A shorter stream is not
    classified at all: see C10.) *)
Theorem classification_by_length (this : STLLoader) (buffer : ArrayBuffer) :
  84 <= byteLength buffer ->
  exists numTriangles,
    getUint32 buffer 80 = Ok numTriangles /\ 0 <= numTriangles < 2 ^ 32 /\
    (isBinarySTL buffer = Ok true <-> byteLength buffer = 84 + numTriangles * 50) /\
    (isBinarySTL buffer = Ok false <-> byteLength buffer <> 84 + numTriangles * 50) /\
    (byteLength buffer = 84 + numTriangles * 50 ->
     load this buffer =
       match parseBinary buffer with
       | Ok parsed => (stlLoader (Some (postProcess parsed)), Ok (postProcess parsed))
       | Throw e => (this, Throw e)
       end) /\
    (byteLength buffer <> 84 + numTriangles * 50 ->
     load this buffer =
       (stlLoader (Some (postProcess (parseASCII buffer))),
        Ok (postProcess (parseASCII buffer)))).
Proof.
  intros Hlen.
  destruct (isBinarySTL_inside buffer Hlen) as (n & Hn & Hrange & Hbin).
  exists n. split; [exact Hn|]. split; [exact Hrange|].
  rewrite Hbin.
  destruct (Z.eqb_spec (byteLength buffer) (84 + n * 50)) as [Heq|Hne].
  - split; [tauto|]. split; [split; [discriminate|tauto]|].
    split; [|tauto]. intros _. apply (load_binary this buffer n Hn Heq).
  - split; [split; [discriminate|tauto]|]. split; [tauto|].
    split; [tauto|]. intros _. apply (load_textual this buffer n Hn Hne).
Qed.

(** C6, amended.  A stream that is shorter than the [84 + count * 50]
    bytes its header declares does not make [load] fail: it is classified
    as textual, and [load] stores and returns the mesh the textual parser
    builds from it.  [load] returns a mesh for every stream of at least 84
    bytes, and fails only on a shorter one, with the RangeError of the
    header read. *)
Theorem truncated_stream_is_parsed_as_text (this : STLLoader) (buffer : ArrayBuffer) :
  (forall numTriangles,
     getUint32 buffer 80 = Ok numTriangles ->
     byteLength buffer < 84 + numTriangles * 50 ->
     isBinarySTL buffer = Ok false /\
     load this buffer =
       (stlLoader (Some (postProcess (parseASCII buffer))),
        Ok (postProcess (parseASCII buffer)))) /\
  (84 <= byteLength buffer -> exists g, load this buffer = (stlLoader (Some g), Ok g)) /\
  (byteLength buffer < 84 -> load this buffer = (this, Throw RangeError)).
Proof.
  split; [|split].
  - intros numTriangles Hn Hlen. apply (load_textual this buffer numTriangles Hn). lia.
  - apply load_total.
  - intros Hlen. apply load_short, Hlen.
Qed.

(** C8, amended.  For a well-formed fixed-record stream of [N] records
    ([N < 2^32]): the stream is classified as fixed-record; [parseBinary]
    reproduces the [3N] vertices in order and fills the normals buffer with
    each face normal repeated for its three vertices; [load] returns the
    same vertices, but its normals buffer holds, per triangle, the normal
    that [computeVertexNormals] derives from the three vertices (repeated
    three times) and not the encoded one; and the statistics report [N]
    triangles, [3N] vertices and, when [N > 0] and the coordinates are
    finite, on each axis the least and greatest coordinate, their
    difference and their midpoint. *)
Theorem encoded_stream_round_trip (this : STLLoader) (header : list byte)
    (facets : list Facet) :
  length header = 80%nat ->
  Z.of_nat (length facets) < 2 ^ 32 ->
  Forall wellFormed facets ->
  isBinarySTL (encodeSTL header facets) = Ok true /\
  parseBinary (encodeSTL header facets)
    = Ok (bufferGeometry (facetPositions facets) (facetNormals facets) None None) /\
  exists g st,
    load this (encodeSTL header facets) = (stlLoader (Some g), Ok g) /\
    position g = facetPositions facets /\
    normal g = computedNormals facets /\
    getStats (stlLoader (Some g)) = Ok (Some st) /\
    (triangleCount st == inject_Z (Z.of_nat (length facets)))%Q /\
    vertexCount st = 3 * Z.of_nat (length facets) /\
    (facets <> [] -> Forall finiteFacet facets ->
     forall a, exists lo hi,
       minimumOf (facetCoordinates a facets) lo /\
       maximumOf (facetCoordinates a facets) hi /\
       component a (statsMin st) = Fin lo /\
       component a (statsMax st) = Fin hi /\
       component a (dimensions st) = Fin (hi - lo) /\
       component a (center st) = Fin ((hi + lo) / 2)).
Proof.
  intros Hh Hn Hwf.
  destruct (load_encoded this header facets Hh Hn Hwf) as [Hbin Hload].
  split; [exact Hbin|]. split; [apply parseBinary_encoded; assumption|].
  destruct (stats_of_loaded facets) as (st & Hst & Hrest).
  exists (loadedGeometry facets), st.
  split; [exact Hload|]. split; [reflexivity|]. split; [reflexivity|].
  split; [exact Hst|]. exact Hrest.
Qed.

End Loader.

(** *** Concrete runs of the loader *)

Section Streams.

Import Reference Streams.

(** C10 at the empty solid: 18 bytes, so the header read throws. *)
Lemma load_short_buffer_throws_witness :
  byteLength emptySolid < 84 /\
  getUint32 emptySolid 80 = Throw RangeError /\
  isBinarySTL emptySolid = Throw RangeError /\
  load constructor emptySolid = (constructor, Throw RangeError).
Proof.
  assert (H : byteLength emptySolid < 84) by (vm_compute; reflexivity).
  split; [exact H|]. exact (load_short_buffer_throws constructor emptySolid H).
Defined.

(** C7 as stated fails on a short stream: the empty solid has 18 bytes,
    which is no [84 + count * 50], and yet it is not classified as textual:
    the classification itself throws, and so does [load]. *)
Lemma short_stream_is_not_classified :
  byteLength emptySolid = 18 /\
  isBinarySTL emptySolid = Throw RangeError /\
  snd (load constructor emptySolid) = Throw RangeError.
Proof. vm_compute. repeat split; reflexivity. Qed.

(** C7, amended, at the truncated stream (134 bytes, count 2). *)
Lemma classification_by_length_witness :
  84 <= byteLength truncatedStream /\
  exists numTriangles,
    getUint32 truncatedStream 80 = Ok numTriangles /\ 0 <= numTriangles < 2 ^ 32 /\
    (isBinarySTL truncatedStream = Ok true
     <-> byteLength truncatedStream = 84 + numTriangles * 50) /\
    (isBinarySTL truncatedStream = Ok false
     <-> byteLength truncatedStream <> 84 + numTriangles * 50) /\
    (byteLength truncatedStream = 84 + numTriangles * 50 ->
     load constructor truncatedStream =
       match parseBinary truncatedStream with
       | Ok parsed => (stlLoader (Some (postProcess parsed)), Ok (postProcess parsed))
       | Throw e => (constructor, Throw e)
       end) /\
    (byteLength truncatedStream <> 84 + numTriangles * 50 ->
     load constructor truncatedStream =
       (stlLoader (Some (postProcess (parseASCII truncatedStream))),
        Ok (postProcess (parseASCII truncatedStream)))).
Proof.
  assert (H : 84 <= byteLength truncatedStream) by (vm_compute; discriminate).
  split; [exact H|]. exact (classification_by_length constructor truncatedStream H).
Defined.

(** C6 as stated fails on the truncated stream: it declares 2 records,
    which need 184 bytes, and has 134; [load] raises nothing and returns an
    (empty) mesh. *)
Lemma truncated_stream_loads :
  getUint32 truncatedStream 80 = Ok 2 /\
  byteLength truncatedStream = 134 /\
  isBinarySTL truncatedStream = Ok false /\
  buffersOf (snd (load constructor truncatedStream)) = Ok ([], []).
Proof. vm_compute. repeat split; reflexivity. Qed.

(** C6, amended, at the truncated stream. *)
Lemma truncated_stream_is_parsed_as_text_witness :
  getUint32 truncatedStream 80 = Ok 2 /\
  byteLength truncatedStream < 84 + 2 * 50 /\
  isBinarySTL truncatedStream = Ok false /\
  load constructor truncatedStream =
    (stlLoader (Some (postProcess (parseASCII truncatedStream))),
     Ok (postProcess (parseASCII truncatedStream))).
Proof.
  assert (Hn : getUint32 truncatedStream 80 = Ok 2) by (vm_compute; reflexivity).
  assert (Hlen : byteLength truncatedStream < 84 + 2 * 50) by (vm_compute; reflexivity).
  split; [exact Hn|]. split; [exact Hlen|].
  exact (proj1 (truncated_stream_is_parsed_as_text constructor truncatedStream) 2 Hn Hlen).
Defined.

(** C8 as stated fails on the normals: the stream encodes the normal
    (0,0,-1), [parseBinary] stores it three times, and the geometry [load]
    returns carries (0,0,1), the normal recomputed from the vertices. *)
Lemma loaded_normals_are_recomputed :
  facetNormals [flippedFacet]
    = [Fin 0; Fin 0; Fin (-1); Fin 0; Fin 0; Fin (-1); Fin 0; Fin 0; Fin (-1)] /\
  buffersOf (parseBinary (encodeSTL blankHeader [flippedFacet]))
    = Ok ([Fin 0; Fin 0; Fin 0; Fin 1; Fin 0; Fin 0; Fin 0; Fin 1; Fin 0],
          [Fin 0; Fin 0; Fin (-1); Fin 0; Fin 0; Fin (-1); Fin 0; Fin 0; Fin (-1)]) /\
  buffersOf (snd (load constructor (encodeSTL blankHeader [flippedFacet])))
    = Ok ([Fin 0; Fin 0; Fin 0; Fin 1; Fin 0; Fin 0; Fin 0; Fin 1; Fin 0],
          [Fin 0; Fin 0; Fin 1; Fin 0; Fin 0; Fin 1; Fin 0; Fin 0; Fin 1]).
Proof. vm_compute. repeat split; reflexivity. Qed.

Lemma flippedFacet_wellFormed : Forall wellFormed [flippedFacet].
Proof.
  constructor; [|constructor]. unfold wellFormed, facetWords, flippedFacet.
  cbn [nx ny nz v1x v1y v1z v2x v2y v2z v3x v3y v3z].
  repeat (constructor; [lia|]). constructor.
Defined.

(** C8, amended, at the one-record stream. *)
Lemma encoded_stream_round_trip_witness :
  isBinarySTL (encodeSTL blankHeader [flippedFacet]) = Ok true /\
  parseBinary (encodeSTL blankHeader [flippedFacet])
    = Ok (bufferGeometry (facetPositions [flippedFacet]) (facetNormals [flippedFacet])
            None None) /\
  exists g st,
    load constructor (encodeSTL blankHeader [flippedFacet]) = (stlLoader (Some g), Ok g) /\
    position g = facetPositions [flippedFacet] /\
    normal g = computedNormals [flippedFacet] /\
    getStats (stlLoader (Some g)) = Ok (Some st) /\
    (triangleCount st == inject_Z (Z.of_nat (length [flippedFacet])))%Q /\
    vertexCount st = 3 * Z.of_nat (length [flippedFacet]) /\
    ([flippedFacet] <> [] -> Forall finiteFacet [flippedFacet] ->
     forall a, exists lo hi,
       minimumOf (facetCoordinates a [flippedFacet]) lo /\
       maximumOf (facetCoordinates a [flippedFacet]) hi /\
       component a (statsMin st) = Fin lo /\
       component a (statsMax st) = Fin hi /\
       component a (dimensions st) = Fin (hi - lo) /\
       component a (center st) = Fin ((hi + lo) / 2)).
Proof.
  apply (encoded_stream_round_trip constructor blankHeader [flippedFacet]).
  - reflexivity.
  - vm_compute. reflexivity.
  - exact flippedFacet_wellFormed.
Defined.

End Streams.

End LoaderProperties.

(** ** The path generator *)

Module GeneratorProperties.

Import ToolpathGenerator.
Local Open Scope Q_scope.

Section Generator.

Context {Mesh : Type} `{RC : Raycaster Mesh}.

(** *** The state the scanning methods read *)

Lemma scanLineLoop_path (m : Mesh) (b : Bounds) (p : Params) (path path' : list Layer.t)
    (n : nat) :
  forall (i : Z) (xStart scanStep y z toolRadius : Q) (points : list (Vector3 Q)),
  scanLineLoop (running m b p path) n i xStart scanStep y z toolRadius points
  = scanLineLoop (running m b p path') n i xStart scanStep y z toolRadius points.
Proof.
  induction n as [|n IH]; intros; [reflexivity|].
  cbn [scanLineLoop]. apply IH.
Qed.

Lemma contourLoop_path (m : Mesh) (b : Bounds) (p : Params) (path path' : list Layer.t)
    (n : nat) :
  forall (scanIdx : Z) (zLevel stepover toolRadius : Q) (points : list (Vector3 Q)),
  contourLoop (running m b p path) n scanIdx zLevel stepover toolRadius points
  = contourLoop (running m b p path') n scanIdx zLevel stepover toolRadius points.
Proof.
  induction n as [|n IH]; intros; [reflexivity|].
  cbn [contourLoop]. unfold scanLine.
  rewrite (scanLineLoop_path m b p path path'). cbn [thisBounds bounds running].
  destruct (Qlt_bool _ _); [reflexivity|]. apply IH.
Qed.

Lemma generateContourAtZ_path (m : Mesh) (b : Bounds) (p : Params)
    (path path' : list Layer.t) (zLevel stepover toolRadius : Q) :
  generateContourAtZ (running m b p path) zLevel stepover toolRadius
  = generateContourAtZ (running m b p path') zLevel stepover toolRadius.
Proof. unfold generateContourAtZ. apply contourLoop_path. Qed.

(** *** The layers of a run *)

Lemma generateLoop_layers (m : Mesh) (b : Bounds) (p : Params) (numLayers : Z) (n : nat) :
  forall (k : Z) (path : list Layer.t) (progress : list Q),
  toolpath (fst (generateLoop (running m b p path) n k numLayers
                              (stepoverOf p) (toolRadiusOf p) progress))
  = path ++ List.filter nonEmpty (map (layerAt m b p) (indices n k)).
Proof.
  induction n as [|n IH]; intros k path progress.
  - cbn. rewrite app_nil_r. reflexivity.
  - cbn [generateLoop indices map List.filter].
    cbn [thisBounds bounds running params mesh toolpath].
    rewrite (generateContourAtZ_path m b p path []).
    fold (layerPlane b p k). fold (layerContour m b p k).
    change (nonEmpty (layerAt m b p k)) with (0 <? length (layerContour m b p k))%nat.
    destruct (0 <? length (layerContour m b p k))%nat.
    + fold (running m b p (path ++ [Layer.make k (layerPlane b p k) (layerContour m b p k)])).
      rewrite IH, <- app_assoc. reflexivity.
    + fold (running m b p path). apply IH.
Qed.

(** The path of a run: the non-empty ones among the layers of the
    iterations [0 .. numLayers-1], in order. *)
Lemma generate_layers (this : ToolpathGenerator Mesh) (m : Mesh) (b : Bounds) :
  toolpath (fst (generate this m b))
  = List.filter nonEmpty
      (map (layerAt m b (params this))
           (indices (Z.to_nat (numLayersOf b (params this))) 0)).
Proof.
  unfold generate. cbn [params].
  fold (running m b (params this) []).
  fold (toolRadiusOf (params this)). fold (stepoverOf (params this)).
  fold (numLayersOf b (params this)).
  rewrite generateLoop_layers. reflexivity.
Qed.

Lemma in_indices (n : nat) :
  forall (k j : Z), In j (indices n k) <-> (k <= j < k + Z.of_nat n)%Z.
Proof.
  induction n as [|n IH]; intros k j.
  - cbn. lia.
  - cbn [indices In]. rewrite IH. lia.
Qed.

Lemma length_indices (n : nat) (k : Z) : length (indices n k) = n.
Proof. revert k. induction n as [|n IH]; intros k; [reflexivity|]. cbn. f_equal. apply IH. Qed.

Lemma indices_increasing (n : nat) :
  forall k : Z, StronglySorted Z.lt (indices n k).
Proof.
  induction n as [|n IH]; intros k; [constructor|].
  cbn [indices]. constructor; [apply IH|].
  apply List.Forall_forall. intros j Hj. apply in_indices in Hj. lia.
Qed.

Lemma filter_map_increasing (m : Mesh) (b : Bounds) (p : Params) (ks : list Z) :
  StronglySorted Z.lt ks ->
  StronglySorted Z.lt
    (map Layer.layer (List.filter nonEmpty (map (layerAt m b p) ks))).
Proof.
  induction 1 as [|k ks Hks IH Hk]; [constructor|].
  cbn [map List.filter]. destruct (nonEmpty (layerAt m b p k)); [|exact IH].
  cbn [map]. constructor; [exact IH|].
  apply List.Forall_forall. intros j Hj.
  apply in_map_iff in Hj. destruct Hj as (l & <- & Hl).
  apply filter_In in Hl. destruct Hl as [Hl _].
  apply in_map_iff in Hl. destruct Hl as (k' & <- & Hk').
  cbn [layerAt Layer.layer]. rewrite List.Forall_forall in Hk. apply Hk, Hk'.
Qed.

Lemma filter_all (A : Type) (f : A -> bool) (l : list A) :
  (forall a, In a l -> f a = true) -> List.filter f l = l.
Proof.
  induction l as [|a l IH]; intros H; [reflexivity|].
  cbn [List.filter]. rewrite (H a) by (left; reflexivity).
  f_equal. apply IH. intros a' Ha'. apply H. right; exact Ha'.
Qed.

(** With a positive extent and a positive stepdown there is at least one
    iteration. *)
Lemma numLayers_positive (b : Bounds) (p : Params) :
  0 < THREE.z (max b) - THREE.z (min b) -> 0 < stepdown p ->
  (1 <= numLayersOf b p)%Z.
Proof.
  intros HE Hs. unfold numLayersOf, mathCeil.
  set (r := (THREE.z (max b) - THREE.z (min b)) / stepdown p).
  assert (Hr : 0 < r).
  { unfold r. apply Qlt_shift_div_l; [exact Hs|]. rewrite Qmult_0_l. exact HE. }
  pose proof (Qle_ceiling r) as Hc.
  assert (Hlt : inject_Z 0 < inject_Z (Qceiling r)).
  { apply Qlt_le_trans with r; assumption. }
  rewrite <- Zlt_Qlt in Hlt. lia.
Qed.

(** In exact arithmetic the clamp of [actualZ] never acts: every iteration,
    the last one included, has its plane strictly above the floor. *)
Lemma layerPlane_above_floor (b : Bounds) (p : Params) (k : Z) :
  0 < stepdown p ->
  (0 <= k < numLayersOf b p)%Z ->
  layerPlane b p k = THREE.z (max b) - inject_Z k * stepdown p /\
  THREE.z (min b) < layerPlane b p k.
Proof.
  intros Hs Hk. unfold numLayersOf, mathCeil in Hk.
  set (E := THREE.z (max b) - THREE.z (min b)) in *.
  pose proof (Qceiling_lt (E / stepdown p)) as Hc.
  assert (Hk' : inject_Z k <= inject_Z (Qceiling (E / stepdown p) - 1)).
  { rewrite <- Zle_Qle. lia. }
  assert (Hlt : inject_Z k < E / stepdown p) by (eapply Qle_lt_trans; eassumption).
  assert (Hmul : inject_Z k * stepdown p < E).
  { apply (Qmult_lt_compat_r _ _ (stepdown p)) in Hlt; [|exact Hs].
    assert (Heq : E / stepdown p * stepdown p == E).
    { field. intros H0. rewrite H0 in Hs. discriminate. }
    rewrite Heq in Hlt. exact Hlt. }
  assert (Habove : THREE.z (min b) < THREE.z (max b) - inject_Z k * stepdown p).
  { unfold E in Hmul. lra. }
  unfold layerPlane, mathMax.
  destruct (Qle_bool _ _) eqn:Hle.
  - apply Qle_bool_iff in Hle. lra.
  - split; [reflexivity|exact Habove].
Qed.

(** *** The surface query *)

Lemma within_test (floorZ maxZ : Q) (hit : Intersection) :
  Qle_bool (THREE.z (point hit)) maxZ && Qle_bool floorZ (THREE.z (point hit)) = true
  <-> within floorZ maxZ hit.
Proof.
  unfold within. rewrite andb_true_iff, !Qle_bool_iff. tauto.
Qed.

(** The loop returns the height of the first hit in range, in the order of
    the array, and nothing when no hit is in range. *)
Lemma firstHitWithin_spec (floorZ maxZ : Q) (intersects : list Intersection) :
  match firstHitWithin floorZ maxZ intersects with
  | Some surfaceZ =>
      exists before hit after,
        intersects = before ++ hit :: after /\
        Forall (fun h => ~ within floorZ maxZ h) before /\
        within floorZ maxZ hit /\
        surfaceZ = THREE.z (point hit)
  | None => Forall (fun h => ~ within floorZ maxZ h) intersects
  end.
Proof.
  induction intersects as [|h rest IH]; [constructor|].
  cbn [firstHitWithin].
  destruct (Qle_bool (THREE.z (point h)) maxZ && Qle_bool floorZ (THREE.z (point h)))
    eqn:Htest.
  - exists [], h, rest. split; [reflexivity|]. split; [constructor|].
    split; [apply within_test, Htest|reflexivity].
  - assert (Hout : ~ within floorZ maxZ h).
    { intros Hin. apply within_test in Hin. congruence. }
    destruct (firstHitWithin floorZ maxZ rest) as [surfaceZ|].
    + destruct IH as (before & hit & after & -> & Hbefore & Hhit & ->).
      exists (h :: before), hit, after. split; [reflexivity|].
      split; [constructor; assumption|]. split; [exact Hhit|reflexivity].
    + constructor; assumption.
Qed.

Lemma findSurfaceAtPoint_range (this : ToolpathGenerator Mesh) (x y maxZ surfaceZ : Q) :
  findSurfaceAtPoint this x y maxZ = Some surfaceZ ->
  THREE.z (min (thisBounds this)) <= surfaceZ <= maxZ.
Proof.
  unfold findSurfaceAtPoint. intros H.
  match type of H with firstHitWithin ?f ?c ?hits = _ =>
    pose proof (firstHitWithin_spec f c hits) as Hspec; rewrite H in Hspec end.
  destruct Hspec as (_ & hit & _ & _ & _ & Hin & ->). exact Hin.
Qed.

(** *** The points of a row, of a layer *)

Lemma Qlt_bool_false (a b : Q) : Qlt_bool a b = false <-> b <= a.
Proof.
  unfold Qlt_bool. rewrite negb_false_iff. apply Qle_bool_iff.
Qed.

Lemma Qlt_bool_true (a b : Q) : Qlt_bool a b = true <-> a < b.
Proof.
  unfold Qlt_bool. rewrite negb_true_iff. split.
  - intros H. apply Qnot_le_lt. intros Hle. apply Qle_bool_iff in Hle. congruence.
  - intros H. destruct (Qle_bool b a) eqn:Hle; [|reflexivity].
    apply Qle_bool_iff in Hle. lra.
Qed.

Lemma checkNeedsMachining_inside (this : ToolpathGenerator Mesh) (x y z : Q) :
  checkNeedsMachining this x y z = true ->
  THREE.x (min (thisBounds this)) <= x <= THREE.x (max (thisBounds this)) /\
  THREE.y (min (thisBounds this)) <= y <= THREE.y (max (thisBounds this)) /\
  THREE.z (min (thisBounds this)) <= z <= THREE.z (max (thisBounds this)).
Proof.
  unfold checkNeedsMachining.
  destruct (Qlt_bool x _) eqn:H1; [discriminate|].
  destruct (Qlt_bool _ x) eqn:H2; [discriminate|].
  destruct (Qlt_bool y _) eqn:H3; [discriminate|].
  destruct (Qlt_bool _ y) eqn:H4; [discriminate|].
  destruct (Qlt_bool z _) eqn:H5; [discriminate|].
  destruct (Qlt_bool _ z) eqn:H6; [discriminate|].
  intros _. apply Qlt_bool_false in H1, H2, H3, H4, H5, H6. tauto.
Qed.

Lemma scanLineLoop_emitted (this : ToolpathGenerator Mesh) (n : nat) :
  forall (i : Z) (xStart scanStep y z toolRadius : Q) (points : list (Vector3 Q)),
  List.Forall (emitted (thisBounds this) toolRadius z) points ->
  List.Forall (emitted (thisBounds this) toolRadius z)
    (scanLineLoop this n i xStart scanStep y z toolRadius points).
Proof.
  induction n as [|n IH]; intros i xStart scanStep y z toolRadius points Hpoints;
    [exact Hpoints|].
  cbn [scanLineLoop]. apply IH.
  destruct (findSurfaceAtPoint this _ y z) as [surfaceZ|] eqn:Hfind; [|exact Hpoints].
  destruct (checkNeedsMachining this _ y surfaceZ) eqn:Hcheck; [|exact Hpoints].
  apply Forall_app. split; [exact Hpoints|]. constructor; [|constructor].
  apply checkNeedsMachining_inside in Hcheck. apply findSurfaceAtPoint_range in Hfind.
  exists surfaceZ. cbn [THREE.x THREE.y THREE.z]. tauto.
Qed.

Lemma contourLoop_emitted (this : ToolpathGenerator Mesh) (n : nat) :
  forall (scanIdx : Z) (zLevel stepover toolRadius : Q) (points : list (Vector3 Q)),
  List.Forall (emitted (thisBounds this) toolRadius zLevel) points ->
  List.Forall (emitted (thisBounds this) toolRadius zLevel)
    (contourLoop this n scanIdx zLevel stepover toolRadius points).
Proof.
  induction n as [|n IH]; intros scanIdx zLevel stepover toolRadius points Hpoints;
    [exact Hpoints|].
  cbn [contourLoop]. destruct (Qlt_bool _ _); [exact Hpoints|].
  apply IH. apply Forall_app. split; [exact Hpoints|].
  assert (Hrow : List.Forall (emitted (thisBounds this) toolRadius zLevel)
                   (scanLine this (THREE.x (min (thisBounds this)))
                      (THREE.x (max (thisBounds this)))
                      (THREE.y (min (thisBounds this)) + inject_Z scanIdx * stepover)
                      zLevel toolRadius)).
  { unfold scanLine. apply scanLineLoop_emitted. constructor. }
  destruct (scanIdx mod 2 =? 1)%Z; [|exact Hrow].
  apply List.Forall_forall. intros p Hp. apply in_rev in Hp.
  rewrite List.Forall_forall in Hrow. apply Hrow, Hp.
Qed.

Lemma layerContour_emitted (m : Mesh) (b : Bounds) (p : Params) (k : Z) :
  List.Forall (emitted b (toolRadiusOf p) (layerPlane b p k)) (layerContour m b p k).
Proof.
  unfold layerContour, generateContourAtZ.
  apply (contourLoop_emitted (running m b p [])). constructor.
Qed.

(** *** The rows of a layer *)

Lemma sorted_snoc (A : Type) (R : A -> A -> Prop) (l : list A) (a : A) :
  StronglySorted R l -> List.Forall (fun p => R p a) l -> StronglySorted R (l ++ [a]).
Proof.
  induction 1 as [|p l Hl IH Hp]; intros Hall.
  - repeat constructor.
  - inversion Hall as [|? ? Hpa Hall']; subst. cbn [app].
    constructor; [apply IH, Hall'|].
    apply Forall_app. split; [exact Hp|]. constructor; [exact Hpa|constructor].
Qed.

Lemma sorted_rev (A : Type) (R : A -> A -> Prop) (l : list A) :
  StronglySorted R l -> StronglySorted (fun p q => R q p) (rev l).
Proof.
  induction 1 as [|p l Hl IH Hp]; [constructor|].
  cbn [rev]. apply sorted_snoc; [exact IH|].
  apply List.Forall_forall. intros q Hq. apply in_rev in Hq.
  rewrite List.Forall_forall in Hp. apply Hp, Hq.
Qed.

(** With a positive step the points of a row come out in increasing X:
    point [i] is scanned at [xStart + i * scanStep]. *)
Lemma scanLineLoop_increasing (this : ToolpathGenerator Mesh) (n : nat) :
  forall (i : Z) (xStart scanStep y z toolRadius : Q) (points : list (Vector3 Q)),
  0 < scanStep ->
  increasingX points ->
  List.Forall (fun p => THREE.x p < xStart + inject_Z i * scanStep) points ->
  increasingX (scanLineLoop this n i xStart scanStep y z toolRadius points).
Proof.
  induction n as [|n IH]; intros i xStart scanStep y z toolRadius points Hstep Hsorted Hbelow;
    [exact Hsorted|].
  cbn [scanLineLoop].
  assert (Hnext : xStart + inject_Z i * scanStep < xStart + inject_Z (i + 1) * scanStep).
  { rewrite inject_Z_plus. change (inject_Z 1) with 1. lra. }
  assert (Hbelow' : List.Forall (fun p => THREE.x p < xStart + inject_Z (i + 1) * scanStep)
                      points).
  { eapply List.Forall_impl; [|exact Hbelow]. cbn beta. intros p Hp. lra. }
  apply IH; [exact Hstep| |].
  - destruct (findSurfaceAtPoint this _ y z) as [surfaceZ|]; [|exact Hsorted].
    destruct (checkNeedsMachining this _ y surfaceZ); [|exact Hsorted].
    apply sorted_snoc; [exact Hsorted|]. exact Hbelow.
  - destruct (findSurfaceAtPoint this _ y z) as [surfaceZ|]; [|exact Hbelow'].
    destruct (checkNeedsMachining this _ y surfaceZ); [|exact Hbelow'].
    apply Forall_app. split; [exact Hbelow'|].
    constructor; [|constructor]. cbn [THREE.x]. exact Hnext.
Qed.

Lemma rowScan_increasing (this : ToolpathGenerator Mesh) (zLevel stepover toolRadius : Q) (j : Z) :
  0 < toolDiameter (params this) ->
  increasingX (rowScan this zLevel stepover toolRadius j).
Proof.
  intros Hd. unfold rowScan, scanLine.
  apply scanLineLoop_increasing; [lra|constructor|constructor].
Qed.

(** The loop over the rows appends the rows [scanIdx, scanIdx + 1, ...]
    one after the other; it stops early only at a row beyond [yEnd]. *)
Lemma contourLoop_rows (this : ToolpathGenerator Mesh) (zLevel stepover toolRadius : Q) (n : nat) :
  forall (scanIdx : Z) (points : list (Vector3 Q)),
  exists rows : nat,
    (rows <= n)%nat /\
    contourLoop this n scanIdx zLevel stepover toolRadius points
    = points ++ concat (map (rowAppended this zLevel stepover toolRadius)
                            (indices rows scanIdx)) /\
    ((rows < n)%nat ->
     THREE.y (max (thisBounds this))
     < rowY (thisBounds this) stepover (scanIdx + Z.of_nat rows)).
Proof.
  induction n as [|n IH]; intros scanIdx points.
  - exists 0%nat. split; [lia|]. split; [cbn; rewrite app_nil_r; reflexivity|lia].
  - cbn [contourLoop].
    fold (rowY (thisBounds this) stepover scanIdx).
    fold (rowScan this zLevel stepover toolRadius scanIdx).
    fold (rowAppended this zLevel stepover toolRadius scanIdx).
    destruct (Qlt_bool _ _) eqn:Hbreak.
    + exists 0%nat. split; [lia|]. split; [cbn; rewrite app_nil_r; reflexivity|].
      intros _. apply Qlt_bool_true in Hbreak.
      rewrite Z.add_0_r. exact Hbreak.
    + destruct (IH (scanIdx + 1)%Z
                   (points ++ rowAppended this zLevel stepover toolRadius scanIdx))
        as (rows & Hrows & Heq & Hstop).
      exists (S rows). split; [lia|]. split.
      * rewrite Heq. cbn [indices map concat]. rewrite <- app_assoc. reflexivity.
      * intros Hlt.
        replace (scanIdx + Z.of_nat (S rows))%Z with (scanIdx + 1 + Z.of_nat rows)%Z by lia.
        apply Hstop. lia.
Qed.

(** With a positive row spacing no row of the loop lies beyond [yEnd]: all
    [numScans] rows are scanned. *)
Lemma rows_all_scanned (b : Bounds) (stepover : Q) (j : Z) :
  0 < stepover ->
  (0 <= j < mathCeil ((THREE.y (max b) - THREE.y (min b)) / stepover))%Z ->
  rowY b stepover j < THREE.y (max b).
Proof.
  intros Hs Hj. unfold mathCeil in Hj.
  set (E := THREE.y (max b) - THREE.y (min b)) in *.
  pose proof (Qceiling_lt (E / stepover)) as Hc.
  assert (Hj' : inject_Z j <= inject_Z (Qceiling (E / stepover) - 1)).
  { rewrite <- Zle_Qle. lia. }
  assert (Hlt : inject_Z j < E / stepover) by (eapply Qle_lt_trans; eassumption).
  apply (Qmult_lt_compat_r _ _ stepover) in Hlt; [|exact Hs].
  assert (Heq : E / stepover * stepover == E).
  { field. intros H0. rewrite H0 in Hs. discriminate. }
  rewrite Heq in Hlt. unfold rowY, E in *. lra.
Qed.

(** The points of a layer plane: the rows [0 .. rows-1], each appended as
    [rowAppended] gives it. *)
Lemma generateContourAtZ_rows (this : ToolpathGenerator Mesh) (zLevel stepover toolRadius : Q) :
  exists rows : nat,
    (rows <= Z.to_nat (mathCeil ((THREE.y (max (thisBounds this))
                                  - THREE.y (min (thisBounds this))) / stepover)))%nat /\
    generateContourAtZ this zLevel stepover toolRadius
    = concat (map (rowAppended this zLevel stepover toolRadius) (indices rows 0)) /\
    (0 < stepover ->
     rows = Z.to_nat (mathCeil ((THREE.y (max (thisBounds this))
                                 - THREE.y (min (thisBounds this))) / stepover))).
Proof.
  unfold generateContourAtZ.
  set (numScans := mathCeil _).
  destruct (contourLoop_rows this zLevel stepover toolRadius (Z.to_nat numScans) 0 [])
    as (rows & Hle & Heq & Hstop).
  exists rows. split; [exact Hle|]. split; [exact Heq|].
  intros Hs. destruct (Nat.eq_dec rows (Z.to_nat numScans)) as [Hr|Hr]; [exact Hr|].
  exfalso. assert (Hlt : (rows < Z.to_nat numScans)%nat) by lia.
  specialize (Hstop Hlt). rewrite Z.add_0_l in Hstop.
  pose proof (rows_all_scanned (thisBounds this) stepover (Z.of_nat rows) Hs) as Hin.
  fold numScans in Hin. assert (Hrange : (0 <= Z.of_nat rows < numScans)%Z) by lia.
  specialize (Hin Hrange). lra.
Qed.

(** *** What the specification says of the generator *)

Lemma nonEmpty_points (l : Layer.t) : nonEmpty l = true <-> Layer.points l <> [].
Proof.
  unfold nonEmpty. destruct (Layer.points l); cbn; split; congruence.
Qed.

(** A layer of the path is the layer of one iteration, and has points. *)
Lemma in_generated (this : ToolpathGenerator Mesh) (m : Mesh) (b : Bounds) (l : Layer.t) :
  In l (toolpath (fst (generate this m b))) <->
  exists k, (0 <= k < numLayersOf b (params this))%Z /\
            l = layerAt m b (params this) k /\ Layer.points l <> [].
Proof.
  rewrite generate_layers, filter_In, in_map_iff, nonEmpty_points.
  split.
  - intros [(k & <- & Hk) Hne]. apply in_indices in Hk.
    exists k. split; [lia|]. split; [reflexivity|exact Hne].
  - intros (k & Hk & -> & Hne). split; [|exact Hne].
    exists k. split; [reflexivity|]. apply in_indices. lia.
Qed.

(** C3, amended.  A layer whose scan yields no point is not appended: the
    path consists of the layers of the iterations [0 .. L-1] whose scan
    yields at least one point, in order.  So every appended layer has a
    point, the index fields increase strictly and lie in [0 .. L-1], and an
    index of that range is present exactly when its scan is not empty. *)
Theorem empty_layers_are_skipped (this : ToolpathGenerator Mesh) (m : Mesh) (b : Bounds) :
  let p := params this in
  let L := numLayersOf b p in
  let path := toolpath (fst (generate this m b)) in
  path = List.filter nonEmpty (map (layerAt m b p) (indices (Z.to_nat L) 0)) /\
  (forall l, In l path -> Layer.points l <> [] /\ (0 <= Layer.layer l < L)%Z) /\
  StronglySorted Z.lt (map Layer.layer path) /\
  (forall k, (0 <= k < L)%Z ->
     (In k (map Layer.layer path) <-> layerContour m b p k <> [])).
Proof.
  cbv zeta. split; [apply generate_layers|]. split; [|split].
  - intros l Hl. apply in_generated in Hl. destruct Hl as (k & Hk & -> & Hne).
    split; [exact Hne|exact Hk].
  - rewrite generate_layers. apply filter_map_increasing, indices_increasing.
  - intros k Hk. rewrite in_map_iff. split.
    + intros (l & <- & Hl). apply in_generated in Hl.
      destruct Hl as (k' & _ & -> & Hne). exact Hne.
    + intros Hne. exists (layerAt m b (params this) k). split; [reflexivity|].
      apply in_generated. exists k. split; [exact Hk|]. split; [reflexivity|exact Hne].
Qed.

(** C2, amended.  With a Z-extent [E > 0] and a stepdown [s > 0] the
    generator runs [L = ceil(E/s) >= 1] iterations; iteration [k] has the
    plane [max.z - k*s], clamped to not go below [min.z]; an iteration is
    appended as a layer, with its index [k] and its plane, only when its
    scan yields a point.  The path therefore has at most [L] layers, and
    exactly [L], with the indices [0 .. L-1], when no scan is empty. *)
Theorem layer_count_and_planes (this : ToolpathGenerator Mesh) (m : Mesh) (b : Bounds) :
  0 < THREE.z (max b) - THREE.z (min b) ->
  0 < stepdown (params this) ->
  let p := params this in
  let L := mathCeil ((THREE.z (max b) - THREE.z (min b)) / stepdown p) in
  let path := toolpath (fst (generate this m b)) in
  (1 <= L)%Z /\
  (Z.of_nat (length path) <= L)%Z /\
  (forall l, In l path ->
     (0 <= Layer.layer l < L)%Z /\
     Layer.z l = mathMax (THREE.z (max b) - inject_Z (Layer.layer l) * stepdown p)
                         (THREE.z (min b))) /\
  ((forall k, (0 <= k < L)%Z -> layerContour m b p k <> []) ->
   Z.of_nat (length path) = L /\
   map Layer.layer path = indices (Z.to_nat L) 0).
Proof.
  intros HE Hs. cbv zeta. fold (numLayersOf b (params this)).
  pose proof (numLayers_positive b (params this) HE Hs) as HL.
  split; [exact HL|]. split; [|split].
  - rewrite generate_layers.
    pose proof (filter_length_le nonEmpty
                  (map (layerAt m b (params this))
                       (indices (Z.to_nat (numLayersOf b (params this))) 0))) as Hle.
    rewrite length_map, length_indices in Hle. lia.
  - intros l Hl. apply in_generated in Hl. destruct Hl as (k & Hk & -> & _).
    split; [exact Hk|reflexivity].
  - intros Hall. rewrite generate_layers, filter_all.
    + rewrite length_map, length_indices, map_map. split; [lia|].
      apply map_id.
    + intros l Hl. apply in_map_iff in Hl. destruct Hl as (k & <- & Hk).
      apply in_indices in Hk. apply nonEmpty_points. apply Hall. lia.
Qed.

(** C4, amended.  Every point of every layer has its x and its y within
    the selection, bounds included, and its z is the detected surface
    height plus the tool radius, where the surface height lies within
    [min.z, max.z] and not above the layer's plane.  So z lies within
    [min.z + toolRadius, max.z + toolRadius]. *)
Theorem emitted_points_and_selection (this : ToolpathGenerator Mesh) (m : Mesh) (b : Bounds) :
  let toolRadius := toolDiameter (params this) / 2 in
  forall l, In l (toolpath (fst (generate this m b))) ->
  forall pt, In pt (Layer.points l) ->
    THREE.x (min b) <= THREE.x pt <= THREE.x (max b) /\
    THREE.y (min b) <= THREE.y pt <= THREE.y (max b) /\
    THREE.z (min b) + toolRadius <= THREE.z pt <= THREE.z (max b) + toolRadius /\
    exists surfaceZ,
      THREE.z pt = surfaceZ + toolRadius /\
      THREE.z (min b) <= surfaceZ <= THREE.z (max b) /\
      surfaceZ <= Layer.z l.
Proof.
  cbv zeta. intros l Hl pt Hpt.
  apply in_generated in Hl. destruct Hl as (k & _ & -> & _).
  cbn [layerAt Layer.points Layer.z] in *.
  pose proof (layerContour_emitted m b (params this) k) as Hall.
  rewrite List.Forall_forall in Hall. specialize (Hall pt Hpt).
  destruct Hall as (surfaceZ & Hz & Hx & Hy & Hs & Hplane).
  unfold toolRadiusOf in Hz.
  split; [exact Hx|]. split; [exact Hy|]. split.
  - rewrite Hz. lra.
  - exists surfaceZ. split; [exact Hz|]. split; [exact Hs|exact Hplane].
Qed.

(** C5.  Within every generated layer the rows alternate: the layer's
    points are the rows of the Y-step indices [0, 1, 2, ...] one after the
    other; a row of even index is appended as scanned, which is in
    increasing X, and a row of odd index is appended reversed, which is in
    decreasing X. *)
Theorem rows_alternate (this : ToolpathGenerator Mesh) (m : Mesh) (b : Bounds) :
  0 < toolDiameter (params this) ->
  let p := params this in
  let scanning := running m b p [] in
  forall l, In l (toolpath (fst (generate this m b))) ->
  exists rows : nat,
    Layer.points l
    = concat (map (rowAppended scanning (Layer.z l) (stepoverOf p) (toolRadiusOf p))
                  (indices rows 0)) /\
    forall j, (0 <= j < Z.of_nat rows)%Z ->
      let scanned := rowScan scanning (Layer.z l) (stepoverOf p) (toolRadiusOf p) j in
      let appended := rowAppended scanning (Layer.z l) (stepoverOf p) (toolRadiusOf p) j in
      increasingX scanned /\
      (Z.even j = true -> appended = scanned /\ increasingX appended) /\
      (Z.odd j = true -> appended = rev scanned /\ decreasingX appended).
Proof.
  intros Hd. cbv zeta. intros l Hl.
  apply in_generated in Hl. destruct Hl as (k & _ & -> & _).
  cbn [layerAt Layer.points Layer.z].
  destruct (generateContourAtZ_rows (running m b (params this) [])
              (layerPlane b (params this) k) (stepoverOf (params this))
              (toolRadiusOf (params this))) as (rows & _ & Heq & _).
  exists rows. split; [exact Heq|].
  intros j _.
  assert (Hinc : increasingX (rowScan (running m b (params this) [])
                                (layerPlane b (params this) k)
                                (stepoverOf (params this)) (toolRadiusOf (params this)) j)).
  { apply rowScan_increasing. exact Hd. }
  split; [exact Hinc|]. unfold rowAppended. split.
  - intros Heven. rewrite Zeven_bool_iff in Heven. apply Zeven_ex in Heven.
    destruct Heven as [h ->].
    replace ((2 * h) mod 2)%Z with 0%Z by (rewrite Z.mul_comm, Z.mod_mul; lia).
    cbn. split; [reflexivity|exact Hinc].
  - intros Hodd. rewrite Zodd_bool_iff in Hodd. apply Zodd_ex in Hodd.
    destruct Hodd as [h ->].
    replace ((2 * h + 1) mod 2)%Z with 1%Z
      by (rewrite Z.add_comm, Z.mul_comm, Z.mod_add; [reflexivity|lia]).
    cbn. split; [reflexivity|]. apply sorted_rev in Hinc. exact Hinc.
Qed.

End Generator.

(** *** The ray caster over a triangle soup *)

Import MeshRaycaster.

Lemma insertHit_permutation (hit : Intersection) (sorted : list Intersection) :
  Permutation (insertHit hit sorted) (hit :: sorted).
Proof.
  induction sorted as [|h rest IH]; [reflexivity|].
  cbn [insertHit]. destruct (Qle_bool _ _); [reflexivity|].
  rewrite IH. apply perm_swap.
Qed.

Lemma sortByDistance_permutation (hits : list Intersection) :
  Permutation (sortByDistance hits) hits.
Proof.
  induction hits as [|h hits IH]; [reflexivity|].
  cbn [sortByDistance fold_right]. rewrite insertHit_permutation.
  apply perm_skip, IH.
Qed.

Lemma insertHit_sorted (hit : Intersection) (sorted : list Intersection) :
  StronglySorted byDistance sorted -> StronglySorted byDistance (insertHit hit sorted).
Proof.
  induction 1 as [|h rest Hrest IH Hh]; [repeat constructor|].
  cbn [insertHit]. destruct (Qle_bool _ _) eqn:Hle.
  - apply Qle_bool_iff in Hle. constructor; [constructor; assumption|].
    constructor; [exact Hle|].
    eapply List.Forall_impl; [|exact Hh]. unfold byDistance. intros h' Hh'.
    eapply Qle_trans; eassumption.
  - assert (Hlt : distance h < distance hit).
    { apply Qnot_le_lt. intros H. apply Qle_bool_iff in H. congruence. }
    constructor; [exact IH|].
    apply List.Forall_forall. intros h' Hh'.
    apply (Permutation_in _ (insertHit_permutation hit rest)) in Hh'.
    destruct Hh' as [<-|Hh'].
    + unfold byDistance. apply Qlt_le_weak, Hlt.
    + rewrite List.Forall_forall in Hh. apply Hh, Hh'.
Qed.

Lemma sortByDistance_sorted (hits : list Intersection) :
  StronglySorted byDistance (sortByDistance hits).
Proof.
  induction hits as [|h hits IH]; [constructor|].
  cbn [sortByDistance fold_right]. apply insertHit_sorted, IH.
Qed.

(** A hit lies on the ray, at its distance from the origin. *)
Lemma intersectTriangle_on_ray (origin direction : Vector3 Q) (t : Triangle)
    (hit : Intersection) :
  intersectTriangle origin direction t = Some hit ->
  0 <= distance hit /\
  THREE.z (point hit) == THREE.z origin + distance hit * THREE.z direction.
Proof.
  unfold intersectTriangle.
  set (normal := cross _ _). set (DdN := dot direction normal).
  destruct (Qeq_bool DdN 0) eqn:Hzero; [discriminate|].
  set (sign := if Qlt_bool 0 DdN then 1 else -1).
  destruct (Qlt_bool (sign * dot direction _) 0); [discriminate|].
  destruct (Qlt_bool (sign * dot direction _) 0); [discriminate|].
  destruct (Qlt_bool (sign * DdN) _); [discriminate|].
  destruct (Qlt_bool (- sign * dot _ normal) 0) eqn:Hbehind; [discriminate|].
  intros [= <-]. cbn [distance point at_ THREE.z].
  rewrite !Qred_correct. split; [|reflexivity].
  apply Qlt_bool_false in Hbehind.
  assert (Hpos : 0 < sign * DdN).
  { unfold sign. destruct (Qlt_bool 0 DdN) eqn:Hs.
    - apply Qlt_bool_true in Hs. lra.
    - apply Qlt_bool_false in Hs.
      assert (Hne : ~ DdN == 0).
      { intros H. apply Qeq_bool_iff in H. congruence. }
      assert (DdN < 0) by (apply Qle_lteq in Hs; tauto). lra. }
  apply Qle_shift_div_l; [exact Hpos|]. rewrite Qmult_0_l. exact Hbehind.
Qed.

(** C1.  The surface query casts the ray from [(x, y, ceilingZ + 100)]
    along -Z; the hits with the triangles come sorted by increasing
    distance from that origin, each at height [ceilingZ + 100 - distance];
    the query returns the height of the first hit of that order whose
    height lies in the closed interval [floorZ, ceilingZ], and nothing when
    no hit has its height there.  [floorZ] is the selection's least Z. *)
Theorem surface_query_first_hit (mesh : list Triangle) (b : Bounds) (p : Params)
    (path : list Layer.t) (x y ceilingZ : Q) :
  let floorZ := THREE.z (min b) in
  let origin := vec3 x y (ceilingZ + 100) in
  let direction := vec3 0 0 (-1) in
  let hits := intersectObject mesh origin direction in
  Permutation hits (triangleHits origin direction mesh) /\
  StronglySorted byDistance hits /\
  (forall h, In h hits ->
     0 <= distance h /\ THREE.z (point h) == ceilingZ + 100 - distance h) /\
  match findSurfaceAtPoint (running mesh b p path) x y ceilingZ with
  | Some surfaceZ =>
      exists before hit after,
        hits = before ++ hit :: after /\
        Forall (fun h => ~ within floorZ ceilingZ h) before /\
        within floorZ ceilingZ hit /\
        surfaceZ = THREE.z (point hit)
  | None => Forall (fun h => ~ within floorZ ceilingZ h) hits
  end.
Proof.
  cbv zeta. split; [apply sortByDistance_permutation|].
  split; [apply sortByDistance_sorted|]. split.
  - intros h Hh. cbn [intersectObject raycaster] in Hh.
    apply (Permutation_in _ (sortByDistance_permutation _)) in Hh.
    unfold triangleHits in Hh. apply in_flat_map in Hh.
    destruct Hh as (t & _ & Ht).
    destruct (intersectTriangle _ _ t) as [hit|] eqn:Hhit; [|destruct Ht].
    destruct Ht as [<-|[]].
    apply intersectTriangle_on_ray in Hhit. cbn [THREE.z] in Hhit.
    destruct Hhit as [Hpos Hz]. split; [exact Hpos|]. rewrite Hz. ring.
  - apply (firstHitWithin_spec (THREE.z (min b)) ceilingZ).
Qed.

(** *** Concrete runs of the generator *)

Section Plates.

Import Plates.

(** C2 as stated fails twice.  Over a plate at height 0, with extent 2 and
    stepdown 3/4, [ceil(E/s)] is 3 and the path has 2 layers, the last at
    z = 1/4.  Over a plate at the floor, with stepdown 1, no layer is empty
    and the path has its 2 layers, the last at z = 0: the selection's
    least Z is -1 in both runs. *)
Lemma layer_count_and_last_plane_differ :
  THREE.z (min box) = -1 /\ THREE.z (max box) = 1 /\
  numLayersOf box coarse = 3%Z /\
  run coarse (plate 0) box
    = [Layer.make 0 1 (zigzag (5 # 2)); Layer.make 1 (1 # 4) (zigzag (5 # 2))] /\
  numLayersOf box unitStep = 2%Z /\
  run unitStep (plate (-1)) box
    = [Layer.make 0 1 (zigzag (3 # 2)); Layer.make 1 0 (zigzag (3 # 2))].
Proof. vm_compute. repeat split; reflexivity. Qed.

(** C3 as stated fails over the plate at height 0: iteration 2 (plane
    -1/2, below the plate) yields no point and no layer is appended for it;
    the index fields are 0, 1 and not 0, 1, 2. *)
Lemma empty_layer_is_not_appended :
  numLayersOf box coarse = 3%Z /\
  layerContour (plate 0) box coarse 2 = [] /\
  map Layer.layer (toolpath (fst (generate (generator coarse) (plate 0) box)))
    = [0%Z; 1%Z].
Proof. vm_compute. repeat split; reflexivity. Qed.

(** C4 as stated fails on z: over the plate at height 0 every point is
    emitted at z = 0 + 5/2, above the selection's greatest Z, which is 1. *)
Lemma emitted_z_exceeds_selection :
  THREE.z (max box) = 1 /\
  toolDiameter coarse / 2 == 5 # 2 /\
  run coarse (plate 0) box
    = [Layer.make 0 1 (zigzag (5 # 2)); Layer.make 1 (1 # 4) (zigzag (5 # 2))] /\
  Qlt_bool (THREE.z (max box)) (5 # 2) = true.
Proof. vm_compute. repeat split; reflexivity. Qed.

(** C2, amended, over the plate at height 0: at most 3 layers, each with
    the plane of its index. *)
Lemma layer_count_and_planes_witness :
  0 < THREE.z (max box) - THREE.z (min box) /\
  0 < stepdown coarse /\
  (Z.of_nat (length (toolpath (fst (generate (generator coarse) (plate 0) box))))
   <= mathCeil ((THREE.z (max box) - THREE.z (min box)) / stepdown coarse))%Z /\
  (forall l, In l (toolpath (fst (generate (generator coarse) (plate 0) box))) ->
     (0 <= Layer.layer l
      < mathCeil ((THREE.z (max box) - THREE.z (min box)) / stepdown coarse))%Z /\
     Layer.z l = mathMax (THREE.z (max box) - inject_Z (Layer.layer l) * stepdown coarse)
                         (THREE.z (min box))).
Proof.
  assert (HE : 0 < THREE.z (max box) - THREE.z (min box)) by reflexivity.
  assert (Hs : 0 < stepdown (params (generator coarse))) by reflexivity.
  split; [exact HE|]. split; [exact Hs|].
  pose proof (layer_count_and_planes (generator coarse) (plate 0) box HE Hs) as H.
  cbv zeta in H. destruct H as (_ & Hcount & Hplanes & _).
  split; [exact Hcount|exact Hplanes].
Defined.

(** C4, amended, at the first point of the first layer over the plate. *)
Lemma emitted_points_and_selection_witness :
  let path := toolpath (fst (generate (generator coarse) (plate 0) box)) in
  let l := hd (Layer.make 0 0 []) path in
  let pt := hd (vec3 0 0 0) (Layer.points l) in
  (In l path) /\ (In pt (Layer.points l)) /\
  (THREE.x (min box) <= THREE.x pt <= THREE.x (max box)) /\
  (THREE.y (min box) <= THREE.y pt <= THREE.y (max box)) /\
  (THREE.z (min box) + toolDiameter coarse / 2 <= THREE.z pt
    <= THREE.z (max box) + toolDiameter coarse / 2) /\
  exists surfaceZ,
    THREE.z pt = surfaceZ + toolDiameter coarse / 2 /\
    THREE.z (min box) <= surfaceZ <= THREE.z (max box) /\
    surfaceZ <= Layer.z l.
Proof.
  cbv zeta.
  set (path := toolpath (fst (generate (generator coarse) (plate 0) box))).
  assert (Hl : In (hd (Layer.make 0 0 []) path) path).
  { vm_compute. left. reflexivity. }
  assert (Hpt : In (hd (vec3 0 0 0) (Layer.points (hd (Layer.make 0 0 []) path)))
                   (Layer.points (hd (Layer.make 0 0 []) path))).
  { vm_compute. left. reflexivity. }
  split; [exact Hl|]. split; [exact Hpt|].
  exact (emitted_points_and_selection (generator coarse) (plate 0) box _ Hl _ Hpt).
Defined.

(** C5 over the plate at height 0, tool diameter 5. *)
Lemma rows_alternate_witness :
  0 < toolDiameter coarse /\
  forall l, In l (toolpath (fst (generate (generator coarse) (plate 0) box))) ->
  exists rows : nat,
    Layer.points l
    = concat (map (rowAppended (running (plate 0) box coarse []) (Layer.z l)
                               (stepoverOf coarse) (toolRadiusOf coarse))
                  (indices rows 0)) /\
    forall j, (0 <= j < Z.of_nat rows)%Z ->
      increasingX (rowScan (running (plate 0) box coarse []) (Layer.z l)
                           (stepoverOf coarse) (toolRadiusOf coarse) j) /\
      (Z.even j = true ->
       rowAppended (running (plate 0) box coarse []) (Layer.z l)
                   (stepoverOf coarse) (toolRadiusOf coarse) j
       = rowScan (running (plate 0) box coarse []) (Layer.z l)
                 (stepoverOf coarse) (toolRadiusOf coarse) j /\
       increasingX (rowAppended (running (plate 0) box coarse []) (Layer.z l)
                                (stepoverOf coarse) (toolRadiusOf coarse) j)) /\
      (Z.odd j = true ->
       rowAppended (running (plate 0) box coarse []) (Layer.z l)
                   (stepoverOf coarse) (toolRadiusOf coarse) j
       = rev (rowScan (running (plate 0) box coarse []) (Layer.z l)
                      (stepoverOf coarse) (toolRadiusOf coarse) j) /\
       decreasingX (rowAppended (running (plate 0) box coarse []) (Layer.z l)
                                (stepoverOf coarse) (toolRadiusOf coarse) j)).
Proof.
  assert (Hd : 0 < toolDiameter (params (generator coarse))) by reflexivity.
  split; [exact Hd|].
  exact (rows_alternate (generator coarse) (plate 0) box Hd).
Defined.

End Plates.

End GeneratorProperties.

(** ** The exporter *)

Module ExporterProperties.

Import ToolpathGenerator GCodeExporter.
Local Open Scope Q_scope.

Section Exporter.

Context `{PR : Printing}.

(** *** The program, block by block *)

Lemma cuttingLoop_block (rest : list (Vector3 Q)) (pointCount : nat) :
  forall (lines : list string) (j : nat),
  cuttingLoop lines j rest pointCount = lines ++ cuttingBlock j rest pointCount.
Proof.
  induction rest as [|point rest IH]; intros lines j.
  - cbn. rewrite app_nil_r. reflexivity.
  - cbn [cuttingLoop cuttingBlock]. fold (feedTo point). fold (progressComment j pointCount).
    rewrite IH. unfold push. destruct (j mod 50 =? 0)%nat.
    + rewrite <- !app_assoc. reflexivity.
    + rewrite <- !app_assoc. reflexivity.
Qed.

Lemma layerLoop_blocks (this : GCodeExporter) (total : nat) (layers : list Layer.t) :
  forall lines : list string,
  layerLoop this lines total layers
  = lines ++ concat (map (layerBlock this total) layers).
Proof.
  induction layers as [|layer layers IH]; intros lines.
  - cbn. rewrite app_nil_r. reflexivity.
  - cbn [layerLoop map concat]. unfold layerBlock at 1.
    destruct (Layer.points layer) as [|firstPoint rest] eqn:Hpoints.
    + rewrite IH. unfold push, banner. rewrite Hpoints.
      rewrite <- !app_assoc. reflexivity.
    + rewrite IH, cuttingLoop_block. unfold push, banner. rewrite Hpoints.
      rewrite <- !app_assoc. reflexivity.
Qed.

Lemma exportLines_blocks (this : GCodeExporter) (toolpath : list Layer.t) :
  exportLines this toolpath
  = preamble this toolpath
    ++ concat (map (layerBlock this (length toolpath)) toolpath)
    ++ ending this.
Proof.
  unfold exportLines. rewrite layerLoop_blocks. unfold push, preamble, ending.
  cbn [app]. rewrite <- !app_assoc. reflexivity.
Qed.

Lemma commands_cuttingBlock (rest : list (Vector3 Q)) (pointCount : nat) :
  forall j : nat, commands (cuttingBlock j rest pointCount) = map feedTo rest.
Proof.
  induction rest as [|point rest IH]; intros j; [reflexivity|].
  cbn [cuttingBlock map]. unfold commands in *.
  change (List.filter (String.prefix "G"%string) (feedTo point :: ?l))
    with (feedTo point :: List.filter (String.prefix "G"%string) l).
  f_equal. rewrite List.filter_app, IH.
  destruct (j mod 50 =? 0)%nat; reflexivity.
Qed.

(** The moves of the cutting loop, point by point: the point of index [j]
    gives its move and, when 50 divides [j], the comment after it. *)
Lemma cuttingBlock_indexed (rest : list (Vector3 Q)) (pointCount : nat) :
  forall j : nat,
  cuttingBlock j rest pointCount
  = flat_map (fun jp : nat * Vector3 Q =>
                feedTo (snd jp)
                  :: (if (fst jp mod 50 =? 0)%nat
                      then [progressComment (fst jp) pointCount] else []))
             (combine (seq j (length rest)) rest).
Proof.
  induction rest as [|point rest IH]; intros j; [reflexivity|].
  cbn [cuttingBlock length seq combine flat_map fst snd]. rewrite IH. reflexivity.
Qed.

Lemma commands_app (l l' : list string) : commands (l ++ l') = commands l ++ commands l'.
Proof. apply List.filter_app. Qed.

Lemma commands_banner (total : nat) (layer : Layer.t) : commands (banner total layer) = [].
Proof. reflexivity. Qed.

(** [toFixed(3)] writes the thousandths nearest to the magnitude with
    exactly three digits after the point. *)
Lemma toFixed3_format (value : Q) :
  let n := Qfloor (Qabs value * 1000 + (1 # 2)) in
  (0 <= n)%Z /\
  inject_Z n - (1 # 2) <= Qabs value * 1000 < inject_Z n + (1 # 2) /\
  exists a b c : Z,
    (0 <= a <= 9)%Z /\ (0 <= b <= 9)%Z /\ (0 <= c <= 9)%Z /\
    n = (1000 * (n / 1000) + 100 * a + 10 * b + c)%Z /\
    toFixed3 value
    = ((if Qle_bool 0 value then "" else "-")
       ++ integerToString (n / 1000) ++ "."
       ++ String (digit a) (String (digit b) (String (digit c) "")))%string.
Proof.
  cbv zeta. set (t := Qabs value * 1000 + (1 # 2)).
  pose proof (Qfloor_le t) as Hlow. pose proof (Qlt_floor t) as Hhigh.
  pose proof (Qabs_nonneg value) as Habs.
  assert (Ht : 0 <= t) by (unfold t; lra).
  split; [|split].
  - assert (H : (Qfloor 0 <= Qfloor t)%Z) by (apply Qfloor_resp_le, Ht).
    exact H.
  - rewrite inject_Z_plus in Hhigh. change (inject_Z 1) with 1 in Hhigh.
    unfold t in *. split; lra.
  - set (n := Qfloor t).
    exists ((n / 100) mod 10)%Z, ((n / 10) mod 10)%Z, (n mod 10)%Z.
    pose proof (Z.mod_pos_bound (n / 100) 10). pose proof (Z.mod_pos_bound (n / 10) 10).
    pose proof (Z.mod_pos_bound n 10).
    split; [lia|]. split; [lia|]. split; [lia|]. split.
    + pose proof (Z.div_mod n 10). pose proof (Z.div_mod (n / 10) 10).
      pose proof (Z.div_mod (n / 100) 10).
      assert (n / 10 / 10 = n / 100)%Z by (rewrite Z.div_div by lia; reflexivity).
      assert (n / 100 / 10 = n / 1000)%Z by (rewrite Z.div_div by lia; reflexivity).
      lia.
    + unfold toFixed3. fold t. fold n. reflexivity.
Qed.

(** C9.  The program is the preamble, one block per layer in order, and
    the ending.  The block of a layer with points holds, in this order and
    with nothing else that moves the tool: a rapid retract to safeZ, a rapid
    XY move over the first point, one controlled-feed plunge to its z, one
    controlled-feed move with X, Y and Z per remaining point, and a rapid
    retract to safeZ; after the move of every point whose index in the
    layer is a multiple of 50 stands a progress comment.  The block of a
    layer without points holds its banner and the placeholder comment, and
    no command.  Every coordinate is written by [toFixed3], that is with
    exactly three digits after the point. *)
Theorem export_layer_blocks (this : GCodeExporter) (toolpath : list Layer.t) :
  exportLines this toolpath
  = preamble this toolpath
    ++ concat (map (layerBlock this (length toolpath)) toolpath)
    ++ ending this /\
  (forall layer,
     let block := layerBlock this (length toolpath) layer in
     match Layer.points layer with
     | [] =>
         block = banner (length toolpath) layer
                 ++ ["; (No points in this layer)"; ""]%string /\
         commands block = []
     | firstPoint :: rest =>
         block = banner (length toolpath) layer
                 ++ ["; Move to start position"%string;
                     rapidToSafeZ this "    ; Safe height"%string;
                     rapidToXY firstPoint;
                     plungeTo firstPoint;
                     ""%string;
                     "; Start cutting"%string]
                 ++ flat_map (fun jp : nat * Vector3 Q =>
                                feedTo (snd jp)
                                  :: (if (fst jp mod 50 =? 0)%nat
                                      then [progressComment (fst jp) (S (length rest))]
                                      else []))
                             (combine (seq 1 (length rest)) rest)
                 ++ [""%string; rapidToSafeZ this "    ; Retract"%string; ""%string] /\
         commands block
         = [rapidToSafeZ this "    ; Safe height"%string;
            rapidToXY firstPoint;
            plungeTo firstPoint]
           ++ map feedTo rest
           ++ [rapidToSafeZ this "    ; Retract"%string]
     end) /\
  (forall value : Q,
     let n := Qfloor (Qabs value * 1000 + (1 # 2)) in
     inject_Z n - (1 # 2) <= Qabs value * 1000 < inject_Z n + (1 # 2) /\
     exists a b c : Z,
       (0 <= a <= 9)%Z /\ (0 <= b <= 9)%Z /\ (0 <= c <= 9)%Z /\
       n = (1000 * (n / 1000) + 100 * a + 10 * b + c)%Z /\
       toFixed3 value
       = ((if Qle_bool 0 value then "" else "-")
          ++ integerToString (n / 1000) ++ "."
          ++ String (digit a) (String (digit b) (String (digit c) "")))%string).
Proof.
  split; [apply exportLines_blocks|]. split.
  - intros layer. cbv zeta. unfold layerBlock.
    destruct (Layer.points layer) as [|firstPoint rest] eqn:Hpoints.
    + split; [reflexivity|]. rewrite commands_app, commands_banner. reflexivity.
    + cbn [length]. rewrite <- cuttingBlock_indexed. split; [reflexivity|].
      rewrite commands_app, commands_banner. cbn [app].
      change (commands ("; Move to start position"%string :: ?a :: ?b :: ?c
                          :: ""%string :: "; Start cutting"%string :: ?l))
        with (a :: b :: c :: commands l).
      rewrite commands_app, commands_cuttingBlock. reflexivity.
  - intros value. apply (toFixed3_format value).
Qed.

End Exporter.

(** *** A concrete run of the exporter *)

Section Example.

Import Reference.

Example exampleLayer_block :
  layerBlock constructor 1 exampleLayer
  = ["; ====== Layer 1/1 - Z=-0.500 ======";
     "; Points in layer: 2";
     "";
     "; Move to start position";
     "G0 Z5.000    ; Safe height";
     "G0 X0.000 Y0.000";
     "G1 Z0.500   ; Lower to cutting depth";
     "";
     "; Start cutting";
     "G1 X1.000 Y0.000 Z0.500";
     "";
     "G0 Z5.000    ; Retract";
     ""]%string.
Proof. vm_compute. reflexivity. Qed.

Example exampleLayer_commands :
  commands (layerBlock constructor 1 exampleLayer)
  = ["G0 Z5.000    ; Safe height";
     "G0 X0.000 Y0.000";
     "G1 Z0.500   ; Lower to cutting depth";
     "G1 X1.000 Y0.000 Z0.500";
     "G0 Z5.000    ; Retract"]%string.
Proof. vm_compute. reflexivity. Qed.

Example toFixed3_samples :
  map toFixed3 [0; 1 # 2; -1 # 2; 12345 # 1000; 2 # 3; 5 # 10000; 99995 # 10000]
  = ["0.000"; "0.500"; "-0.500"; "12.345"; "0.667"; "0.001"; "10.000"]%string.
Proof. vm_compute. reflexivity. Qed.

Example decimalToString_samples :
  map decimalToString [5; 100; 5 # 2; 4 # 10; -3 # 4]
  = ["5"; "100"; "2.5"; "0.4"; "-0.75"]%string.
Proof. vm_compute. reflexivity. Qed.

End Example.

End ExporterProperties.

(** ** The path generator: progress, grid and counts *)

Module GeneratorRuns.

Import ToolpathGenerator.
Local Open Scope Q_scope.

Section Generator.

Context {Mesh : Type} `{RC : Raycaster Mesh}.

(** *** The progress reports *)

Lemma generateLoop_progress (numLayers : Z) (stepover toolRadius : Q) (n : nat) :
  forall (this : ToolpathGenerator Mesh) (k : Z) (progress : list Q),
  snd (generateLoop this n k numLayers stepover toolRadius progress)
  = progress ++ map (fun j => inject_Z (j + 1) / inject_Z numLayers) (indices n k).
Proof.
  induction n as [|n IH]; intros this k progress.
  - cbn. rewrite app_nil_r. reflexivity.
  - cbn [generateLoop indices map]. rewrite IH, <- app_assoc. reflexivity.
Qed.

Lemma indices_snoc (n : nat) :
  forall k : Z, indices (S n) k = indices n k ++ [(k + Z.of_nat n)%Z].
Proof.
  induction n as [|n IH]; intros k.
  - cbn. rewrite Z.add_0_r. reflexivity.
  - change (indices (S (S n)) k) with (k :: indices (S n) (k + 1)).
    rewrite IH. cbn [indices app]. do 3 f_equal. lia.
Qed.

(** *** The scan grid *)

Lemma inRow_widen (xStart scanStep y : Q) (lo hi hi' : Z) (pt : Vector3 Q) :
  (hi <= hi')%Z -> inRow xStart scanStep y lo hi pt -> inRow xStart scanStep y lo hi' pt.
Proof.
  intros Hle (i & Hi & Hx & Hy). exists i. split; [lia|]. split; assumption.
Qed.

Lemma scanLineLoop_grid (this : ToolpathGenerator Mesh) (xStart scanStep y z toolRadius : Q)
    (lo : Z) (n : nat) :
  forall (i : Z) (points : list (Vector3 Q)),
  (lo <= i)%Z ->
  List.Forall (inRow xStart scanStep y lo i) points ->
  List.Forall (inRow xStart scanStep y lo (i + Z.of_nat n))
    (scanLineLoop this n i xStart scanStep y z toolRadius points).
Proof.
  induction n as [|n IH]; intros i points Hlo Hpoints.
  - cbn [scanLineLoop]. rewrite Z.add_0_r. exact Hpoints.
  - cbn [scanLineLoop].
    replace (i + Z.of_nat (S n))%Z with (i + 1 + Z.of_nat n)%Z by lia.
    assert (Hnext : List.Forall (inRow xStart scanStep y lo (i + 1)) points).
    { eapply List.Forall_impl; [|exact Hpoints]. intros pt. apply inRow_widen. lia. }
    apply IH; [lia|].
    destruct (findSurfaceAtPoint this _ y z) as [surfaceZ|]; [|exact Hnext].
    destruct (checkNeedsMachining this _ y surfaceZ); [|exact Hnext].
    apply Forall_app. split; [exact Hnext|]. constructor; [|constructor].
    exists i. cbn [THREE.x THREE.y]. split; [lia|]. split; reflexivity.
Qed.

Lemma scanLineLoop_length (this : ToolpathGenerator Mesh) (xStart scanStep y z toolRadius : Q)
    (n : nat) :
  forall (i : Z) (points : list (Vector3 Q)),
  (length (scanLineLoop this n i xStart scanStep y z toolRadius points)
   <= length points + n)%nat.
Proof.
  induction n as [|n IH]; intros i points.
  - cbn [scanLineLoop]. lia.
  - cbn [scanLineLoop].
    match goal with |- (length (scanLineLoop _ _ _ _ _ _ _ _ ?pts) <= _)%nat =>
      specialize (IH (i + 1)%Z pts);
      assert (Hpts : (length pts <= S (length points))%nat)
    end.
    { destruct (findSurfaceAtPoint this _ y z) as [surfaceZ|]; [|lia].
      destruct (checkNeedsMachining this _ y surfaceZ); [|lia].
      rewrite length_app. cbn [length]. lia. }
    lia.
Qed.

(** The points of a scanned row of a run lie in that row, at the columns
    [0 .. numSteps]. *)
Lemma rowScan_grid (m : Mesh) (b : Bounds) (p : Params) (zLevel : Q) (j : Z) :
  List.Forall
    (inRow (THREE.x (min b)) (scanStepOf p) (rowY b (stepoverOf p) j)
           0 (numStepsOf b p + 1))
    (rowScan (running m b p []) zLevel (stepoverOf p) (toolRadiusOf p) j).
Proof.
  unfold rowScan, scanLine. cbn [thisBounds bounds running params].
  fold (scanStepOf p). fold (numStepsOf b p).
  pose proof (scanLineLoop_grid (running m b p []) (THREE.x (min b)) (scanStepOf p)
                (rowY b (stepoverOf p) j) zLevel (toolRadiusOf p) 0
                (Z.to_nat (numStepsOf b p + 1)) 0 [] (Z.le_refl 0) (List.Forall_nil _))
    as Hgrid.
  eapply List.Forall_impl; [|exact Hgrid].
  intros pt (i & Hi & Hx & Hy). exists i. split; [lia|]. split; assumption.
Qed.

Lemma rowScan_length (m : Mesh) (b : Bounds) (p : Params) (zLevel : Q) (j : Z) :
  (length (rowScan (running m b p []) zLevel (stepoverOf p) (toolRadiusOf p) j)
   <= Z.to_nat (numStepsOf b p + 1))%nat.
Proof.
  unfold rowScan, scanLine. cbn [thisBounds bounds running params].
  fold (scanStepOf p). fold (numStepsOf b p).
  match goal with |- (length (scanLineLoop ?t ?n ?i ?xs ?st ?y ?z ?r ?pts) <= _)%nat =>
    pose proof (scanLineLoop_length t xs st y z r n i pts) as H end.
  cbn [length] in H. lia.
Qed.

Lemma in_rowAppended (this : ToolpathGenerator Mesh) (zLevel stepover toolRadius : Q)
    (j : Z) (pt : Vector3 Q) :
  In pt (rowAppended this zLevel stepover toolRadius j)
  <-> In pt (rowScan this zLevel stepover toolRadius j).
Proof.
  unfold rowAppended. destruct (j mod 2 =? 1)%Z; [|reflexivity].
  symmetry. apply in_rev.
Qed.

Lemma length_rowAppended (this : ToolpathGenerator Mesh) (zLevel stepover toolRadius : Q)
    (j : Z) :
  length (rowAppended this zLevel stepover toolRadius j)
  = length (rowScan this zLevel stepover toolRadius j).
Proof.
  unfold rowAppended. destruct (j mod 2 =? 1)%Z; [|reflexivity]. apply length_rev.
Qed.

(** The rows of the layer of iteration [k]. *)
Lemma layerContour_rows (m : Mesh) (b : Bounds) (p : Params) (k : Z) :
  exists rows : nat,
    (rows <= Z.to_nat (numScansOf b p))%nat /\
    layerContour m b p k
    = concat (map (rowAppended (running m b p []) (layerPlane b p k)
                               (stepoverOf p) (toolRadiusOf p))
                  (indices rows 0)).
Proof.
  unfold layerContour.
  destruct (GeneratorProperties.generateContourAtZ_rows (running m b p [])
              (layerPlane b p k) (stepoverOf p) (toolRadiusOf p))
    as (rows & Hle & Heq & _).
  exists rows. split; [exact Hle|exact Heq].
Qed.

Lemma layerContour_grid (m : Mesh) (b : Bounds) (p : Params) (k : Z) :
  List.Forall (onGrid b p) (layerContour m b p k).
Proof.
  destruct (layerContour_rows m b p k) as (rows & Hle & ->).
  apply List.Forall_forall. intros pt Hpt.
  apply in_concat in Hpt. destruct Hpt as (row & Hrow & Hpt).
  apply in_map_iff in Hrow. destruct Hrow as (j & <- & Hj).
  apply GeneratorProperties.in_indices in Hj.
  apply in_rowAppended in Hpt.
  pose proof (rowScan_grid m b p (layerPlane b p k) j) as Hgrid.
  rewrite List.Forall_forall in Hgrid.
  destruct (Hgrid pt Hpt) as (i & Hi & Hx & Hy).
  exists i, j. split; [lia|]. split; [lia|]. split; assumption.
Qed.

Lemma concat_rows_length (A : Type) (f : Z -> list A) (bound : nat) (js : list Z) :
  (forall j, (length (f j) <= bound)%nat) ->
  (length (concat (map f js)) <= length js * bound)%nat.
Proof.
  intros Hf. induction js as [|j js IH]; [cbn; lia|].
  cbn [map concat length]. rewrite length_app. specialize (Hf j). lia.
Qed.

Lemma layerContour_length (m : Mesh) (b : Bounds) (p : Params) (k : Z) :
  (length (layerContour m b p k)
   <= Z.to_nat (numScansOf b p) * Z.to_nat (numStepsOf b p + 1))%nat.
Proof.
  destruct (layerContour_rows m b p k) as (rows & Hle & ->).
  etransitivity.
  - apply concat_rows_length. intros j. rewrite length_rowAppended. apply rowScan_length.
  - rewrite GeneratorProperties.length_indices. apply Nat.mul_le_mono_r. exact Hle.
Qed.

(** *** Counting the points *)

Lemma fold_left_counts (path : list Layer.t) :
  forall sum : nat,
  fold_left (fun sum l => (sum + length (Layer.points l))%nat) path sum
  = (sum + list_sum (pointCounts path))%nat.
Proof.
  unfold pointCounts.
  induction path as [|l path IH]; intros sum; [cbn; lia|].
  cbn [fold_left map]. rewrite IH.
  change (list_sum (?c :: ?counts)) with (c + list_sum counts)%nat. lia.
Qed.

Lemma list_sum_bounds (counts : list nat) (lo hi : nat) :
  List.Forall (fun c => (lo <= c <= hi)%nat) counts ->
  (length counts * lo <= list_sum counts <= length counts * hi)%nat.
Proof.
  induction 1 as [|c counts Hc _ IH]; [cbn; lia|].
  change (list_sum (c :: counts)) with (c + list_sum counts)%nat.
  cbn [length]. lia.
Qed.

(** *** What the runs show *)

(** X1.  [generate] reports progress once per iteration, whether or not the
    iteration's layer is kept: with [L = numLayers] the reports are
    [1/L, 2/L, ..., L/L], in this order.  There are [L] of them, at least as
    many as the path has layers, and for [L >= 1] the last one is 1. *)
Theorem progress_is_reported_per_iteration (this : ToolpathGenerator Mesh) (m : Mesh)
    (b : Bounds) :
  let L := numLayersOf b (params this) in
  let reports := snd (generate this m b) in
  reports = map (fun k => inject_Z (k + 1) / inject_Z L) (indices (Z.to_nat L) 0) /\
  length reports = Z.to_nat L /\
  (length (toolpath (fst (generate this m b))) <= length reports)%nat /\
  ((1 <= L)%Z -> exists earlier last, reports = earlier ++ [last] /\ last == 1).
Proof.
  cbv zeta.
  assert (Hreports :
    snd (generate this m b)
    = map (fun k => inject_Z (k + 1) / inject_Z (numLayersOf b (params this)))
          (indices (Z.to_nat (numLayersOf b (params this))) 0)).
  { unfold generate. cbn [params]. fold (numLayersOf b (params this)).
    rewrite generateLoop_progress. reflexivity. }
  split; [exact Hreports|]. rewrite Hreports.
  rewrite length_map, GeneratorProperties.length_indices.
  split; [reflexivity|]. split.
  - rewrite GeneratorProperties.generate_layers.
    etransitivity; [apply filter_length_le|].
    rewrite length_map, GeneratorProperties.length_indices. reflexivity.
  - intros HL. set (L := numLayersOf b (params this)) in *.
    destruct (Z.to_nat L) as [|n] eqn:Hn; [lia|].
    rewrite indices_snoc, map_app. cbn [map].
    eexists. eexists. split; [reflexivity|].
    replace (0 + Z.of_nat n + 1)%Z with L by lia.
    assert (Hne : ~ inject_Z L == 0).
    { intros H. unfold Qeq in H. cbn in H. lia. }
    field. exact Hne.
Qed.

(** X2.  Every point of every layer of a run stands on the scan grid: its x
    is [min.x + i * scanStep] for a column [0 <= i <= numSteps] and its y is
    [min.y + j * stepover] for a row [0 <= j < numScans], where
    [scanStep = 0.2 * toolDiameter], [stepover = toolDiameter * stepover],
    [numSteps = ceil(extentX / scanStep)], [numScans = ceil(extentY / stepover)]. *)
Theorem points_stand_on_the_scan_grid (this : ToolpathGenerator Mesh) (m : Mesh)
    (b : Bounds) :
  List.Forall (fun l => List.Forall (onGrid b (params this)) (Layer.points l))
    (toolpath (fst (generate this m b))).
Proof.
  apply List.Forall_forall. intros l Hl.
  apply GeneratorProperties.in_generated in Hl. destruct Hl as (k & _ & -> & _).
  cbn [layerAt Layer.points]. apply layerContour_grid.
Qed.



(** X5.  A layer of a run holds at least one point and at most
    [numScans * (numSteps + 1)] points, one per grid position.  After the
    run [getTotalPoints] is the sum of the layers' point counts: it lies
    between the number of layers and that number times the bound, and it is
    0 exactly when the path is empty. *)
Theorem point_counts_of_a_run (this : ToolpathGenerator Mesh) (m : Mesh) (b : Bounds) :
  let p := params this in
  let after := fst (generate this m b) in
  let bound := (Z.to_nat (numScansOf b p) * Z.to_nat (numStepsOf b p + 1))%nat in
  List.Forall (fun count => (1 <= count <= bound)%nat) (pointCounts (getToolpath after)) /\
  getTotalPoints after = list_sum (pointCounts (getToolpath after)) /\
  (length (getToolpath after) <= getTotalPoints after
   <= length (getToolpath after) * bound)%nat /\
  (getTotalPoints after = 0%nat <-> getToolpath after = []).
Proof.
  cbv zeta. unfold getToolpath.
  set (path := toolpath (fst (generate this m b))).
  set (bound := (Z.to_nat _ * Z.to_nat _)%nat).
  assert (Hcounts : List.Forall (fun count => (1 <= count <= bound)%nat) (pointCounts path)).
  { unfold pointCounts. apply List.Forall_forall. intros count Hcount.
    apply in_map_iff in Hcount. destruct Hcount as (l & <- & Hl).
    apply GeneratorProperties.in_generated in Hl. destruct Hl as (k & _ & -> & Hne).
    cbn [layerAt Layer.points] in *. split.
    - destruct (layerContour m b (params this) k); [congruence|cbn; lia].
    - apply layerContour_length. }
  assert (Hsum : getTotalPoints (fst (generate this m b)) = list_sum (pointCounts path)).
  { unfold getTotalPoints. fold path. rewrite fold_left_counts. reflexivity. }
  pose proof (list_sum_bounds _ _ _ Hcounts) as Hbounds.
  assert (Hlen : length (pointCounts path) = length path) by apply length_map.
  rewrite Hlen in Hbounds.
  split; [exact Hcounts|]. split; [exact Hsum|]. rewrite Hsum.
  split; [lia|]. split.
  - intros H0. destruct path; [reflexivity|]. cbn [length] in Hbounds. lia.
  - intros ->. reflexivity.
Qed.

(** *** One run after the other *)

Lemma params_generateLoop (numLayers : Z) (stepover toolRadius : Q) (n : nat) :
  forall (this : ToolpathGenerator Mesh) (k : Z) (progress : list Q),
  params (fst (generateLoop this n k numLayers stepover toolRadius progress))
  = params this.
Proof.
  induction n as [|n IH]; intros this k progress; [reflexivity|].
  cbn [generateLoop]. rewrite IH.
  destruct (0 <? length _)%nat; reflexivity.
Qed.

Lemma params_generate (this : ToolpathGenerator Mesh) (m : Mesh) (b : Bounds) :
  params (fst (generate this m b)) = params this.
Proof. unfold generate. rewrite params_generateLoop. reflexivity. Qed.

(** X23.  A run starts from scratch: [generate] drops the path, the mesh
    and the selection of the run before and keeps the parameters only.  A
    second run gives what the same call gives on a cleared generator, or on
    a new generator with the same parameters; no layer and no progress
    report of the first run is left in it. *)
Theorem a_run_starts_from_scratch (this : ToolpathGenerator Mesh) (m m' : Mesh)
    (b b' : Bounds) :
  let second := generate (fst (generate this m b)) m' b' in
  second = generate (clear this) m' b' /\
  second = generate (setParams constructor (params this)) m' b' /\
  second = generate this m' b' /\
  params (fst second) = params this.
Proof.
  cbv zeta.
  assert (Hsecond : generate (fst (generate this m b)) m' b' = generate this m' b').
  { unfold generate at 1 3. rewrite params_generate. reflexivity. }
  split; [|split; [|split]].
  - rewrite Hsecond. reflexivity.
  - rewrite Hsecond. reflexivity.
  - exact Hsecond.
  - rewrite Hsecond. apply params_generate.
Qed.

End Generator.

(** *** Concrete runs *)

Section Plates.

Import MeshRaycaster Plates.



End Plates.

End GeneratorRuns.

(** ** The loader: the textual parser *)

Module TextLoading.

Import DataView STLLoader.

Section Loader.

Context `{RT : Runtime}.

(** *** The loop, line by line *)

Lemma parseASCIILines_kind (line : jsstring) (rest : list jsstring)
    (positions normals : list number) (currentNormal : option (list number)) :
  parseASCIILines (line :: rest) positions normals currentNormal
  = let parts := splitWhiteSpace (trim line) false in
    match lineKind line with
    | FacetLine =>
        parseASCIILines rest positions normals
          (Some [parseFloatAt parts 2; parseFloatAt parts 3; parseFloatAt parts 4])
    | VertexLine =>
        parseASCIILines rest
          (positions ++ [parseFloatAt parts 1; parseFloatAt parts 2; parseFloatAt parts 3])
          (match currentNormal with Some n => normals ++ n | None => normals end)
          currentNormal
    | OtherLine => parseASCIILines rest positions normals currentNormal
    end.
Proof.
  cbn [parseASCIILines]. unfold lineKind. cbv zeta.
  destruct (startsWith (trim line) (codes "facet normal")); [reflexivity|].
  destruct (startsWith (trim line) (codes "vertex")); reflexivity.
Qed.

Lemma vertexLines_cons (line : jsstring) (lines : list jsstring) :
  vertexLines (line :: lines)
  = ((match lineKind line with VertexLine => 1 | _ => 0 end) + vertexLines lines)%nat.
Proof.
  unfold vertexLines. cbn [List.filter]. unfold isVertexLine at 1.
  destruct (lineKind line); reflexivity.
Qed.

Lemma parseASCIILines_lengths (lines : list jsstring) :
  forall (positions normals : list number) (currentNormal : option (list number)),
  threeOrNull currentNormal ->
  let parsed := parseASCIILines lines positions normals currentNormal in
  length (fst parsed) = (length positions + 3 * vertexLines lines)%nat /\
  length (snd parsed)
  = (length normals
     + 3 * vertexLines (match currentNormal with
                        | Some _ => lines
                        | None => afterFirstFacet lines
                        end))%nat.
Proof.
  induction lines as [|line lines IH]; intros positions normals currentNormal Hthree.
  - cbn. destruct currentNormal; cbn; lia.
  - cbv zeta. rewrite parseASCIILines_kind. cbv zeta.
    cbn [afterFirstFacet]. rewrite vertexLines_cons.
    destruct (lineKind line) eqn:Hkind.
    + match goal with |- context [parseASCIILines lines positions normals (Some ?n)] =>
        destruct (IH positions normals (Some n) eq_refl) as [Hp Hn] end.
      rewrite Hp, Hn. destruct currentNormal.
      * rewrite vertexLines_cons, Hkind. split; reflexivity.
      * split; reflexivity.
    + match goal with |- context [parseASCIILines lines ?p ?n currentNormal] =>
        destruct (IH p n currentNormal Hthree) as [Hp Hn] end.
      rewrite Hp, Hn. rewrite length_app. cbn [length].
      destruct currentNormal as [n|]; cbn [threeOrNull] in Hthree.
      * rewrite vertexLines_cons, Hkind, length_app, Hthree. split; lia.
      * split; lia.
    + destruct (IH positions normals currentNormal Hthree) as [Hp Hn].
      rewrite Hp, Hn. destruct currentNormal.
      * rewrite vertexLines_cons, Hkind. split; reflexivity.
      * split; reflexivity.
Qed.

Lemma vertexLines_afterFirstFacet (lines : list jsstring) :
  (vertexLines (afterFirstFacet lines) <= vertexLines lines)%nat.
Proof.
  induction lines as [|line lines IH]; [reflexivity|].
  cbn [afterFirstFacet]. rewrite vertexLines_cons.
  destruct (lineKind line); lia.
Qed.

(** *** [trim] and [split] on a line of tokens *)

Lemma trimStart_indentation (n : nat) (s : jsstring) :
  trimStart (indentation n ++ s) = trimStart s.
Proof. induction n as [|n IH]; [reflexivity|exact IH]. Qed.

Lemma trimStart_starts (s : jsstring) : starts s -> trimStart s = s.
Proof. intros (c & r & -> & Hc). cbn [trimStart]. rewrite Hc. reflexivity. Qed.

Lemma trim_indented (n : nat) (s : jsstring) :
  starts s -> finishes s -> trim (indentation n ++ s) = s.
Proof.
  intros Hs (d & r & Hr & Hd). unfold trim.
  rewrite trimStart_indentation, (trimStart_starts s Hs).
  rewrite Hr at 1. rewrite rev_app_distr. cbn [rev app trimStart]. rewrite Hd.
  change (d :: rev r) with (rev [d] ++ rev r). rewrite <- rev_app_distr, rev_involutive.
  symmetry. exact Hr.
Qed.

(** Trimming keeps a first character that is no white space. *)
Lemma trim_first (c : N) (s : jsstring) :
  isWhiteSpace c = false -> exists r, trim (c :: s) = c :: r.
Proof.
  intros Hc. unfold trim. cbn [trimStart]. rewrite Hc.
  assert (Hsnoc : forall l, exists l', trimStart (l ++ [c]) = l' ++ [c]).
  { induction l as [|a l IH].
    - exists []. cbn. rewrite Hc. reflexivity.
    - cbn [app trimStart]. destruct (isWhiteSpace a); [exact IH|].
      exists (a :: l). reflexivity. }
  cbn [rev]. destruct (Hsnoc (rev s)) as (l' & ->).
  rewrite rev_app_distr. exists (rev l'). reflexivity.
Qed.

Lemma isToken_chars (t : jsstring) :
  isToken t = true -> t <> [] /\ List.Forall (fun c => tokenChar c = true) t.
Proof.
  destruct t as [|c t]; [discriminate|]. unfold isToken. intros H.
  split; [discriminate|]. apply List.Forall_forall.
  exact (proj1 (forallb_forall _ _) H).
Qed.

Lemma tokenChar_spec (c : N) :
  tokenChar c = true -> (c < 128)%N /\ isWhiteSpace c = false /\ c <> 10%N.
Proof.
  unfold tokenChar. rewrite andb_true_iff, negb_true_iff, N.ltb_lt.
  intros [Hlt Hws]. split; [exact Hlt|]. split; [exact Hws|].
  intros ->. discriminate.
Qed.

Lemma isToken_starts (t : jsstring) : isToken t = true -> starts t.
Proof.
  intros H. apply isToken_chars in H. destruct H as [Hne Hall].
  destruct t as [|c r]; [congruence|]. exists c, r. split; [reflexivity|].
  inversion Hall as [|? ? Hc _]; subst. apply tokenChar_spec in Hc. tauto.
Qed.

Lemma isToken_finishes (t : jsstring) : isToken t = true -> finishes t.
Proof.
  intros H. apply isToken_chars in H. destruct H as [Hne Hall].
  destruct (exists_last Hne) as (r & d & ->). exists d, r. split; [reflexivity|].
  apply Forall_app in Hall. destruct Hall as [_ Hd].
  inversion Hd as [|? ? Hc _]; subst. apply tokenChar_spec in Hc. tauto.
Qed.

Lemma starts_app (s s' : jsstring) : starts s -> starts (s ++ s').
Proof. intros (c & r & -> & Hc). exists c, (r ++ s'). split; [reflexivity|exact Hc]. Qed.

Lemma finishes_app (s s' : jsstring) : finishes s' -> finishes (s ++ s').
Proof.
  intros (d & r & -> & Hd). exists d, (s ++ r). split; [|exact Hd].
  rewrite app_assoc. reflexivity.
Qed.

Lemma joinTokens_cons (t t' : jsstring) (rest : list jsstring) :
  joinTokens (t :: t' :: rest) = t ++ 32%N :: joinTokens (t' :: rest).
Proof. reflexivity. Qed.

Lemma joinTokens_starts (t : jsstring) (rest : list jsstring) :
  isToken t = true -> starts (joinTokens (t :: rest)).
Proof.
  intros Ht. destruct rest as [|t' rest]; [apply isToken_starts, Ht|].
  rewrite joinTokens_cons. apply starts_app, isToken_starts, Ht.
Qed.

Lemma joinTokens_finishes (tokens : list jsstring) :
  tokens <> [] -> forallb isToken tokens = true -> finishes (joinTokens tokens).
Proof.
  induction tokens as [|t rest IH]; [congruence|]. intros _ Hall.
  cbn [forallb] in Hall. apply andb_true_iff in Hall. destruct Hall as [Ht Hrest].
  destruct rest as [|t' rest]; [apply isToken_finishes, Ht|].
  rewrite joinTokens_cons.
  change (t ++ 32%N :: joinTokens (t' :: rest))
    with (t ++ [32%N] ++ joinTokens (t' :: rest)).
  apply finishes_app, finishes_app, IH; [discriminate|exact Hrest].
Qed.

Lemma splitWhiteSpace_pieces (s : jsstring) :
  forall inRun : bool, exists piece pieces, splitWhiteSpace s inRun = piece :: pieces.
Proof.
  induction s as [|c s IH]; intros inRun; [eexists; eexists; reflexivity|].
  cbn [splitWhiteSpace]. destruct (isWhiteSpace c).
  - destruct inRun; [apply IH|eexists; eexists; reflexivity].
  - destruct (IH false) as (piece & pieces & ->). eexists; eexists; reflexivity.
Qed.

(** Characters that are no white space are prepended to the first piece of
    what follows them. *)
Lemma splitWhiteSpace_token (t s : jsstring) :
  t <> [] -> List.Forall (fun c => tokenChar c = true) t ->
  forall inRun : bool,
  splitWhiteSpace (t ++ s) inRun
  = (t ++ hd [] (splitWhiteSpace s false)) :: tl (splitWhiteSpace s false).
Proof.
  intros Hne Hall. induction Hall as [|c t Hc Hall IH]; [congruence|].
  intros inRun. apply tokenChar_spec in Hc. destruct Hc as (_ & Hc & _).
  cbn [app splitWhiteSpace]. rewrite Hc.
  destruct t as [|c' t].
  - cbn [app]. destruct (splitWhiteSpace_pieces s false) as (piece & pieces & ->).
    reflexivity.
  - rewrite (IH ltac:(discriminate) false). reflexivity.
Qed.

(** Splitting at white space gives back the tokens of a line. *)
Lemma splitWhiteSpace_joinTokens (tokens : list jsstring) :
  tokens <> [] -> forallb isToken tokens = true ->
  forall inRun : bool, splitWhiteSpace (joinTokens tokens) inRun = tokens.
Proof.
  induction tokens as [|t rest IH]; [congruence|]. intros _ Hall inRun.
  cbn [forallb] in Hall. apply andb_true_iff in Hall. destruct Hall as [Ht Hrest].
  destruct (isToken_chars t Ht) as [Hne Hchars].
  destruct rest as [|t' rest].
  - cbn [joinTokens]. rewrite <- (app_nil_r t) at 1.
    rewrite (splitWhiteSpace_token t [] Hne Hchars). cbn. rewrite app_nil_r. reflexivity.
  - rewrite joinTokens_cons, (splitWhiteSpace_token t _ Hne Hchars).
    cbn [splitWhiteSpace]. change (isWhiteSpace 32) with true. cbn [hd tl].
    rewrite app_nil_r, IH; [reflexivity|discriminate|exact Hrest].
Qed.

(** *** The lines of a rendered solid *)

Lemma parse_facetLine (t : TextFacet) (rest : list jsstring)
    (positions normals : list number) (currentNormal : option (list number)) :
  forallb isToken (spellings (normalText t)) = true ->
  parseASCIILines (facetLine t :: rest) positions normals currentNormal
  = parseASCIILines rest positions normals (Some (textNormal t)).
Proof.
  intros Hn.
  assert (Htokens : forallb isToken
            (codes "facet" :: codes "normal" :: spellings (normalText t)) = true).
  { cbn [forallb] in *. rewrite Hn. reflexivity. }
  assert (Htrim : trim (facetLine t)
                  = joinTokens (codes "facet" :: codes "normal" :: spellings (normalText t))).
  { unfold facetLine. apply trim_indented.
    - apply joinTokens_starts. reflexivity.
    - apply joinTokens_finishes; [discriminate|exact Htokens]. }
  rewrite parseASCIILines_kind. cbv zeta. unfold lineKind. cbv zeta.
  rewrite Htrim.
  assert (Hstarts : startsWith
            (joinTokens (codes "facet" :: codes "normal" :: spellings (normalText t)))
            (codes "facet normal") = true) by reflexivity.
  rewrite Hstarts, splitWhiteSpace_joinTokens by (discriminate || exact Htokens).
  reflexivity.
Qed.

Lemma parse_vertexLine (v : Vector3 jsstring) (rest : list jsstring)
    (positions normals n : list number) :
  forallb isToken (spellings v) = true ->
  parseASCIILines (vertexLine v :: rest) positions normals (Some n)
  = parseASCIILines rest (positions ++ map parseFloat (spellings v)) (normals ++ n)
      (Some n).
Proof.
  intros Hv.
  assert (Htokens : forallb isToken (codes "vertex" :: spellings v) = true).
  { cbn [forallb] in *. rewrite Hv. reflexivity. }
  assert (Htrim : trim (vertexLine v) = joinTokens (codes "vertex" :: spellings v)).
  { unfold vertexLine. apply trim_indented.
    - apply joinTokens_starts. reflexivity.
    - apply joinTokens_finishes; [discriminate|exact Htokens]. }
  rewrite parseASCIILines_kind. cbv zeta. unfold lineKind. cbv zeta.
  rewrite Htrim.
  assert (Hfacet : startsWith (joinTokens (codes "vertex" :: spellings v))
                     (codes "facet normal") = false) by reflexivity.
  assert (Hvertex : startsWith (joinTokens (codes "vertex" :: spellings v))
                      (codes "vertex") = true) by reflexivity.
  rewrite Hfacet, Hvertex, splitWhiteSpace_joinTokens by (discriminate || exact Htokens).
  reflexivity.
Qed.

Lemma parse_otherLine (line : jsstring) (rest : list jsstring)
    (positions normals : list number) (currentNormal : option (list number)) :
  lineKind line = OtherLine ->
  parseASCIILines (line :: rest) positions normals currentNormal
  = parseASCIILines rest positions normals currentNormal.
Proof. intros Hkind. rewrite parseASCIILines_kind, Hkind. reflexivity. Qed.

(** A line whose first character is neither white space, nor [f], nor [v]
    is not read. *)
Lemma lineKind_other (c : N) (s : jsstring) :
  isWhiteSpace c = false -> (c =? 102)%N = false -> (c =? 118)%N = false ->
  lineKind (c :: s) = OtherLine.
Proof.
  intros Hws Hf Hv. unfold lineKind. cbv zeta.
  destruct (trim_first c s Hws) as (r & ->).
  change (startsWith (c :: r) (codes "facet normal"))
    with ((c =? 102)%N && startsWith r (codes "acet normal")).
  change (startsWith (c :: r) (codes "vertex"))
    with ((c =? 118)%N && startsWith r (codes "ertex")).
  rewrite Hf, Hv. reflexivity.
Qed.

Lemma wellSpelled_parts (t : TextFacet) :
  wellSpelled t = true ->
  forallb isToken (spellings (normalText t)) = true /\
  forallb isToken (spellings (vertexAText t)) = true /\
  forallb isToken (spellings (vertexBText t)) = true /\
  forallb isToken (spellings (vertexCText t)) = true.
Proof.
  unfold wellSpelled. rewrite !forallb_app, !andb_true_iff. tauto.
Qed.

Lemma parse_renderFacet (t : TextFacet) (rest : list jsstring)
    (positions normals : list number) (currentNormal : option (list number)) :
  wellSpelled t = true ->
  parseASCIILines (renderFacet t ++ rest) positions normals currentNormal
  = parseASCIILines rest (positions ++ textVertices t)
      (normals ++ textNormal t ++ textNormal t ++ textNormal t)
      (Some (textNormal t)).
Proof.
  intros Hwf. apply wellSpelled_parts in Hwf. destruct Hwf as (Hn & Ha & Hb & Hc).
  unfold renderFacet. cbn [app].
  rewrite parse_facetLine by exact Hn.
  rewrite parse_otherLine by reflexivity.
  rewrite !parse_vertexLine by assumption.
  rewrite !parse_otherLine by reflexivity.
  unfold textVertices. rewrite !map_app, <- !app_assoc. reflexivity.
Qed.

Lemma parse_facets (facets : list TextFacet) (closing : jsstring) :
  lineKind closing = OtherLine ->
  forallb wellSpelled facets = true ->
  forall (positions normals : list number) (currentNormal : option (list number)),
  parseASCIILines (flat_map renderFacet facets ++ [closing]) positions normals
    currentNormal
  = (positions ++ textPositions facets, normals ++ textNormals facets).
Proof.
  intros Hclosing. induction facets as [|t facets IH];
    intros Hwf positions normals currentNormal.
  - cbn [flat_map app]. rewrite parse_otherLine by exact Hclosing.
    cbn. rewrite !app_nil_r. reflexivity.
  - cbn [forallb] in Hwf. apply andb_true_iff in Hwf. destruct Hwf as [Ht Hwf].
    cbn [flat_map]. rewrite <- app_assoc, parse_renderFacet by exact Ht.
    rewrite (IH Hwf). unfold textPositions, textNormals. cbn [flat_map].
    rewrite <- !app_assoc. reflexivity.
Qed.

Lemma parse_renderSolid (name : jsstring) (facets : list TextFacet) :
  forallb wellSpelled facets = true ->
  parseASCIILines (renderSolid name facets) [] [] None
  = (textPositions facets, textNormals facets).
Proof.
  intros Hwf. unfold renderSolid.
  rewrite parse_otherLine by (apply lineKind_other; reflexivity).
  rewrite parse_facets; [reflexivity| |exact Hwf].
  apply lineKind_other; reflexivity.
Qed.

(** *** From the bytes to the lines *)

Lemma byteOf_code (c : N) : (c < 256)%N -> Byte.to_N (byteOf (Z.of_N c)) = c.
Proof.
  intros Hc. apply N2Z.inj. rewrite LoaderProperties.byteOf_value.
  apply Z.mod_small. lia.
Qed.

Lemma utf8Run_ascii (text : jsstring) :
  List.Forall (fun c => (c < 128)%N) text ->
  utf8Run utf8Initial (encodeText text) = text.
Proof.
  induction 1 as [|c text Hc _ IH]; [reflexivity|].
  unfold encodeText in *. cbn [map utf8Run]. rewrite byteOf_code by lia.
  unfold utf8Step. cbn [needed utf8Initial]. unfold utf8Lead.
  replace (c <=? 127)%N with true by (symmetry; apply N.leb_le; lia).
  cbn [app]. f_equal. exact IH.
Qed.

Lemma decode_ascii (text : jsstring) :
  List.Forall (fun c => (c < 128)%N) text -> decode (encodeText text) = text.
Proof.
  intros Hascii. unfold decode. rewrite utf8Run_ascii by exact Hascii.
  destruct text as [|c text]; [reflexivity|].
  inversion Hascii as [|? ? Hc _]; subst.
  assert (Hne : c <> 65279%N) by lia.
  destruct c as [|p]; [reflexivity|].
  do 16 (try (destruct p as [p|p|]; try reflexivity)).
  all: exfalso; apply Hne; reflexivity.
Qed.

Lemma isPlain_chars (s : jsstring) :
  isPlain s = true ->
  List.Forall (fun c => (c < 128)%N) s /\ List.Forall (fun c => (c =? 10)%N = false) s.
Proof.
  unfold isPlain. intros H. pose proof (proj1 (forallb_forall _ _) H) as Hall.
  split; apply List.Forall_forall; intros c Hc; specialize (Hall c Hc);
    apply andb_true_iff in Hall; destruct Hall as [Hlt Hlf].
  - apply N.ltb_lt, Hlt.
  - apply negb_true_iff, Hlf.
Qed.

Lemma splitLines_plain (l : jsstring) :
  List.Forall (fun c => (c =? 10)%N = false) l -> splitLines l = [l].
Proof.
  induction 1 as [|c l Hc _ IH]; [reflexivity|].
  cbn [splitLines]. rewrite Hc, IH. reflexivity.
Qed.

Lemma splitLines_line (l rest : jsstring) :
  List.Forall (fun c => (c =? 10)%N = false) l ->
  splitLines (l ++ 10%N :: rest) = l :: splitLines rest.
Proof.
  induction 1 as [|c l Hc _ IH]; [reflexivity|].
  cbn [app splitLines]. rewrite Hc, IH. reflexivity.
Qed.

Lemma joinLines_cons (l l' : jsstring) (rest : list jsstring) :
  joinLines (l :: l' :: rest) = l ++ 10%N :: joinLines (l' :: rest).
Proof. reflexivity. Qed.

Lemma splitLines_joinLines (lines : list jsstring) :
  lines <> [] -> forallb isPlain lines = true ->
  splitLines (joinLines lines) = lines.
Proof.
  induction lines as [|l rest IH]; [congruence|]. intros _ Hall.
  cbn [forallb] in Hall. apply andb_true_iff in Hall. destruct Hall as [Hl Hrest].
  apply isPlain_chars in Hl. destruct Hl as [_ Hl].
  destruct rest as [|l' rest]; [apply splitLines_plain, Hl|].
  rewrite joinLines_cons, splitLines_line by exact Hl.
  rewrite IH; [reflexivity|discriminate|exact Hrest].
Qed.

Lemma joinLines_ascii (lines : list jsstring) :
  forallb isPlain lines = true ->
  List.Forall (fun c => (c < 128)%N) (joinLines lines).
Proof.
  induction lines as [|l rest IH]; intros Hall; [constructor|].
  cbn [forallb] in Hall. apply andb_true_iff in Hall. destruct Hall as [Hl Hrest].
  apply isPlain_chars in Hl. destruct Hl as [Hl _].
  destruct rest as [|l' rest]; [exact Hl|].
  rewrite joinLines_cons. apply Forall_app. split; [exact Hl|].
  constructor; [reflexivity|]. apply IH, Hrest.
Qed.

Lemma isPlain_app (s s' : jsstring) : isPlain (s ++ s') = isPlain s && isPlain s'.
Proof. apply forallb_app. Qed.

Lemma isToken_plain (t : jsstring) : isToken t = true -> isPlain t = true.
Proof.
  intros Ht. apply isToken_chars in Ht. destruct Ht as [_ Hall].
  unfold isPlain. apply forallb_forall. intros c Hc.
  rewrite List.Forall_forall in Hall. specialize (Hall c Hc).
  apply tokenChar_spec in Hall. destruct Hall as (Hlt & _ & Hlf).
  apply andb_true_iff. split; [apply N.ltb_lt, Hlt|].
  apply negb_true_iff, N.eqb_neq, Hlf.
Qed.

Lemma joinTokens_plain (tokens : list jsstring) :
  forallb isToken tokens = true -> isPlain (joinTokens tokens) = true.
Proof.
  induction tokens as [|t rest IH]; intros Hall; [reflexivity|].
  cbn [forallb] in Hall. apply andb_true_iff in Hall. destruct Hall as [Ht Hrest].
  destruct rest as [|t' rest]; [apply isToken_plain, Ht|].
  rewrite joinTokens_cons.
  change (t ++ 32%N :: joinTokens (t' :: rest))
    with (t ++ [32%N] ++ joinTokens (t' :: rest)).
  rewrite !isPlain_app, (isToken_plain t Ht), (IH Hrest). reflexivity.
Qed.

Lemma renderFacet_plain (t : TextFacet) :
  wellSpelled t = true -> forallb isPlain (renderFacet t) = true.
Proof.
  intros Hwf. apply wellSpelled_parts in Hwf. destruct Hwf as (Hn & Ha & Hb & Hc).
  assert (Hvertex : forall v, forallb isToken (spellings v) = true ->
                              isPlain (vertexLine v) = true).
  { intros v Hv. unfold vertexLine. rewrite isPlain_app, joinTokens_plain; [reflexivity|].
    cbn [forallb] in *. rewrite Hv. reflexivity. }
  unfold renderFacet. cbn [forallb].
  rewrite !Hvertex by assumption.
  unfold facetLine. rewrite isPlain_app, joinTokens_plain; [reflexivity|].
  cbn [forallb] in *. rewrite Hn. reflexivity.
Qed.

Lemma renderSolid_plain (name : jsstring) (facets : list TextFacet) :
  isPlain name = true -> forallb wellSpelled facets = true ->
  forallb isPlain (renderSolid name facets) = true.
Proof.
  intros Hname Hwf.
  assert (Hfacets : forallb isPlain (flat_map renderFacet facets) = true).
  { induction facets as [|t facets IH]; [reflexivity|].
    cbn [forallb] in Hwf. apply andb_true_iff in Hwf. destruct Hwf as [Ht Hwf].
    cbn [flat_map]. rewrite forallb_app, (renderFacet_plain t Ht). apply IH, Hwf. }
  unfold renderSolid. cbn [forallb].
  rewrite forallb_app, Hfacets. cbn [forallb].
  rewrite !isPlain_app, Hname. reflexivity.
Qed.

Lemma parseASCII_encodeASCII (name : jsstring) (facets : list TextFacet) :
  isPlain name = true -> forallb wellSpelled facets = true ->
  parseASCII (encodeASCII name facets)
  = bufferGeometry (map fround (textPositions facets)) (map fround (textNormals facets))
      None None.
Proof.
  intros Hname Hwf. unfold parseASCII, encodeASCII.
  pose proof (renderSolid_plain name facets Hname Hwf) as Hplain.
  rewrite decode_ascii by (apply joinLines_ascii, Hplain).
  rewrite splitLines_joinLines by (discriminate || exact Hplain).
  rewrite parse_renderSolid by exact Hwf. reflexivity.
Qed.

(** *** What the textual parser does *)

Lemma length_textPositions (facets : list TextFacet) :
  length (textPositions facets) = (9 * length facets)%nat.
Proof.
  unfold textPositions. induction facets as [|t facets IH]; [reflexivity|].
  cbn [flat_map length]. rewrite length_app, IH. cbn. lia.
Qed.

Lemma length_textNormals (facets : list TextFacet) :
  length (textNormals facets) = (9 * length facets)%nat.
Proof.
  unfold textNormals. induction facets as [|t facets IH]; [reflexivity|].
  cbn [flat_map length]. rewrite length_app, IH. cbn. lia.
Qed.

(** X6.  An ASCII file written as the format's description in the source
    shows it (a [solid] line, per facet a [facet normal] line, [outer loop],
    three [vertex] lines, [endloop], [endfacet], then [endsolid]; numbers
    spelled as tokens of ASCII characters without white space) is read back
    in full by [parseASCII]: the positions are the nine vertex numbers of
    every facet in order, each read by [parseFloat] and stored as a
    binary32, and the normals hold every facet's normal three times; a
    file of N facets gives 3N vertices. *)
Theorem textual_stream_round_trip (name : jsstring) (facets : list TextFacet) :
  isPlain name = true ->
  forallb wellSpelled facets = true ->
  let g := parseASCII (encodeASCII name facets) in
  position g = map fround (textPositions facets) /\
  normal g = map fround (textNormals facets) /\
  count (position g) = (3 * Z.of_nat (length facets))%Z /\
  length (normal g) = length (position g).
Proof.
  intros Hname Hwf. cbv zeta. rewrite parseASCII_encodeASCII by assumption.
  cbn [position normal]. split; [reflexivity|]. split; [reflexivity|].
  unfold count. rewrite !length_map, length_textPositions, length_textNormals.
  split; [|reflexivity].
  replace (Z.of_nat (9 * length facets)) with (3 * Z.of_nat (length facets) * 3)%Z by lia.
  apply Z.div_mul. lia.
Qed.

(** X7.  For every byte stream, [parseASCII] stores three numbers per
    vertex line (a line that, trimmed, starts with [vertex] and not with
    [facet normal]), whatever else the file holds: the vertex count is the
    number of vertex lines.  It stores three normal components only for the
    vertex lines after the first [facet normal] line, so the normals are
    never more than the positions, and fewer when a vertex line comes
    first. *)
Theorem vertex_lines_are_counted (buffer : ArrayBuffer) :
  let lines := splitLines (decode buffer) in
  let g := parseASCII buffer in
  length (position g) = (3 * vertexLines lines)%nat /\
  count (position g) = Z.of_nat (vertexLines lines) /\
  length (normal g) = (3 * vertexLines (afterFirstFacet lines))%nat /\
  (length (normal g) <= length (position g))%nat.
Proof.
  cbv zeta. unfold parseASCII. cbn [position normal]. rewrite !length_map.
  destruct (parseASCIILines_lengths (splitLines (decode buffer)) [] [] None I)
    as [Hp Hn].
  cbn [length Nat.add] in Hp, Hn. unfold count. rewrite length_map, Hp, Hn.
  split; [reflexivity|]. split; [|split; [reflexivity|]].
  - replace (Z.of_nat (3 * vertexLines (splitLines (decode buffer))))
      with (Z.of_nat (vertexLines (splitLines (decode buffer))) * 3)%Z by lia.
    apply Z.div_mul. lia.
  - pose proof (vertexLines_afterFirstFacet (splitLines (decode buffer))). lia.
Qed.

(** X8.  The loop of [parseASCII] reads only the [facet normal] lines and
    the [vertex] lines: every other line ([solid], [outer loop], [endloop],
    [endfacet], [endsolid], blank or foreign lines) can be deleted, or
    inserted anywhere, without changing what is parsed; in particular
    [endfacet] does not reset the current normal. *)
Theorem unread_lines_change_nothing (lines : list jsstring)
    (positions normals : list number) (currentNormal : option (list number)) :
  parseASCIILines lines positions normals currentNormal
  = parseASCIILines (List.filter isRead lines) positions normals currentNormal.
Proof.
  revert positions normals currentNormal.
  induction lines as [|line lines IH]; intros positions normals currentNormal;
    [reflexivity|].
  cbn [List.filter]. unfold isRead.
  destruct (lineKind line) eqn:Hkind.
  - rewrite !parseASCIILines_kind, Hkind. cbv zeta. apply IH.
  - rewrite !parseASCIILines_kind, Hkind. cbv zeta. apply IH.
  - rewrite parseASCIILines_kind, Hkind. cbv zeta. apply IH.
Qed.

End Loader.

(** *** Concrete files *)

Section Streams.

Import Reference Streams.

(** X6 at a solid of one facet. *)
Lemma textual_stream_round_trip_witness :
  isPlain (codes "part") = true /\
  forallb wellSpelled [textTriangle] = true /\
  position (parseASCII (encodeASCII (codes "part") [textTriangle]))
    = map fround (textPositions [textTriangle]) /\
  normal (parseASCII (encodeASCII (codes "part") [textTriangle]))
    = map fround (textNormals [textTriangle]) /\
  count (position (parseASCII (encodeASCII (codes "part") [textTriangle]))) = 3%Z /\
  length (normal (parseASCII (encodeASCII (codes "part") [textTriangle])))
    = length (position (parseASCII (encodeASCII (codes "part") [textTriangle]))).
Proof.
  assert (Hname : isPlain (codes "part") = true) by reflexivity.
  assert (Hwf : forallb wellSpelled [textTriangle] = true) by reflexivity.
  split; [exact Hname|]. split; [exact Hwf|].
  exact (textual_stream_round_trip (codes "part") [textTriangle] Hname Hwf).
Defined.

(** The file of that solid, and what is read from it. *)
Example textTriangle_file :
  encodeASCII (codes "part") [textTriangle]
  = bytesOf "solid part
  facet normal 0 0 1
    outer loop
      vertex 0 0 0
      vertex 1 0 0
      vertex 0 1.5 0
    endloop
  endfacet
endsolid part" /\
  position (parseASCII (encodeASCII (codes "part") [textTriangle]))
  = [Fin 0; Fin 0; Fin 0; Fin 1; Fin 0; Fin 0; Fin 0; Fin (3 # 2); Fin 0] /\
  normal (parseASCII (encodeASCII (codes "part") [textTriangle]))
  = [Fin 0; Fin 0; Fin 1; Fin 0; Fin 0; Fin 1; Fin 0; Fin 0; Fin 1].
Proof. vm_compute. repeat split; reflexivity. Qed.

(** Vertex lines ahead of the first [facet normal] line get no normal. *)
Example vertexFirstSolid_buffers :
  vertexLines (splitLines (decode vertexFirstSolid)) = 3%nat /\
  vertexLines (afterFirstFacet (splitLines (decode vertexFirstSolid))) = 0%nat /\
  length (position (parseASCII vertexFirstSolid)) = 9%nat /\
  normal (parseASCII vertexFirstSolid) = [].
Proof. vm_compute. repeat split; reflexivity. Qed.

End Streams.

End TextLoading.

(** ** The loader: its state and the fixed-record reader *)

Module LoaderState.

Import DataView STLLoader.
Local Open Scope Z_scope.
Local Open Scope js_scope.

Section Loader.

Context `{RT : Runtime}.

(** *** The buffers of the fixed-record reader *)

Lemma length_store (array : list number) (index : Z) (value : number) :
  length (store array index value) = length array.
Proof.
  unfold store. destruct (index <? 0); [reflexivity|]. apply length_insert.
Qed.

Lemma parseBinaryLoop_lengths (buffer : ArrayBuffer) (n : nat) :
  forall (i offset : Z) (positions normals : list number)
         (filled : list number * list number),
  parseBinaryLoop buffer n i offset positions normals = Ok filled ->
  length (fst filled) = length positions /\ length (snd filled) = length normals.
Proof.
  induction n as [|n IH]; intros i offset positions normals filled Hloop.
  - cbn in Hloop. injection Hloop as <-. split; reflexivity.
  - cbn [parseBinaryLoop] in Hloop.
    repeat match type of Hloop with
    | bind (getFloat32 ?b ?o) _ = _ =>
        destruct (getFloat32 b o); cbn [bind] in Hloop; [|discriminate]
    end.
    apply IH in Hloop. rewrite !length_store in Hloop. exact Hloop.
Qed.

Lemma parseBinary_lengths (buffer : ArrayBuffer) (numTriangles : Z) (parsed : Geometry) :
  getUint32 buffer 80 = Ok numTriangles ->
  parseBinary buffer = Ok parsed ->
  length (position parsed) = Z.to_nat (numTriangles * 9) /\
  length (normal parsed) = Z.to_nat (numTriangles * 9).
Proof.
  intros Hn Hparsed. unfold parseBinary in Hparsed. rewrite Hn in Hparsed.
  cbn [bind] in Hparsed.
  destruct (parseBinaryLoop buffer _ 0 84 _ _) as [filled|] eqn:Hloop;
    cbn [bind] in Hparsed; [|discriminate].
  injection Hparsed as <-. cbn [position normal].
  apply parseBinaryLoop_lengths in Hloop. rewrite !length_replicate in Hloop.
  exact Hloop.
Qed.

Lemma length_computeVertexNormals (g : Geometry) :
  length (normal (computeVertexNormals g)) = length (normal g).
Proof.
  unfold computeVertexNormals. cbn [normal].
  rewrite length_app, length_take, length_replicate. lia.
Qed.

(** The post-processing keeps the positions and the size of the normals,
    and sets the box. *)
Lemma postProcess_buffers (parsed : Geometry) :
  position (postProcess parsed) = position parsed /\
  length (normal (postProcess parsed)) = length (normal parsed) /\
  boundingBox (postProcess parsed) = Some (setFromBufferAttribute (position parsed)).
Proof.
  unfold postProcess. cbn [computeBoundingSphere computeBoundingBox position normal
                            boundingBox].
  split; [reflexivity|]. split; [apply length_computeVertexNormals|reflexivity].
Qed.

(** What [load] returns is a post-processed geometry, and it is stored. *)
Lemma load_result (this : STLLoader) (buffer : ArrayBuffer) :
  match load this buffer with
  | (after, Ok g) =>
      after = stlLoader (Some g) /\
      exists parsed, g = postProcess parsed /\
        (isBinarySTL buffer = Ok true /\ parseBinary buffer = Ok parsed \/
         isBinarySTL buffer = Ok false /\ parseASCII buffer = parsed)
  | (after, Throw e) =>
      after = this /\ e = RangeError /\ byteLength buffer < 84
  end.
Proof.
  destruct (Z.lt_ge_cases (byteLength buffer) 84) as [Hshort|Hlong].
  - rewrite (proj2 (LoaderProperties.load_short this buffer Hshort)).
    split; [reflexivity|]. split; [reflexivity|exact Hshort].
  - destruct (LoaderProperties.isBinarySTL_inside buffer Hlong) as (n & Hn & _ & _).
    destruct (Z.eq_dec (byteLength buffer) (84 + n * 50)) as [Heq|Hne].
    + destruct (LoaderProperties.load_binary this buffer n Hn Heq) as [Hbin Hload].
      destruct (LoaderProperties.parseBinary_total buffer n Hn Heq) as (parsed & Hparsed).
      rewrite Hload, Hparsed. split; [reflexivity|].
      exists parsed. split; [reflexivity|]. left. split; [exact Hbin|reflexivity].
    + destruct (LoaderProperties.load_textual this buffer n Hn Hne) as [Hbin Hload].
      rewrite Hload. split; [reflexivity|].
      exists (parseASCII buffer). split; [reflexivity|]. right.
      split; [exact Hbin|reflexivity].
Qed.

Lemma getStats_postProcess (parsed : Geometry) :
  exists st,
    getStats (stlLoader (Some (postProcess parsed))) = Ok (Some st) /\
    vertexCount st = count (position parsed) /\
    (triangleCount st == inject_Z (count (position parsed)) / 3)%Q /\
    statsMin st = min (setFromBufferAttribute (position parsed)) /\
    statsMax st = max (setFromBufferAttribute (position parsed)).
Proof.
  eexists. split; [reflexivity|].
  cbn [vertexCount triangleCount statsMin statsMax]. repeat split; reflexivity.
Qed.

(** *** Records that differ in what is not read *)

Lemma facetWords_parts (t t' : Facet) :
  facetWords t' = facetWords t ->
  facetVertexWords t' = facetVertexWords t /\
  facetNormalWords t' = facetNormalWords t /\
  facetVertices t' = facetVertices t.
Proof.
  unfold facetWords, facetVertexWords, facetNormalWords, facetVertices.
  intros [= -> -> -> -> -> -> -> -> -> -> -> ->]. repeat split; reflexivity.
Qed.

Lemma same_words (facets : list Facet) :
  forall facets' : list Facet,
  map facetWords facets' = map facetWords facets ->
  length facets' = length facets /\
  facetPositions facets' = facetPositions facets /\
  facetNormals facets' = facetNormals facets /\
  computedNormals facets' = computedNormals facets /\
  (Forall wellFormed facets -> Forall wellFormed facets').
Proof.
  induction facets as [|t facets IH]; intros [|t' facets'] Hwords;
    try discriminate.
  - repeat split; try reflexivity. intros _. constructor.
  - cbn [map] in Hwords.
    pose proof (f_equal (hd []) Hwords) as Ht.
    pose proof (f_equal (@tl _) Hwords) as Hrest. cbn [hd tl] in Ht, Hrest.
    destruct (IH facets' Hrest) as (Hlen & Hpos & Hnor & Hcomp & Hwf).
    destruct (facetWords_parts t t' Ht) as (Hv & Hn & Hvs).
    unfold facetPositions, facetNormals, computedNormals in *. cbn [flat_map length].
    rewrite Hlen, Hpos, Hnor, Hcomp, Hv, Hn, Hvs.
    repeat split; try reflexivity.
    intros Hall. inversion Hall as [|? ? Hwt Hwfs]; subst.
    constructor; [|apply Hwf, Hwfs]. unfold wellFormed in *. rewrite Ht. exact Hwt.
Qed.

(** *** What the loader's state shows *)

(** X9.  [getStats] follows the last successful [load].  A new loader
    reports [null].  When [load] returns a geometry, that geometry is stored
    with its bounding box computed, so [getStats] never fails on a missing
    box: it reports the vertex count of the returned geometry, a third of
    it as triangle count, and the corners of the box.  When [load] throws,
    which it does only with the RangeError of a buffer under 84 bytes, the
    loader is as it was: [getStats] keeps reporting the model loaded
    before. *)
Theorem stats_follow_the_last_load (this : STLLoader) (buffer : ArrayBuffer) :
  getStats constructor = Ok None /\
  match load this buffer with
  | (after, Ok g) =>
      geometry after = Some g /\
      exists st bbox,
        getStats after = Ok (Some st) /\
        vertexCount st = count (position g) /\
        (triangleCount st == inject_Z (count (position g)) / 3)%Q /\
        boundingBox g = Some bbox /\
        statsMin st = min bbox /\ statsMax st = max bbox
  | (after, Throw e) =>
      e = RangeError /\ byteLength buffer < 84 /\
      after = this /\ getStats after = getStats this
  end.
Proof.
  split; [reflexivity|].
  pose proof (load_result this buffer) as Hload.
  destruct (load this buffer) as [after [g|e]].
  - destruct Hload as (-> & parsed & -> & _). split; [reflexivity|].
    destruct (getStats_postProcess parsed) as (st & Hst & Hv & Ht & Hmin & Hmax).
    destruct (postProcess_buffers parsed) as (Hpos & _ & Hbox).
    exists st, (setFromBufferAttribute (position parsed)).
    rewrite Hpos. repeat split; assumption.
  - destruct Hload as (-> & -> & Hshort).
    split; [reflexivity|]. split; [exact Hshort|]. split; reflexivity.
Qed.

(** X10.  A stream that [load] takes for the fixed-record encoding (its
    length is [84 + 50 * count] for the count at offset 80) is read to its
    end: [load] returns a geometry with [3 * count] vertices and as many
    normals, and [getStats] reports [count] triangles. *)
Theorem fixed_record_stream_counts (this : STLLoader) (buffer : ArrayBuffer)
    (numTriangles : Z) :
  getUint32 buffer 80 = Ok numTriangles ->
  byteLength buffer = 84 + numTriangles * 50 ->
  exists g st,
    load this buffer = (stlLoader (Some g), Ok g) /\
    Z.of_nat (length (position g)) = 9 * numTriangles /\
    Z.of_nat (length (normal g)) = 9 * numTriangles /\
    getStats (stlLoader (Some g)) = Ok (Some st) /\
    vertexCount st = 3 * numTriangles /\
    (triangleCount st == inject_Z numTriangles)%Q.
Proof.
  intros Hn Hlen.
  assert (Hpos : 0 <= numTriangles).
  { destruct (LoaderProperties.getUint32_inside buffer 80) as (w & Hw & Hrange);
      [lia| |rewrite Hw in Hn; injection Hn as <-; lia].
    unfold getUint32 in Hn.
    destruct ((80 <? 0) || (byteLength buffer <? 80 + 4)) eqn:Htest; [discriminate|].
    apply orb_false_elim in Htest. destruct Htest as [_ Htest].
    apply Z.ltb_ge in Htest. exact Htest. }
  destruct (LoaderProperties.load_binary this buffer numTriangles Hn Hlen) as [_ Hload].
  destruct (LoaderProperties.parseBinary_total buffer numTriangles Hn Hlen)
    as (parsed & Hparsed).
  rewrite Hparsed in Hload.
  destruct (parseBinary_lengths buffer numTriangles parsed Hn Hparsed) as [Hp Hnor].
  destruct (postProcess_buffers parsed) as (Hpos' & Hnor' & _).
  destruct (getStats_postProcess parsed) as (st & Hst & Hv & Ht & _).
  assert (Hcount : count (position parsed) = 3 * numTriangles).
  { unfold count. rewrite Hp.
    replace (Z.of_nat (Z.to_nat (numTriangles * 9))) with (3 * numTriangles * 3) by lia.
    apply Z.div_mul. lia. }
  exists (postProcess parsed), st. split; [exact Hload|].
  rewrite Hpos', Hnor', Hp, Hnor. split; [lia|]. split; [lia|].
  split; [exact Hst|]. rewrite Hv, Ht, Hcount. split; [reflexivity|].
  rewrite inject_Z_mult. field.
Qed.

(** X11.  A mesh without a vertex is loaded like any other, and its
    statistics are not finite: [getStats] reports 0 triangles and 0
    vertices, the corners (+Infinity, -Infinity) of the empty box, the
    dimensions -Infinity and the center NaN. *)
Theorem stats_of_a_mesh_without_vertices (this after : STLLoader) (buffer : ArrayBuffer)
    (g : Geometry) :
  load this buffer = (after, Ok g) ->
  count (position g) = 0 ->
  exists st, getStats after = Ok (Some st) /\ emptyStats st.
Proof.
  intros Hload Hcount.
  pose proof (load_result this buffer) as Hresult. rewrite Hload in Hresult.
  destruct Hresult as (-> & parsed & -> & _).
  destruct (postProcess_buffers parsed) as (Hpos & _ & _). rewrite Hpos in Hcount.
  destruct parsed as [positions normals bb bs].
  cbn [position] in Hcount. unfold count in Hcount.
  assert (Hshort : (length positions < 3)%nat).
  { destruct (Nat.lt_ge_cases (length positions) 3) as [H|H]; [exact H|].
    assert (1 <= Z.of_nat (length positions) / 3) by (apply Z.div_le_lower_bound; lia).
    lia. }
  destruct positions as [|a [|b [|c positions]]]; [| | |cbn [length] in Hshort; lia].
  all: eexists; split; [reflexivity|]; repeat split; reflexivity.
Qed.

(** X12.  The fixed-record reader reads neither the 80-byte header nor the
    two attribute bytes that close every record: two well-formed streams
    whose records agree on their twelve numbers are parsed to the same
    buffers, and loaded to the same geometry, whatever their headers and
    attribute bytes hold. *)
Theorem header_and_attribute_bytes_are_not_read (this : STLLoader)
    (header header' : list byte) (facets facets' : list Facet) :
  length header = 80%nat ->
  length header' = 80%nat ->
  Z.of_nat (length facets) < 2 ^ 32 ->
  Forall wellFormed facets ->
  map facetWords facets' = map facetWords facets ->
  parseBinary (encodeSTL header' facets') = parseBinary (encodeSTL header facets) /\
  load this (encodeSTL header' facets') = load this (encodeSTL header facets).
Proof.
  intros Hh Hh' Hn Hwf Hwords.
  destruct (same_words facets facets' Hwords) as (Hlen & Hpos & Hnor & Hcomp & Hwf').
  specialize (Hwf' Hwf).
  assert (Hn' : Z.of_nat (length facets') < 2 ^ 32) by (rewrite Hlen; exact Hn).
  split.
  - rewrite !LoaderProperties.parseBinary_encoded by assumption.
    rewrite Hpos, Hnor. reflexivity.
  - rewrite (proj2 (LoaderProperties.load_encoded this header' facets' Hh' Hn' Hwf')).
    rewrite (proj2 (LoaderProperties.load_encoded this header facets Hh Hn Hwf)).
    unfold loadedGeometry. rewrite Hpos, Hcomp. reflexivity.
Qed.

End Loader.

(** *** Concrete streams *)

Section Streams.

Import Reference Streams.

(** X10 at the stream of one record. *)
Lemma fixed_record_stream_counts_witness :
  getUint32 (encodeSTL blankHeader [flippedFacet]) 80 = Ok 1 /\
  byteLength (encodeSTL blankHeader [flippedFacet]) = 84 + 1 * 50 /\
  exists g st,
    load constructor (encodeSTL blankHeader [flippedFacet]) = (stlLoader (Some g), Ok g) /\
    Z.of_nat (length (position g)) = 9 * 1 /\
    Z.of_nat (length (normal g)) = 9 * 1 /\
    getStats (stlLoader (Some g)) = Ok (Some st) /\
    vertexCount st = 3 * 1 /\
    (triangleCount st == inject_Z 1)%Q.
Proof.
  assert (Hn : getUint32 (encodeSTL blankHeader [flippedFacet]) 80 = Ok 1)
    by (vm_compute; reflexivity).
  assert (Hlen : byteLength (encodeSTL blankHeader [flippedFacet]) = 84 + 1 * 50)
    by (vm_compute; reflexivity).
  split; [exact Hn|]. split; [exact Hlen|].
  exact (fixed_record_stream_counts constructor _ 1 Hn Hlen).
Defined.

(** X11 at the truncated stream, which is read as a text without vertex
    lines. *)
Lemma stats_of_a_mesh_without_vertices_witness :
  load constructor truncatedStream
  = (stlLoader (Some (postProcess (parseASCII truncatedStream))),
     Ok (postProcess (parseASCII truncatedStream))) /\
  count (position (postProcess (parseASCII truncatedStream))) = 0 /\
  exists st,
    getStats (stlLoader (Some (postProcess (parseASCII truncatedStream)))) = Ok (Some st) /\
    emptyStats st.
Proof.
  assert (Hn : getUint32 truncatedStream 80 = Ok 2) by (vm_compute; reflexivity).
  assert (Hne : byteLength truncatedStream <> 84 + 2 * 50) by (vm_compute; discriminate).
  pose proof (proj2 (LoaderProperties.load_textual constructor truncatedStream 2 Hn Hne))
    as Hload.
  assert (Hcount : count (position (postProcess (parseASCII truncatedStream))) = 0)
    by (vm_compute; reflexivity).
  split; [exact Hload|]. split; [exact Hcount|].
  exact (stats_of_a_mesh_without_vertices constructor _ truncatedStream _ Hload Hcount).
Defined.

(** X12 at the stream of one record: another header, another attribute. *)
Lemma header_and_attribute_bytes_are_not_read_witness :
  length blankHeader = 80%nat /\
  length filledHeader = 80%nat /\
  Z.of_nat (length [flippedFacet]) < 2 ^ 32 /\
  Forall wellFormed [flippedFacet] /\
  map facetWords [withAttribute 65535 flippedFacet] = map facetWords [flippedFacet] /\
  parseBinary (encodeSTL filledHeader [withAttribute 65535 flippedFacet])
    = parseBinary (encodeSTL blankHeader [flippedFacet]) /\
  load constructor (encodeSTL filledHeader [withAttribute 65535 flippedFacet])
    = load constructor (encodeSTL blankHeader [flippedFacet]).
Proof.
  assert (Hh : length blankHeader = 80%nat) by reflexivity.
  assert (Hh' : length filledHeader = 80%nat) by reflexivity.
  assert (Hn : Z.of_nat (length [flippedFacet]) < 2 ^ 32) by reflexivity.
  assert (Hwf : Forall wellFormed [flippedFacet]).
  { constructor; [|constructor].
    unfold wellFormed, facetWords, flippedFacet.
    cbn [nx ny nz v1x v1y v1z v2x v2y v2z v3x v3y v3z].
    repeat (constructor; [lia|]). constructor. }
  assert (Hwords : map facetWords [withAttribute 65535 flippedFacet]
                   = map facetWords [flippedFacet]) by reflexivity.
  split; [exact Hh|]. split; [exact Hh'|]. split; [exact Hn|]. split; [exact Hwf|].
  split; [exact Hwords|].
  exact (header_and_attribute_bytes_are_not_read constructor blankHeader filledHeader
           [flippedFacet] [withAttribute 65535 flippedFacet] Hh Hh' Hn Hwf Hwords).
Defined.

(** The two streams differ, in the header and in the last two bytes. *)
Example streams_differ :
  hd x00 (encodeSTL blankHeader [flippedFacet]) = x00 /\
  hd x00 (encodeSTL filledHeader [withAttribute 65535 flippedFacet]) = xff /\
  List.last (encodeSTL blankHeader [flippedFacet]) x00 = x00 /\
  List.last (encodeSTL filledHeader [withAttribute 65535 flippedFacet]) x00 = xff.
Proof. vm_compute. repeat split; reflexivity. Qed.

End Streams.

End LoaderState.

(** ** The exporter: counting the lines of a program *)

Module ExporterCensus.

Import ToolpathGenerator GCodeExporter.
Local Open Scope Q_scope.

Section Exporter.

Context `{PR : Printing}.

Lemma filter_concat_length (f : string -> bool) (blocks : list (list string)) :
  length (List.filter f (concat blocks))
  = list_sum (map (fun block => length (List.filter f block)) blocks).
Proof.
  induction blocks as [|block blocks IH]; [reflexivity|].
  cbn [concat map]. rewrite List.filter_app, length_app, IH. reflexivity.
Qed.

Lemma cuttingBlock_feedMoves (rest : list (Vector3 Q)) (pointCount : nat) :
  forall j : nat, length (feedMoves (cuttingBlock j rest pointCount)) = length rest.
Proof.
  unfold feedMoves. induction rest as [|point rest IH]; intros j; [reflexivity|].
  cbn [cuttingBlock].
  change (List.filter (String.prefix "G1"%string) (feedTo point :: ?l))
    with (feedTo point :: List.filter (String.prefix "G1"%string) l).
  cbn [length]. f_equal. rewrite List.filter_app, length_app, IH.
  destruct (j mod 50 =? 0)%nat; reflexivity.
Qed.

Lemma cuttingBlock_rapidMoves (rest : list (Vector3 Q)) (pointCount : nat) :
  forall j : nat, rapidMoves (cuttingBlock j rest pointCount) = [].
Proof.
  unfold rapidMoves. induction rest as [|point rest IH]; intros j; [reflexivity|].
  cbn [cuttingBlock].
  change (List.filter (String.prefix "G0"%string) (feedTo point :: ?l))
    with (List.filter (String.prefix "G0"%string) l).
  rewrite List.filter_app, IH. destruct (j mod 50 =? 0)%nat; reflexivity.
Qed.

Lemma cuttingBlock_placeholders (rest : list (Vector3 Q)) (pointCount : nat) :
  forall j : nat, placeholders (cuttingBlock j rest pointCount) = [].
Proof.
  unfold placeholders. induction rest as [|point rest IH]; intros j; [reflexivity|].
  cbn [cuttingBlock].
  change (List.filter ?f (feedTo point :: ?l)) with (List.filter f l).
  rewrite List.filter_app, IH. destruct (j mod 50 =? 0)%nat; reflexivity.
Qed.

Lemma banner_quiet (total : nat) (layer : Layer.t) :
  feedMoves (banner total layer) = [] /\
  rapidMoves (banner total layer) = [] /\
  placeholders (banner total layer) = [].
Proof. repeat split; reflexivity. Qed.

(** The lines of one layer's block, counted. *)
Lemma layerBlock_census (this : GCodeExporter) (total : nat) (layer : Layer.t) :
  length (feedMoves (layerBlock this total layer)) = length (Layer.points layer) /\
  length (rapidMoves (layerBlock this total layer))
  = (if nonEmpty layer then 3 else 0)%nat /\
  length (placeholders (layerBlock this total layer))
  = (if nonEmpty layer then 0 else 1)%nat.
Proof.
  destruct (banner_quiet total layer) as (Hfeed & Hrapid & Hplace).
  unfold layerBlock, nonEmpty.
  destruct (Layer.points layer) as [|firstPoint rest].
  - unfold feedMoves, rapidMoves, placeholders in *.
    rewrite !List.filter_app, Hfeed, Hrapid, Hplace. repeat split; reflexivity.
  - pose proof (cuttingBlock_feedMoves rest (S (length rest)) 1) as Hf.
    pose proof (cuttingBlock_rapidMoves rest (S (length rest)) 1) as Hr.
    pose proof (cuttingBlock_placeholders rest (S (length rest)) 1) as Hp.
    unfold feedMoves, rapidMoves, placeholders in *. cbn [length].
    rewrite !List.filter_app, !length_app, Hfeed, Hrapid, Hplace, Hf, Hr, Hp.
    change (List.filter (String.prefix "G1"%string)
              ["; Move to start position"%string; ?a; ?b; ?c; ""%string;
               "; Start cutting"%string])
      with [c].
    change (List.filter (String.prefix "G0"%string)
              ["; Move to start position"%string; ?a; ?b; ?c; ""%string;
               "; Start cutting"%string])
      with [a; b].
    change (List.filter (String.eqb "; (No points in this layer)"%string)
              ["; Move to start position"%string; ?a; ?b; ?c; ""%string;
               "; Start cutting"%string])
      with (@nil string).
    change (List.filter (String.prefix "G1"%string) [""%string; ?a; ""%string])
      with (@nil string).
    change (List.filter (String.prefix "G0"%string) [""%string; ?a; ""%string])
      with [a].
    change (List.filter (String.eqb "; (No points in this layer)"%string)
              [""%string; ?a; ""%string])
      with (@nil string).
    cbn [length]. repeat split; lia.
Qed.

Lemma blocks_census (this : GCodeExporter) (total : nat) (toolpath : list Layer.t) :
  let blocks := concat (map (layerBlock this total) toolpath) in
  length (feedMoves blocks) = list_sum (pointCounts toolpath) /\
  length (rapidMoves blocks) = (3 * length (layersWithPoints toolpath))%nat /\
  (length (placeholders blocks) + length (layersWithPoints toolpath))%nat
  = length toolpath.
Proof.
  cbv zeta. unfold feedMoves, rapidMoves, placeholders.
  rewrite !filter_concat_length, !map_map.
  induction toolpath as [|layer toolpath IH]; [repeat split; reflexivity|].
  destruct IH as (Hfeed & Hrapid & Hplace).
  destruct (layerBlock_census this total layer) as (Hf & Hr & Hp).
  unfold feedMoves, rapidMoves, placeholders in Hf, Hr, Hp.
  unfold pointCounts, layersWithPoints in *. cbn [map List.filter].
  change (list_sum (?c :: ?counts)) with (c + list_sum counts)%nat.
  rewrite Hf, Hr, Hp, Hfeed, Hrapid.
  destruct (nonEmpty layer); cbn [length]; repeat split; lia.
Qed.

Lemma exportLines_census (this : GCodeExporter) (toolpath : list Layer.t) :
  let lines := exportLines this toolpath in
  length (feedMoves lines) = list_sum (pointCounts toolpath) /\
  length (rapidMoves lines) = (4 + 3 * length (layersWithPoints toolpath))%nat /\
  (length (placeholders lines) + length (layersWithPoints toolpath))%nat
  = length toolpath.
Proof.
  cbv zeta. rewrite ExporterProperties.exportLines_blocks.
  destruct (blocks_census this (length toolpath) toolpath) as (Hfeed & Hrapid & Hplace).
  unfold feedMoves, rapidMoves, placeholders in *.
  rewrite !List.filter_app, !length_app, Hfeed, Hrapid.
  change (List.filter (String.prefix "G1"%string) (preamble this toolpath))
    with (@nil string).
  change (List.filter (String.prefix "G1"%string) (ending this)) with (@nil string).
  change (length (List.filter (String.prefix "G0"%string) (preamble this toolpath)))
    with 2%nat.
  change (length (List.filter (String.prefix "G0"%string) (ending this))) with 2%nat.
  change (List.filter (String.eqb "; (No points in this layer)"%string)
            (preamble this toolpath))
    with (@nil string).
  change (List.filter (String.eqb "; (No points in this layer)"%string) (ending this))
    with (@nil string).
  cbn [length]. repeat split; lia.
Qed.

(** X13.  The program of any path holds one controlled-feed move ([G1]) per
    point of the path, which is the number its header gives as total
    points: the plunge for the first point of a layer and one move for each
    further point.  It holds four rapid moves ([G0]) around the layers and
    three per layer with points; and one placeholder comment per layer
    without points, which has no move at all.  [estimateSize] charges 40
    bytes for each controlled-feed move and 1000 for all other lines. *)
Theorem program_moves_are_counted (this : GCodeExporter) (toolpath : list Layer.t) :
  let lines := exportLines this toolpath in
  length (feedMoves lines) = countTotalPoints toolpath /\
  length (rapidMoves lines) = (4 + 3 * length (layersWithPoints toolpath))%nat /\
  (length (placeholders lines) + length (layersWithPoints toolpath))%nat
  = length toolpath /\
  estimateSize toolpath = (length (feedMoves lines) * 40 + 1000)%nat.
Proof.
  cbv zeta. destruct (exportLines_census this toolpath) as (Hfeed & Hrapid & Hplace).
  assert (Hcount : length (feedMoves (exportLines this toolpath))
                   = countTotalPoints toolpath).
  { rewrite Hfeed. unfold countTotalPoints.
    rewrite GeneratorRuns.fold_left_counts. reflexivity. }
  split; [exact Hcount|]. split; [exact Hrapid|]. split; [exact Hplace|].
  unfold estimateSize. cbv zeta. rewrite Hcount. reflexivity.
Qed.

(** *** The lines of a program *)

Lemma div_succ (n : nat) :
  (S n / 50 = n / 50 + (if S n mod 50 =? 0 then 1 else 0))%nat.
Proof.
  pose proof (Nat.div_mod_eq n 50) as Hn.
  pose proof (Nat.mod_upper_bound n 50 ltac:(lia)) as Hr.
  destruct (Nat.eq_dec (n mod 50) 49%nat) as [Hlast|Hmid].
  - assert (Hdiv : (S n / 50 = n / 50 + 1)%nat).
    { symmetry. apply (Nat.div_unique (S n) 50 (n / 50 + 1) 0); lia. }
    assert (Hmod : (S n mod 50 = 0)%nat).
    { symmetry. apply (Nat.mod_unique (S n) 50 (n / 50 + 1) 0); lia. }
    rewrite Hdiv, Hmod. reflexivity.
  - assert (Hdiv : (S n / 50 = n / 50)%nat).
    { symmetry. apply (Nat.div_unique (S n) 50 (n / 50) (S (n mod 50))); lia. }
    assert (Hmod : (S n mod 50 = S (n mod 50))%nat).
    { symmetry. apply (Nat.mod_unique (S n) 50 (n / 50) (S (n mod 50))); lia. }
    rewrite Hdiv, Hmod. cbn [Nat.eqb]. lia.
Qed.

(** Among the indices [1 .. n] there are [n / 50] multiples of 50. *)
Lemma fiftieths (n : nat) :
  length (List.filter (fun j => (j mod 50 =? 0)%nat) (seq 1 n)) = (n / 50)%nat.
Proof.
  induction n as [|n IH]; [reflexivity|].
  rewrite seq_S, List.filter_app, length_app, IH, div_succ.
  change (1 + n)%nat with (S n). cbn [List.filter].
  destruct (S n mod 50 =? 0)%nat; reflexivity.
Qed.

Lemma prefix_append (p s : string) : String.prefix p (p ++ s)%string = true.
Proof.
  induction p as [|c p IH]; [destruct s; reflexivity|].
  cbn [String.append String.prefix]. destruct (ascii_dec c c); [exact IH|congruence].
Qed.

Lemma progressComment_kept (j pointCount : nat) :
  String.prefix "; Progress: "%string (progressComment j pointCount) = true.
Proof. exact (prefix_append "; Progress: "%string _). Qed.

Lemma cuttingBlock_lines (rest : list (Vector3 Q)) (pointCount : nat) :
  forall j : nat,
  length (cuttingBlock j rest pointCount)
  = (length rest
     + length (List.filter (fun i => (i mod 50 =? 0)%nat) (seq j (length rest))))%nat /\
  length (progressComments (cuttingBlock j rest pointCount))
  = length (List.filter (fun i => (i mod 50 =? 0)%nat) (seq j (length rest))).
Proof.
  unfold progressComments.
  induction rest as [|point rest IH]; intros j; [split; reflexivity|].
  destruct (IH (S j)) as [Hlines Hcomments].
  cbn [cuttingBlock].
  change (List.filter (String.prefix "; Progress: "%string) (feedTo point :: ?l))
    with (List.filter (String.prefix "; Progress: "%string) l).
  rewrite List.filter_app.
  cbn [length seq List.filter]. rewrite !length_app, Hlines, Hcomments.
  destruct (j mod 50 =? 0)%nat.
  - cbn [List.filter]. rewrite progressComment_kept. cbn [length]. split; lia.
  - cbn [List.filter length]. split; lia.
Qed.

Lemma layerBlock_lines (this : GCodeExporter) (total : nat) (layer : Layer.t) :
  length (layerBlock this total layer) = blockLength (length (Layer.points layer)) /\
  length (progressComments (layerBlock this total layer))
  = (Nat.pred (length (Layer.points layer)) / 50)%nat.
Proof.
  unfold layerBlock, progressComments.
  rewrite List.filter_app, !length_app.
  change (List.filter (String.prefix "; Progress: "%string) (banner total layer))
    with (@nil string).
  destruct (Layer.points layer) as [|firstPoint rest]; [split; reflexivity|].
  destruct (cuttingBlock_lines rest (S (length rest)) 1) as [Hlines Hcomments].
  unfold progressComments in Hcomments. rewrite fiftieths in Hlines, Hcomments.
  cbn [length Nat.pred blockLength].
  rewrite !List.filter_app, !length_app, Hlines, Hcomments.
  change (List.filter (String.prefix "; Progress: "%string)
            ["; Move to start position"%string; ?a; ?b; ?c; ""%string;
             "; Start cutting"%string])
    with (@nil string).
  change (List.filter (String.prefix "; Progress: "%string) [""%string; ?a; ""%string])
    with (@nil string).
  change (length (banner total layer)) with 3%nat.
  cbn [length]. split; lia.
Qed.

(** X25.  The program of a path has 32 lines around the layers and, for a
    layer of [n] points, 5 lines when [n = 0] and
    [12 + (n - 1) + (n - 1) / 50] lines otherwise: the progress comment
    stands after every fiftieth of the [n - 1] points that follow the
    first, so a layer has [(n - 1) / 50] of them, rounded down, and a layer
    of 50 points or fewer has none. *)
Theorem program_lines_are_counted (this : GCodeExporter) (toolpath : list Layer.t) :
  length (exportLines this toolpath)
  = (32 + list_sum (map blockLength (pointCounts toolpath)))%nat /\
  List.Forall
    (fun layer =>
       length (layerBlock this (length toolpath) layer)
       = blockLength (length (Layer.points layer)) /\
       length (progressComments (layerBlock this (length toolpath) layer))
       = (Nat.pred (length (Layer.points layer)) / 50)%nat)
    toolpath.
Proof.
  split.
  - rewrite ExporterProperties.exportLines_blocks, !length_app.
    change (length (preamble this toolpath)) with 26%nat.
    change (length (ending this)) with 6%nat.
    assert (Hblocks : forall total layers,
              length (concat (map (layerBlock this total) layers))
              = list_sum (map blockLength (pointCounts layers))).
    { intros total layers. induction layers as [|layer layers IH]; [reflexivity|].
      unfold pointCounts in *. cbn [map concat]. rewrite length_app, IH.
      rewrite (proj1 (layerBlock_lines this total layer)). reflexivity. }
    rewrite Hblocks. lia.
  - apply List.Forall_forall. intros layer _. apply layerBlock_lines.
Qed.

(** *** Rapid moves *)

Lemma rapidToSafeZ_retracts (this : GCodeExporter) (remark : string) :
  String.prefix ("G0 Z" ++ toFixed3 (safeZ (params this)))%string
                (rapidToSafeZ this remark) = true /\
  String.prefix "G0 X"%string (rapidToSafeZ this remark) = false.
Proof.
  split; [|reflexivity].
  change (rapidToSafeZ this remark)
    with ("G0 Z" ++ (toFixed3 (safeZ (params this)) ++ ("" ++ remark)))%string.
  replace ("G0 Z" ++ (toFixed3 (safeZ (params this)) ++ ("" ++ remark)))%string
    with (("G0 Z" ++ toFixed3 (safeZ (params this))) ++ ("" ++ remark))%string
    by reflexivity.
  apply prefix_append.
Qed.

Lemma rapidsFollowRetract_feeds (height : string) (rest : list (Vector3 Q))
    (tail : list string) (retracted : bool) :
  rapidsFollowRetract height retracted (map feedTo rest ++ tail)
  = rapidsFollowRetract height
      (match rest with [] => retracted | _ => false end) tail.
Proof.
  revert retracted. induction rest as [|point rest IH]; intros retracted; [reflexivity|].
  cbn [map app rapidsFollowRetract].
  change (String.prefix "G0 X"%string (feedTo point)) with false. cbv iota.
  change (String.prefix ("G0 Z" ++ height)%string (feedTo point)) with false.
  rewrite IH. destruct rest; reflexivity.
Qed.

Lemma rapidToXY_travels (point : Vector3 Q) :
  String.prefix "G0 X"%string (rapidToXY point) = true.
Proof. exact (prefix_append "G0 X"%string _). Qed.

Lemma commands_layerBlock (this : GCodeExporter) (total : nat) (layer : Layer.t) :
  commands (layerBlock this total layer)
  = match Layer.points layer with
    | [] => []
    | firstPoint :: rest =>
        rapidToSafeZ this "    ; Safe height"%string
          :: rapidToXY firstPoint
          :: plungeTo firstPoint
          :: map feedTo rest ++ [rapidToSafeZ this "    ; Retract"%string]
    end.
Proof.
  unfold layerBlock.
  rewrite ExporterProperties.commands_app, ExporterProperties.commands_banner.
  destruct (Layer.points layer) as [|firstPoint rest]; [reflexivity|].
  cbn [app].
  change (commands ("; Move to start position"%string :: ?a :: ?b :: ?c
                      :: ""%string :: "; Start cutting"%string :: ?l))
    with (a :: b :: c :: commands l).
  rewrite ExporterProperties.commands_app, ExporterProperties.commands_cuttingBlock.
  reflexivity.
Qed.

Lemma commands_concat (blocks : list (list string)) :
  commands (concat blocks) = concat (map commands blocks).
Proof.
  induction blocks as [|block blocks IH]; [reflexivity|].
  cbn [concat map]. rewrite ExporterProperties.commands_app, IH. reflexivity.
Qed.

Lemma rapidsFollowRetract_other (height : string) (retracted : bool)
    (cmd : string) (cmds : list string) :
  String.prefix "G0 X"%string cmd = false ->
  rapidsFollowRetract height retracted (cmd :: cmds)
  = rapidsFollowRetract height (String.prefix ("G0 Z" ++ height)%string cmd) cmds.
Proof. intros Hother. cbn [rapidsFollowRetract]. rewrite Hother. reflexivity. Qed.

Lemma rapidsFollowRetract_travel (height : string) (cmd : string) (cmds : list string) :
  String.prefix "G0 X"%string cmd = true ->
  rapidsFollowRetract height true (cmd :: cmds)
  = rapidsFollowRetract height false cmds.
Proof. intros Htravel. cbn [rapidsFollowRetract]. rewrite Htravel. reflexivity. Qed.

(** A rapid move to the safe height opens a stretch of commands: what came
    before it does not matter. *)
Lemma rapidsFollowRetract_retract (this : GCodeExporter) (remark : string)
    (retracted : bool) (cmds : list string) :
  rapidsFollowRetract (toFixed3 (safeZ (params this))) retracted
                      (rapidToSafeZ this remark :: cmds)
  = rapidsFollowRetract (toFixed3 (safeZ (params this))) true cmds.
Proof.
  destruct (rapidToSafeZ_retracts this remark) as [Hretract Hrapid].
  cbn [rapidsFollowRetract]. rewrite Hrapid, Hretract. reflexivity.
Qed.

Lemma rapidsFollowRetract_blocks (this : GCodeExporter) (total : nat)
    (layers : list Layer.t) :
  forall retracted : bool,
  rapidsFollowRetract (toFixed3 (safeZ (params this))) retracted
    (concat (map commands (map (layerBlock this total) layers))
     ++ commands (ending this)) = true.
Proof.
  induction layers as [|layer layers IH]; intros retracted.
  - change (concat (map commands (map (layerBlock this total) [])) ++ commands (ending this))
      with [rapidToSafeZ this "    ; Final retract"%string;
            "G0 X0.000 Y0.000   ; Return to origin"%string].
    rewrite rapidsFollowRetract_retract, rapidsFollowRetract_travel by reflexivity.
    reflexivity.
  - cbn [map concat]. rewrite commands_layerBlock.
    destruct (Layer.points layer) as [|firstPoint rest]; [apply IH|].
    cbn [app]. rewrite rapidsFollowRetract_retract.
    rewrite rapidsFollowRetract_travel by apply rapidToXY_travels.
    rewrite rapidsFollowRetract_other by reflexivity.
    rewrite <- !app_assoc, rapidsFollowRetract_feeds. cbn [app].
    rewrite rapidsFollowRetract_retract. apply IH.
Qed.

(** X26.  In the program of any path, every rapid move in X and Y (a
    command that starts with "G0 X") stands directly after a rapid move to
    the safe height of the parameters (a command that starts with "G0 Z"
    and [safeZ] in three decimals): before the origin move of the
    initialisation, before the first point of every layer and before the
    return to the origin the tool has just been sent to [safeZ], and no
    other command moves at rapid rate in X or Y. *)
Theorem rapid_travel_follows_a_retract (this : GCodeExporter) (toolpath : list Layer.t) :
  rapidsFollowRetract (toFixed3 (safeZ (params this))) false
                      (commands (exportLines this toolpath)) = true.
Proof.
  rewrite ExporterProperties.exportLines_blocks.
  rewrite !ExporterProperties.commands_app, commands_concat.
  change (commands (preamble this toolpath))
    with ["G90                 ; Absolute coordinates"%string;
          "G21                 ; Metric units (mm)"%string;
          "G40 G49 G80         ; Cancel offsets and cycles"%string;
          "G94                 ; Feed per minute mode"%string;
          rapidToSafeZ this "    ; Retract to safe height"%string;
          "G0 X0.000 Y0.000   ; Move to origin"%string].
  cbn [app].
  do 4 (rewrite rapidsFollowRetract_other by reflexivity).
  rewrite rapidsFollowRetract_retract, rapidsFollowRetract_travel by reflexivity.
  apply rapidsFollowRetract_blocks.
Qed.

(** The check refuses a rapid move in X and Y that follows a cutting move. *)
Example rapid_after_a_cut_is_refused :
  rapidsFollowRetract "5.000" false
    ["G0 Z5.000"; "G0 X0.000 Y0.000"; "G1 Z1.000"; "G0 X1.000 Y0.000"]%string = false.
Proof. reflexivity. Qed.

End Exporter.

(** *** From the generator to the exporter *)

Section Pipeline.

Context {Mesh : Type} `{RC : Raycaster Mesh} `{PR : Printing}.

(** X14.  Exporting the path of a run: since a run keeps no layer without
    points, the program holds no placeholder comment, three rapid moves for
    every layer of the path besides the four around them, and as many
    controlled-feed moves as [getTotalPoints] counts after the run. *)
Theorem generated_path_is_exported_in_full (generator : ToolpathGenerator Mesh)
    (this : GCodeExporter) (m : Mesh) (b : Bounds) :
  let after := fst (generate generator m b) in
  let lines := exportLines this (getToolpath after) in
  placeholders lines = [] /\
  length (rapidMoves lines) = (4 + 3 * length (getToolpath after))%nat /\
  length (feedMoves lines) = getTotalPoints after.
Proof.
  cbv zeta. unfold getToolpath.
  set (path := toolpath (fst (generate generator m b))).
  assert (Hall : layersWithPoints path = path).
  { unfold layersWithPoints. apply GeneratorProperties.filter_all. intros l Hl.
    apply GeneratorProperties.in_generated in Hl. destruct Hl as (k & _ & _ & Hne).
    apply GeneratorProperties.nonEmpty_points, Hne. }
  destruct (exportLines_census this path) as (Hfeed & Hrapid & Hplace).
  rewrite Hall in Hrapid, Hplace. split; [|split].
  - destruct (placeholders (exportLines this path)); [reflexivity|].
    cbn [length] in Hplace. lia.
  - exact Hrapid.
  - rewrite Hfeed. unfold getTotalPoints. fold path.
    rewrite GeneratorRuns.fold_left_counts. reflexivity.
Qed.

End Pipeline.

End ExporterCensus.

(** ** The path generator: one plane above the other *)

Module GeneratorPlanes.

Import ToolpathGenerator.
Local Open Scope Q_scope.

Section Generator.

Context {Mesh : Type} `{RC : Raycaster Mesh}.

Lemma scanLineLoop_machinable (this : ToolpathGenerator Mesh) (n : nat) (i : Z)
    (xStart scanStep y z toolRadius : Q) (points : list (Vector3 Q)) :
  exists pt,
    scanLineLoop this (S n) i xStart scanStep y z toolRadius points
    = scanLineLoop this n (i + 1) xStart scanStep y z toolRadius
        (if machinable this (xStart + inject_Z i * scanStep) y z
         then points ++ [pt] else points).
Proof.
  cbn [scanLineLoop]. unfold machinable.
  destruct (findSurfaceAtPoint this _ y z) as [surfaceZ|].
  - eexists. destruct (checkNeedsMachining this _ y surfaceZ); reflexivity.
  - exists (vec3 0 0 0). reflexivity.
Qed.

(** Where the higher plane finds a point whenever the lower one does, a
    row has at least as many points on the higher plane. *)
Lemma scanLineLoop_planes (this : ToolpathGenerator Mesh) (xStart scanStep y toolRadius : Q)
    (low high : Q) :
  (forall x, machinable this x y low = true -> machinable this x y high = true) ->
  forall (n : nat) (i : Z) (lowPoints highPoints : list (Vector3 Q)),
  (length lowPoints <= length highPoints)%nat ->
  (length (scanLineLoop this n i xStart scanStep y low toolRadius lowPoints)
   <= length (scanLineLoop this n i xStart scanStep y high toolRadius highPoints))%nat.
Proof.
  intros Hmono. induction n as [|n IH]; intros i lowPoints highPoints Hlen;
    [exact Hlen|].
  destruct (scanLineLoop_machinable this n i xStart scanStep y low toolRadius lowPoints)
    as (ptLow & ->).
  destruct (scanLineLoop_machinable this n i xStart scanStep y high toolRadius highPoints)
    as (ptHigh & ->).
  apply IH. specialize (Hmono (xStart + inject_Z i * scanStep)).
  destruct (machinable this _ y low).
  - rewrite (Hmono eq_refl), !length_app. cbn [length]. lia.
  - destruct (machinable this _ y high); [rewrite length_app|]; lia.
Qed.

Lemma contourLoop_planes (this : ToolpathGenerator Mesh) (stepover toolRadius low high : Q) :
  (forall x y, machinable this x y low = true -> machinable this x y high = true) ->
  forall (n : nat) (scanIdx : Z) (lowPoints highPoints : list (Vector3 Q)),
  (length lowPoints <= length highPoints)%nat ->
  (length (contourLoop this n scanIdx low stepover toolRadius lowPoints)
   <= length (contourLoop this n scanIdx high stepover toolRadius highPoints))%nat.
Proof.
  intros Hmono. induction n as [|n IH]; intros scanIdx lowPoints highPoints Hlen;
    [exact Hlen|].
  cbn [contourLoop]. destruct (Qlt_bool _ _); [exact Hlen|].
  apply IH. rewrite !length_app.
  assert (Hrow :
    (length (scanLine this (THREE.x (min (thisBounds this)))
               (THREE.x (max (thisBounds this)))
               (THREE.y (min (thisBounds this)) + inject_Z scanIdx * stepover)
               low toolRadius)
     <= length (scanLine this (THREE.x (min (thisBounds this)))
                  (THREE.x (max (thisBounds this)))
                  (THREE.y (min (thisBounds this)) + inject_Z scanIdx * stepover)
                  high toolRadius))%nat).
  { unfold scanLine. apply scanLineLoop_planes; [|reflexivity].
    intros x. apply Hmono. }
  destruct (scanIdx mod 2 =? 1)%Z; rewrite ?length_rev; lia.
Qed.

Lemma checkNeedsMachining_true (this : ToolpathGenerator Mesh) (x y z : Q) :
  THREE.x (min (thisBounds this)) <= x <= THREE.x (max (thisBounds this)) ->
  THREE.y (min (thisBounds this)) <= y <= THREE.y (max (thisBounds this)) ->
  THREE.z (min (thisBounds this)) <= z <= THREE.z (max (thisBounds this)) ->
  checkNeedsMachining this x y z = true.
Proof.
  intros [Hx Hx'] [Hy Hy'] [Hz Hz']. unfold checkNeedsMachining.
  rewrite (proj2 (GeneratorProperties.Qlt_bool_false _ _) Hx),
          (proj2 (GeneratorProperties.Qlt_bool_false _ _) Hx'),
          (proj2 (GeneratorProperties.Qlt_bool_false _ _) Hy),
          (proj2 (GeneratorProperties.Qlt_bool_false _ _) Hy'),
          (proj2 (GeneratorProperties.Qlt_bool_false _ _) Hz),
          (proj2 (GeneratorProperties.Qlt_bool_false _ _) Hz').
  reflexivity.
Qed.

(** A position that gives a point for a plane gives one for every higher
    plane up to the top of the selection. *)
Lemma machinable_planes (m : Mesh) (b : Bounds) (p : Params) (x y low high : Q) :
  keepsHitsWhenRaised m ->
  low <= high -> high <= THREE.z (max b) ->
  machinable (running m b p []) x y low = true ->
  machinable (running m b p []) x y high = true.
Proof.
  intros Hkeeps Hle Htop. unfold machinable.
  destruct (findSurfaceAtPoint (running m b p []) x y low) as [surfaceLow|] eqn:Hlow;
    [|discriminate].
  intros Hcheck. apply GeneratorProperties.checkNeedsMachining_inside in Hcheck.
  cbn [thisBounds bounds running] in Hcheck. destruct Hcheck as (Hx & Hy & _).
  unfold findSurfaceAtPoint in Hlow. cbn [thisBounds bounds running mesh] in Hlow.
  pose proof (GeneratorProperties.firstHitWithin_spec (THREE.z (min b)) low
                (intersectObject m (vec3 x y (low + 100)) (vec3 0 0 (-1)))) as Hspec.
  rewrite Hlow in Hspec. destruct Hspec as (before & hit & after & Heq & _ & Hin & _).
  destruct (Hkeeps x y (low + 100) (high + 100) hit) as (hit' & Hhit' & Hz).
  { lra. }
  { rewrite Heq. apply in_or_app. right. left. reflexivity. }
  destruct (findSurfaceAtPoint (running m b p []) x y high) as [surfaceHigh|] eqn:Hhigh.
  - apply GeneratorProperties.findSurfaceAtPoint_range in Hhigh.
    cbn [thisBounds bounds running] in Hhigh.
    apply checkNeedsMachining_true; cbn [thisBounds bounds running];
      [exact Hx|exact Hy|]. split; [tauto|]. destruct Hhigh as [_ Hhigh]. lra.
  - exfalso. unfold findSurfaceAtPoint in Hhigh.
    cbn [thisBounds bounds running mesh] in Hhigh.
    pose proof (GeneratorProperties.firstHitWithin_spec (THREE.z (min b)) high
                  (intersectObject m (vec3 x y (high + 100)) (vec3 0 0 (-1)))) as Hnone.
    rewrite Hhigh in Hnone. rewrite List.Forall_forall in Hnone.
    apply (Hnone hit' Hhit'). unfold within in *. rewrite Hz.
    destruct Hin as [Hfloor Hceil]. split; [exact Hfloor|lra].
Qed.

(** The iterations of a run, from the top plane down: a later one never
    has more points than an earlier one. *)
Lemma layerContour_planes (m : Mesh) (b : Bounds) (p : Params) (k k' : Z) :
  keepsHitsWhenRaised m ->
  0 < stepdown p ->
  (0 <= k <= k')%Z -> (k' < numLayersOf b p)%Z ->
  (length (layerContour m b p k') <= length (layerContour m b p k))%nat.
Proof.
  intros Hkeeps Hs Hk Hk'.
  destruct (GeneratorProperties.layerPlane_above_floor b p k Hs) as [Hplane _]; [lia|].
  destruct (GeneratorProperties.layerPlane_above_floor b p k' Hs) as [Hplane' _]; [lia|].
  assert (Hle : layerPlane b p k' <= layerPlane b p k).
  { rewrite Hplane, Hplane'.
    assert (Hkk : inject_Z k <= inject_Z k') by (rewrite <- Zle_Qle; lia).
    assert (Hprod : inject_Z k * stepdown p <= inject_Z k' * stepdown p).
    { apply Qmult_le_compat_r; [exact Hkk|lra]. }
    lra. }
  assert (Htop : layerPlane b p k <= THREE.z (max b)).
  { rewrite Hplane.
    assert (H0 : 0 <= inject_Z k * stepdown p).
    { apply Qmult_le_0_compat; [|lra]. change 0 with (inject_Z 0).
      rewrite <- Zle_Qle. lia. }
    lra. }
  unfold layerContour, generateContourAtZ. cbn [thisBounds bounds running].
  apply contourLoop_planes; [|reflexivity].
  intros x y. apply machinable_planes; assumption.
Qed.

(** Filtering a run of iterations by a test that, once it fails, fails
    for all later iterations, keeps the first ones. *)
Lemma filter_first (A : Type) (f : Z -> A) (test : A -> bool) (n : nat) :
  (forall k k', (0 <= k <= k')%Z -> (k' < Z.of_nat n)%Z ->
     test (f k') = true -> test (f k) = true) ->
  exists kept : nat,
    (kept <= n)%nat /\
    List.filter test (map f (indices n 0)) = map f (indices kept 0).
Proof.
  induction n as [|n IH]; intros Hfirst.
  - exists 0%nat. split; [lia|reflexivity].
  - rewrite GeneratorRuns.indices_snoc, map_app, List.filter_app. cbn [map List.filter].
    rewrite Z.add_0_l.
    destruct (test (f (Z.of_nat n))) eqn:Hlast.
    + exists (S n). split; [lia|].
      rewrite GeneratorRuns.indices_snoc, map_app, Z.add_0_l. cbn [map]. f_equal.
      apply GeneratorProperties.filter_all. intros a Ha.
      apply in_map_iff in Ha. destruct Ha as (k & <- & Hk).
      apply GeneratorProperties.in_indices in Hk.
      apply (Hfirst k (Z.of_nat n)); [lia|lia|exact Hlast].
    + destruct IH as (kept & Hkept & Heq).
      { intros k k' Hk Hk'. apply Hfirst; lia. }
      exists kept. split; [lia|]. rewrite Heq, app_nil_r. reflexivity.
Qed.

(** With such a ray caster the path of a run is made of the first
    iterations, none left out. *)
Lemma generate_first_layers (this : ToolpathGenerator Mesh) (m : Mesh) (b : Bounds) :
  keepsHitsWhenRaised m ->
  0 < stepdown (params this) ->
  exists kept : nat,
    (Z.of_nat kept <= Z.max 0 (numLayersOf b (params this)))%Z /\
    toolpath (fst (generate this m b))
    = map (layerAt m b (params this)) (indices kept 0).
Proof.
  intros Hkeeps Hs. rewrite GeneratorProperties.generate_layers.
  destruct (filter_first Layer.t (layerAt m b (params this)) nonEmpty
              (Z.to_nat (numLayersOf b (params this)))) as (kept & Hkept & Heq).
  - intros k k' Hk Hk'. unfold nonEmpty, layerAt. cbn [Layer.points].
    rewrite !Nat.ltb_lt.
    pose proof (layerContour_planes m b (params this) k k' Hkeeps Hs Hk) as Hle.
    intros Hne. assert (Hin : (k' < numLayersOf b (params this))%Z) by lia.
    specialize (Hle Hin). lia.
  - exists kept. split; [lia|exact Heq].
Qed.

End Generator.

(** *** The ray caster over a triangle soup keeps its hits *)

Import MeshRaycaster.

Lemma Qlt_bool_Qeq (a a' b b' : Q) :
  a == a' -> b == b' -> Qlt_bool a b = Qlt_bool a' b'.
Proof.
  intros Ha Hb. unfold Qlt_bool. f_equal.
  destruct (Qle_bool b a) eqn:H1, (Qle_bool b' a') eqn:H2; try reflexivity.
  - apply Qle_bool_iff in H1. rewrite Ha, Hb in H1. apply Qle_bool_iff in H1. congruence.
  - apply Qle_bool_iff in H2. rewrite <- Ha, <- Hb in H2. apply Qle_bool_iff in H2.
    congruence.
Qed.

(** A triangle hit by a ray cast straight down is hit at the same height
    by the ray that starts higher up over the same position. *)
Lemma intersectTriangle_raised (x y z z' : Q) (t : Triangle) (hit : Intersection) :
  z <= z' ->
  intersectTriangle (vec3 x y z) (vec3 0 0 (-1)) t = Some hit ->
  exists hit',
    intersectTriangle (vec3 x y z') (vec3 0 0 (-1)) t = Some hit' /\
    THREE.z (point hit') == THREE.z (point hit).
Proof.
  intros Hz. unfold intersectTriangle. cbv zeta.
  set (edge1 := sub (vertexB t) (vertexA t)).
  set (edge2 := sub (vertexC t) (vertexA t)).
  set (normal := cross edge1 edge2).
  set (down := vec3 0 0 (-1)).
  set (DdN := dot down normal).
  destruct (Qeq_bool DdN 0) eqn:Hzero; [discriminate|].
  set (sign := if Qlt_bool 0 DdN then 1 else -1).
  set (diff := sub (vec3 x y z) (vertexA t)).
  set (diff' := sub (vec3 x y z') (vertexA t)).
  assert (Hpos : 0 < sign * DdN).
  { unfold sign. destruct (Qlt_bool 0 DdN) eqn:Hs.
    - apply GeneratorProperties.Qlt_bool_true in Hs. lra.
    - apply GeneratorProperties.Qlt_bool_false in Hs.
      assert (Hne : ~ DdN == 0).
      { intros H. apply Qeq_bool_iff in H. congruence. }
      assert (DdN < 0) by (apply Qle_lteq in Hs; tauto). lra. }
  assert (Hsign : sign == 1 \/ sign == -1).
  { unfold sign. destruct (Qlt_bool 0 DdN); [left|right]; reflexivity. }
  assert (H1 : sign * dot down (cross diff' edge2) == sign * dot down (cross diff edge2)).
  { unfold dot, cross, diff, diff', sub, down. cbn [THREE.x THREE.y THREE.z]. ring. }
  assert (H2 : sign * dot down (cross edge1 diff') == sign * dot down (cross edge1 diff)).
  { unfold dot, cross, diff, diff', sub, down. cbn [THREE.x THREE.y THREE.z]. ring. }
  assert (H3 : - sign * dot diff' normal
               == - sign * dot diff normal + (z' - z) * (sign * DdN)).
  { unfold DdN, dot, diff, diff', sub, down. cbn [THREE.x THREE.y THREE.z]. ring. }
  rewrite (Qlt_bool_Qeq _ _ 0 0 H1 (Qeq_refl 0)).
  destruct (Qlt_bool (sign * dot down (cross diff edge2)) 0); [discriminate|].
  rewrite (Qlt_bool_Qeq _ _ 0 0 H2 (Qeq_refl 0)).
  destruct (Qlt_bool (sign * dot down (cross edge1 diff)) 0); [discriminate|].
  rewrite (Qlt_bool_Qeq (sign * DdN) (sign * DdN)
             (sign * dot down (cross diff' edge2) + sign * dot down (cross edge1 diff'))
             (sign * dot down (cross diff edge2) + sign * dot down (cross edge1 diff))
             (Qeq_refl _)) by (rewrite H1, H2; reflexivity).
  destruct (Qlt_bool (sign * DdN) _); [discriminate|].
  destruct (Qlt_bool (- sign * dot diff normal) 0) eqn:Hbehind; [discriminate|].
  apply GeneratorProperties.Qlt_bool_false in Hbehind.
  assert (Hraise : 0 <= (z' - z) * (sign * DdN)).
  { apply Qmult_le_0_compat; lra. }
  assert (Hfront : Qlt_bool (- sign * dot diff' normal) 0 = false).
  { apply GeneratorProperties.Qlt_bool_false. rewrite H3. lra. }
  rewrite Hfront. intros [= <-]. eexists. split; [reflexivity|].
  cbn [point at_ THREE.z]. rewrite !Qred_correct, H3. unfold down. cbn [THREE.z].
  field. split; intros H; rewrite H in Hpos.
  - rewrite Qmult_0_r in Hpos. discriminate.
  - rewrite Qmult_0_l in Hpos. discriminate.
Qed.

Lemma raycaster_keepsHitsWhenRaised (mesh : list Triangle) : keepsHitsWhenRaised mesh.
Proof.
  intros x y z z' hit Hz Hhit. cbn [intersectObject raycaster] in *.
  apply (Permutation_in _ (GeneratorProperties.sortByDistance_permutation _)) in Hhit.
  unfold triangleHits in Hhit. apply in_flat_map in Hhit.
  destruct Hhit as (t & Ht & Hhit).
  destruct (intersectTriangle (vec3 x y z) (vec3 0 0 (-1)) t) as [h|] eqn:Hh;
    [|destruct Hhit].
  destruct Hhit as [<-|[]].
  destruct (intersectTriangle_raised x y z z' t h Hz Hh) as (hit' & Hhit' & Heq).
  exists hit'. split; [|exact Heq].
  apply (Permutation_in _ (Permutation_sym
                             (GeneratorProperties.sortByDistance_permutation _))).
  unfold triangleHits. apply in_flat_map. exists t. split; [exact Ht|].
  rewrite Hhit'. left. reflexivity.
Qed.

(** X15.  Over a triangle mesh, with the exact ray caster and a positive
    stepdown, the iterations of a run lose points from the top plane down
    and never gain any: iteration [k'] has at most as many points as an
    earlier iteration [k].  So only the last iterations can be empty: the
    path is made of the first iterations, its layer indices are
    [0, 1, ..., n-1] without a gap for a path of [n] layers, and the layer
    number [layer + 1] of a layer never exceeds the number of layers of the
    path. *)
Theorem kept_layers_are_the_first_iterations (this : ToolpathGenerator (list Triangle))
    (mesh : list Triangle) (b : Bounds) :
  0 < stepdown (params this) ->
  let p := params this in
  let path := toolpath (fst (generate this mesh b)) in
  (forall k k', (0 <= k <= k')%Z -> (k' < numLayersOf b p)%Z ->
     (length (layerContour mesh b p k') <= length (layerContour mesh b p k))%nat) /\
  path = map (layerAt mesh b p) (indices (length path) 0) /\
  map Layer.layer path = indices (length path) 0 /\
  List.Forall (fun l => (1 <= Layer.layer l + 1 <= Z.of_nat (length path))%Z) path.
Proof.
  intros Hs. cbv zeta.
  pose proof (raycaster_keepsHitsWhenRaised mesh) as Hkeeps.
  split.
  { intros k k' Hk Hk'. apply layerContour_planes; assumption. }
  destruct (generate_first_layers this mesh b Hkeeps Hs) as (kept & _ & Hpath).
  assert (Hlen : length (toolpath (fst (generate this mesh b))) = kept).
  { rewrite Hpath, length_map. apply GeneratorProperties.length_indices. }
  rewrite Hlen.
  assert (Hlayers : map Layer.layer (toolpath (fst (generate this mesh b)))
                    = indices kept 0).
  { rewrite Hpath, map_map. apply map_id. }
  split; [exact Hpath|]. split; [exact Hlayers|].
  apply List.Forall_forall. intros l Hl.
  assert (Hin : In (Layer.layer l) (indices kept 0)).
  { rewrite <- Hlayers. apply in_map, Hl. }
  apply GeneratorProperties.in_indices in Hin. lia.
Qed.

(** *** Concrete runs *)

Section Plates.

Import Plates.

(** X15 over the plate at height 0: the iterations have 6, 6 and 0
    points; the path keeps the first two. *)
Lemma kept_layers_are_the_first_iterations_witness :
  0 < stepdown coarse /\
  map (fun k => length (layerContour (plate 0) box coarse k)) [0%Z; 1%Z; 2%Z]
    = [6%nat; 6%nat; 0%nat] /\
  (forall k k', (0 <= k <= k')%Z -> (k' < numLayersOf box coarse)%Z ->
     (length (layerContour (plate 0) box coarse k')
      <= length (layerContour (plate 0) box coarse k))%nat) /\
  map Layer.layer (toolpath (fst (generate (generator coarse) (plate 0) box)))
    = indices (length (toolpath (fst (generate (generator coarse) (plate 0) box)))) 0.
Proof.
  assert (Hs : 0 < stepdown (params (generator coarse))) by reflexivity.
  split; [exact Hs|]. split; [vm_compute; reflexivity|].
  pose proof (kept_layers_are_the_first_iterations (generator coarse) (plate 0) box Hs)
    as H.
  cbv zeta in H. destruct H as (Hcounts & _ & Hlayers & _).
  split; [exact Hcounts|exact Hlayers].
Defined.

End Plates.

End GeneratorPlanes.

(** ** The selection tool *)

Module SelectionProperties.

Import SelectionTool.
Local Open Scope Q_scope.

(** *** The corners of the selection *)

Lemma mathMin_least (a b : Q) : mathMin a b <= a /\ mathMin a b <= b.
Proof.
  unfold mathMin. destruct (Qle_bool a b) eqn:H.
  - apply Qle_bool_iff in H. split; lra.
  - assert (b < a).
    { apply Qnot_le_lt. intros Hle. apply Qle_bool_iff in Hle. congruence. }
    split; lra.
Qed.

Lemma mathMax_greatest (a b : Q) : a <= mathMax a b /\ b <= mathMax a b.
Proof.
  unfold mathMax, ToolpathGenerator.mathMax. destruct (Qle_bool a b) eqn:H.
  - apply Qle_bool_iff in H. split; lra.
  - assert (b < a).
    { apply Qnot_le_lt. intros Hle. apply Qle_bool_iff in Hle. congruence. }
    split; lra.
Qed.

Lemma boxOf_ordered (p q : Vector3 Q) : ordered (boxOf p q).
Proof.
  unfold ordered, boxOf, cornerMin, cornerMax.
  cbn [ToolpathGenerator.min ToolpathGenerator.max THREE.x THREE.y THREE.z].
  pose proof (mathMin_least (THREE.x p) (THREE.x q)).
  pose proof (mathMax_greatest (THREE.x p) (THREE.x q)).
  pose proof (mathMin_least (THREE.y p) (THREE.y q)).
  pose proof (mathMax_greatest (THREE.y p) (THREE.y q)).
  pose proof (mathMin_least (THREE.z p) (THREE.z q)).
  pose proof (mathMax_greatest (THREE.z p) (THREE.z q)).
  repeat split; lra.
Qed.

Lemma zero_ordered : ordered (ToolpathGenerator.makeBounds origin origin).
Proof. unfold ordered. cbn. repeat split; lra. Qed.

Lemma bounds_createSelectionHelper (this : SelectionTool) :
  bounds (createSelectionHelper this) = bounds this.
Proof. reflexivity. Qed.

Lemma bounds_updateSelectionHelper (this : SelectionTool) :
  bounds (updateSelectionHelper this)
  = match selectionHelper this with
    | Some _ => boxOf (startPoint this) (endPoint this)
    | None => bounds this
    end.
Proof. unfold updateSelectionHelper. destruct (selectionHelper this); reflexivity. Qed.

Lemma bounds_clear (this : SelectionTool) :
  bounds (clear this) = ToolpathGenerator.makeBounds origin origin.
Proof. unfold clear. destruct (selectionHelper this); reflexivity. Qed.

Lemma bounds_finalizeSelection (this : SelectionTool) :
  bounds (fst (finalizeSelection this))
  = if largeEnough (bounds this) then bounds this
    else ToolpathGenerator.makeBounds origin origin.
Proof.
  unfold finalizeSelection, largeEnough.
  destruct (_ || _ || _); cbn [fst negb]; [apply bounds_clear|reflexivity].
Qed.

(** Every action leaves the corners in order. *)
Lemma act_ordered (this : SelectionTool) (a : Action) :
  ordered (bounds this) -> ordered (bounds (act this a)).
Proof.
  intros Hord. destruct a as [| | |lo hi|event|event|]; cbn [act].
  - unfold enable. destruct (enabled this); exact Hord.
  - unfold disable. destruct (enabled this); exact Hord.
  - rewrite bounds_clear. apply zero_ordered.
  - unfold setBounds. rewrite bounds_updateSelectionHelper. apply boxOf_ordered.
  - destruct (listening this); [|exact Hord]. unfold onPointerDown.
    destruct (negb (enabled this) || negb (hasModelMesh this)); [exact Hord|].
    destruct (picked event); exact Hord.
  - destruct (listening this); [|exact Hord]. unfold onPointerMove.
    destruct (negb (enabled this) || negb (isSelecting this) || negb (hasModelMesh this));
      [exact Hord|].
    destruct (picked event); [|exact Hord].
    rewrite bounds_updateSelectionHelper.
    destruct (selectionHelper _); [apply boxOf_ordered|exact Hord].
  - destruct (listening this); [|exact Hord]. unfold onPointerUp.
    destruct (negb (enabled this) || negb (isSelecting this)); [exact Hord|].
    rewrite bounds_finalizeSelection. cbn [bounds withSelecting].
    destruct (largeEnough (bounds this)); [exact Hord|apply zero_ordered].
Qed.

Lemma run_ordered (actions : list Action) :
  forall this : SelectionTool,
  ordered (bounds this) -> ordered (bounds (run this actions)).
Proof.
  unfold run. induction actions as [|a actions IH]; intros this Hord; [exact Hord|].
  cbn [fold_left]. apply IH, act_ordered, Hord.
Qed.

Lemma volume_of_ordered (this : SelectionTool) :
  ordered (bounds this) ->
  0 <= getVolume this /\ (0 < getVolume this <-> solid (bounds this)).
Proof.
  unfold ordered, getVolume, solid, sizeOf. cbv zeta.
  cbn [THREE.x THREE.y THREE.z].
  set (sx := THREE.x (ToolpathGenerator.max (bounds this))
             - THREE.x (ToolpathGenerator.min (bounds this))).
  set (sy := THREE.y (ToolpathGenerator.max (bounds this))
             - THREE.y (ToolpathGenerator.min (bounds this))).
  set (sz := THREE.z (ToolpathGenerator.max (bounds this))
             - THREE.z (ToolpathGenerator.min (bounds this))).
  intros (Hx & Hy & Hz).
  assert (Hsx : 0 <= sx) by (unfold sx; lra).
  assert (Hsy : 0 <= sy) by (unfold sy; lra).
  assert (Hsz : 0 <= sz) by (unfold sz; lra).
  assert (Hxy : 0 <= sx * sy) by (apply Qmult_le_0_compat; assumption).
  split; [apply Qmult_le_0_compat; assumption|]. split.
  - intros Hpos.
    assert (Hnx : ~ sx == 0) by (intros H; rewrite H in Hpos; lra).
    assert (Hny : ~ sy == 0) by (intros H; rewrite H in Hpos; lra).
    assert (Hnz : ~ sz == 0) by (intros H; rewrite H in Hpos; lra).
    repeat split; apply Qle_lteq in Hsx, Hsy, Hsz.
    + destruct Hsx as [H|H]; [exact H|]. symmetry in H. contradiction.
    + destruct Hsy as [H|H]; [exact H|]. symmetry in H. contradiction.
    + destruct Hsz as [H|H]; [exact H|]. symmetry in H. contradiction.
  - intros (Hpx & Hpy & Hpz).
    assert (0 < sx * sy).
    { apply (Qmult_lt_compat_r 0 sx sy) in Hpx; [|exact Hpy]. lra. }
    apply (Qmult_lt_compat_r 0 (sx * sy) sz) in H; [|exact Hpz]. lra.
Qed.

(** X16.  Whatever is done to the tool from its construction on (enabling,
    disabling, pointer events, [setBounds], [clear]), the corners of its
    bounds stay in order on every axis.  So [getVolume] is never negative,
    and it is positive exactly when the box has a positive extent on all
    three axes: a positive volume never comes from two negative extents. *)
Theorem selection_corners_stay_ordered (viewportScene : list Object3D) (counter : nat)
    (controls : option bool) (model : bool) (actions : list Action) :
  let this := run (constructor viewportScene counter controls model) actions in
  ordered (getBounds this) /\
  0 <= getVolume this /\
  (0 < getVolume this <-> solid (getBounds this)).
Proof.
  cbv zeta.
  set (this := run (constructor viewportScene counter controls model) actions).
  assert (Hord : ordered (bounds this)).
  { apply run_ordered. apply zero_ordered. }
  split; [exact Hord|]. apply volume_of_ordered, Hord.
Qed.

Lemma extent_is_distance (a b : Q) : mathMax a b - mathMin a b == Qabs (a - b).
Proof.
  unfold mathMax, ToolpathGenerator.mathMax, mathMin.
  destruct (Qle_bool a b) eqn:H.
  - apply Qle_bool_iff in H. rewrite Qabs_neg by lra. ring.
  - assert (b < a).
    { apply Qnot_le_lt. intros Hle. apply Qle_bool_iff in Hle. congruence. }
    rewrite Qabs_pos by lra. ring.
Qed.

Lemma largeEnough_distances (p q : Vector3 Q) :
  largeEnough (boxOf p q) = true <->
  minSize <= Qabs (THREE.x p - THREE.x q) /\
  minSize <= Qabs (THREE.y p - THREE.y q) /\
  minSize <= Qabs (THREE.z p - THREE.z q).
Proof.
  unfold largeEnough, boxOf, sizeOf, cornerMin, cornerMax.
  cbn [ToolpathGenerator.min ToolpathGenerator.max THREE.x THREE.y THREE.z].
  rewrite negb_true_iff, !orb_false_iff, !GeneratorProperties.Qlt_bool_false.
  rewrite !extent_is_distance. tauto.
Qed.

(** X17.  A drag on the model with the tool enabled (a press that picks
    [first], a move that picks [last], the release) selects the box spanned
    by the two points when they are at least 0.1 apart on every axis, and
    shows its edges; otherwise the release clears the selection: the bounds
    are zeroed and no helper is left.  Two points picked on a face parallel
    to an axis plane never make a selection. *)
Theorem drag_selects_the_spanned_box (this : SelectionTool) (first last : Vector3 Q)
    (press move : PointerEvent) :
  enabled this = true -> listening this = true -> hasModelMesh this = true ->
  let after := run this (drag first last press move) in
  let apart :=
    minSize <= Qabs (THREE.x first - THREE.x last) /\
    minSize <= Qabs (THREE.y first - THREE.y last) /\
    minSize <= Qabs (THREE.z first - THREE.z last) in
  isSelecting after = false /\
  (apart ->
   getBounds after = boxOf first last /\ selectionHelper after = Some (nextId this)) /\
  (~ apart ->
   getBounds after = ToolpathGenerator.makeBounds origin origin /\
   selectionHelper after = None /\ getVolume after == 0).
Proof.
  destruct this as [en sel helper fill b mo sp ep objects counter controls li cu model].
  cbn [enabled listening hasModelMesh nextId]. intros -> -> ->.
  unfold run, drag. cbn [fold_left].
  match goal with |- context [act ?t (PointerDown ?e)] =>
    let r := eval cbv [act onPointerDown createSelectionHelper withPoints updateMouse
                       withSelecting listening enabled isSelecting hasModelMesh
                       selectionHelper selectionFill bounds mouse startPoint endPoint
                       scene nextId controlsEnabled cursor picked picking negb orb]
             in (act t (PointerDown e)) in
    change (act t (PointerDown e)) with r
  end.
  match goal with |- context [act ?t (PointerMove ?e)] =>
    let r := eval cbv [act onPointerMove updateSelectionHelper withPoints updateMouse
                       withScene withBounds listening enabled isSelecting hasModelMesh
                       selectionHelper selectionFill bounds mouse startPoint endPoint
                       scene nextId controlsEnabled cursor picked picking negb orb id]
             in (act t (PointerMove e)) in
    change (act t (PointerMove e)) with r
  end.
  match goal with |- context [act ?t PointerUp] =>
    let r := eval cbv [act onPointerUp withSelecting listening enabled isSelecting
                       hasModelMesh selectionHelper selectionFill bounds mouse startPoint
                       endPoint scene nextId controlsEnabled cursor negb orb]
             in (act t PointerUp) in
    change (act t PointerUp) with r
  end.
  unfold finalizeSelection. cbn [bounds]. fold (boxOf first last).
  pose proof (largeEnough_distances first last) as Hlarge.
  unfold largeEnough in Hlarge.
  destruct (_ || _ || _); cbn [negb fst] in *.
  - split; [reflexivity|]. split.
    + intros Hapart. apply Hlarge in Hapart. discriminate.
    + intros _. split; [reflexivity|]. split; reflexivity.
  - split; [reflexivity|]. split.
    + intros _. split; reflexivity.
    + intros Hnot. exfalso. apply Hnot, Hlarge. reflexivity.
Qed.

(** *** The objects the tool keeps in the scene *)

Lemma idsOf_app (k : Kind) (objects objects' : list Object3D) :
  idsOf k (objects ++ objects') = idsOf k objects ++ idsOf k objects'.
Proof. unfold idsOf. rewrite List.filter_app, map_app. reflexivity. Qed.

Lemma idsOf_place (k : Kind) (objects : list Object3D) (target : nat) (p s : Vector3 Q) :
  idsOf k (place objects target p s) = idsOf k objects.
Proof.
  unfold idsOf, place. induction objects as [|o objects IH]; [reflexivity|].
  cbn [map List.filter]. destruct (id o =? target)%nat; cbn [kind id];
    destruct (kind o), k; cbn [map]; rewrite ?IH; reflexivity.
Qed.

Lemma ids_place (objects : list Object3D) (target : nat) (p s : Vector3 Q) :
  map id (place objects target p s) = map id objects.
Proof.
  unfold place. rewrite map_map. apply map_ext. intros o.
  destruct (id o =? target)%nat; reflexivity.
Qed.

Lemma idsOf_sceneRemove (k : Kind) (objects : list Object3D) (target : nat) :
  idsOf k (sceneRemove objects target)
  = List.filter (fun i => negb (i =? target)%nat) (idsOf k objects).
Proof.
  unfold idsOf, sceneRemove. induction objects as [|o objects IH]; [reflexivity|].
  cbn [List.filter]. destruct (id o =? target)%nat eqn:Hid; cbn [negb].
  - destruct (kind o), k; cbn [map List.filter]; rewrite ?Hid; cbn [negb]; exact IH.
  - cbn [List.filter].
    destruct (kind o), k; cbn [map List.filter]; rewrite ?Hid; cbn [negb]; rewrite IH;
      reflexivity.
Qed.

Lemma ids_sceneRemove (objects : list Object3D) (target : nat) :
  map id (sceneRemove objects target)
  = List.filter (fun i => negb (i =? target)%nat) (map id objects).
Proof.
  unfold sceneRemove. induction objects as [|o objects IH]; [reflexivity|].
  cbn [map List.filter]. destruct (id o =? target)%nat; cbn [negb map]; rewrite IH;
    reflexivity.
Qed.

Lemma in_idsOf (k : Kind) (objects : list Object3D) (i : nat) :
  In i (idsOf k objects) -> In i (map id objects).
Proof.
  unfold idsOf. rewrite !in_map_iff. intros (o & Hid & Ho).
  apply filter_In in Ho. exists o. tauto.
Qed.

(** With distinct ids, an id of one kind is no id of another kind. *)
Lemma idsOf_apart (objects : list Object3D) (i : nat) :
  List.NoDup (map id objects) ->
  In i (idsOf Edges objects) ->
  ~ In i (idsOf Fill objects) /\ ~ In i (idsOf Foreign objects).
Proof.
  induction objects as [|o objects IH]; [intros _ []|].
  cbn [map]. intros Hnodup Hin. apply List.NoDup_cons_iff in Hnodup.
  destruct Hnodup as [Hfresh Hnodup].
  assert (Hcons : forall k,
            idsOf k (o :: objects)
            = (if match kind o, k with
                  | Edges, Edges | Fill, Fill | Foreign, Foreign => true
                  | _, _ => false
                  end then [id o] else []) ++ idsOf k objects).
  { intros k. unfold idsOf. cbn [List.filter].
    destruct (kind o), k; reflexivity. }
  rewrite !Hcons in *. clear Hcons.
  destruct (kind o); cbn [app In] in *.
  - destruct Hin as [<-|Hin].
    + split; intros H; apply Hfresh; exact (in_idsOf _ _ _ H).
    + apply IH; assumption.
  - destruct (IH Hnodup Hin) as [Hfill Hforeign]. split; [|exact Hforeign].
    intros [<-|H]; [|exact (Hfill H)]. exact (Hfresh (in_idsOf Edges _ _ Hin)).
  - destruct (IH Hnodup Hin) as [Hfill Hforeign]. split; [exact Hfill|].
    intros [<-|H]; [|exact (Hforeign H)]. exact (Hfresh (in_idsOf Edges _ _ Hin)).
Qed.

Lemma filter_absent (target : nat) (ids : list nat) :
  ~ In target ids -> List.filter (fun i => negb (i =? target)%nat) ids = ids.
Proof.
  intros Habsent. apply GeneratorProperties.filter_all. intros i Hi.
  apply negb_true_iff, Nat.eqb_neq. intros ->. exact (Habsent Hi).
Qed.

(** Taking the helper out leaves a scene without edges, with the fills and
    the foreign objects it had. *)
Lemma withoutHelper_scene (this : SelectionTool) :
  tidy this ->
  List.NoDup (map id (withoutHelper this)) /\
  List.Forall (fun o => (id o < nextId this)%nat) (withoutHelper this) /\
  idsOf Edges (withoutHelper this) = [] /\
  idsOf Fill (withoutHelper this) = idsOf Fill (scene this) /\
  idsOf Foreign (withoutHelper this) = idsOf Foreign (scene this).
Proof.
  intros (Hnodup & Hbelow & Hedges). unfold withoutHelper.
  destruct (selectionHelper this) as [helper|]; [|repeat split; assumption].
  assert (Hin : In helper (idsOf Edges (scene this))) by (rewrite Hedges; left; reflexivity).
  destruct (idsOf_apart (scene this) helper Hnodup Hin) as [Hfill Hforeign].
  split; [|split; [|split; [|split]]].
  - rewrite ids_sceneRemove. apply List.NoDup_filter, Hnodup.
  - unfold sceneRemove. apply List.Forall_forall. intros o Ho.
    apply filter_In in Ho. rewrite List.Forall_forall in Hbelow. apply Hbelow, Ho.
  - rewrite idsOf_sceneRemove, Hedges. cbn [List.filter]. rewrite Nat.eqb_refl. reflexivity.
  - rewrite idsOf_sceneRemove. apply filter_absent, Hfill.
  - rewrite idsOf_sceneRemove. apply filter_absent, Hforeign.
Qed.

Lemma createSelectionHelper_scene (this : SelectionTool) :
  tidy this ->
  tidy (createSelectionHelper this) /\
  idsOf Fill (scene (createSelectionHelper this))
  = idsOf Fill (scene this) ++ [S (nextId this)] /\
  idsOf Foreign (scene (createSelectionHelper this)) = idsOf Foreign (scene this).
Proof.
  intros Htidy.
  destruct (withoutHelper_scene this Htidy) as (Hnodup & Hbelow & Hedges & Hfill & Hforeign).
  unfold createSelectionHelper. cbv zeta. fold (withoutHelper this).
  unfold tidy. cbn [scene nextId selectionHelper id]. unfold sceneAdd.
  rewrite !idsOf_app, Hedges, Hfill, Hforeign.
  change (idsOf Edges [object3D ?i Edges ?p ?s]) with [i].
  change (idsOf Fill [object3D ?i Fill ?p ?s]) with [i].
  change (idsOf Edges [object3D ?i Fill ?p ?s]) with (@nil nat).
  change (idsOf Fill [object3D ?i Edges ?p ?s]) with (@nil nat).
  change (idsOf Foreign [object3D ?i Edges ?p ?s]) with (@nil nat).
  change (idsOf Foreign [object3D ?i Fill ?p ?s]) with (@nil nat).
  rewrite !app_nil_r.
  split; [|split; reflexivity].
  split; [|split; [|reflexivity]].
  - rewrite !map_app. cbn [map id]. rewrite <- app_assoc. cbn [app].
    apply List.NoDup_app; [exact Hnodup| |].
    + apply List.NoDup_cons_iff. split; [|apply List.NoDup_cons_iff; split;
                                             [intros []|constructor]].
      intros [H|[]]. lia.
    + intros i Hi Hnew. apply in_map_iff in Hi. destruct Hi as (o & Hid & Ho).
      rewrite List.Forall_forall in Hbelow. specialize (Hbelow o Ho).
      destruct Hnew as [<-|[<-|[]]]; lia.
  - apply Forall_app. split.
    + apply Forall_app. split.
      * eapply List.Forall_impl; [|exact Hbelow]. cbn beta. intros o Ho. lia.
      * constructor; [cbn [id]; lia|constructor].
    + constructor; [cbn [id]; lia|constructor].
Qed.

Lemma clear_scene (this : SelectionTool) :
  tidy this ->
  tidy (clear this) /\
  idsOf Fill (scene (clear this)) = idsOf Fill (scene this) /\
  idsOf Foreign (scene (clear this)) = idsOf Foreign (scene this).
Proof.
  intros Htidy.
  destruct (withoutHelper_scene this Htidy) as (Hnodup & Hbelow & Hedges & Hfill & Hforeign).
  assert (Hscene : scene (clear this) = withoutHelper this).
  { unfold clear, withoutHelper. destruct (selectionHelper this); reflexivity. }
  assert (Hhelper : selectionHelper (clear this) = None).
  { unfold clear. destruct (selectionHelper this) eqn:Hh; [reflexivity|].
    cbn [selectionHelper withBounds]. exact Hh. }
  assert (Hnext : nextId (clear this) = nextId this).
  { unfold clear. destruct (selectionHelper this); reflexivity. }
  unfold tidy. rewrite Hscene, Hhelper, Hnext. repeat split; assumption.
Qed.

Lemma updateSelectionHelper_scene (this : SelectionTool) :
  tidy this ->
  tidy (updateSelectionHelper this) /\
  idsOf Fill (scene (updateSelectionHelper this)) = idsOf Fill (scene this) /\
  idsOf Foreign (scene (updateSelectionHelper this)) = idsOf Foreign (scene this).
Proof.
  intros (Hnodup & Hbelow & Hedges). unfold updateSelectionHelper.
  destruct (selectionHelper this) as [helper|] eqn:Hhelper.
  - cbv zeta. unfold tidy. cbn [scene withScene withBounds nextId selectionHelper].
    rewrite Hhelper.
    destruct (selectionFill this) as [fill|]; rewrite ?ids_place, ?idsOf_place.
    + repeat split; try assumption.
      unfold place. rewrite !List.Forall_map. eapply List.Forall_impl; [|exact Hbelow].
      cbn beta. intros o Ho.
      destruct (id o =? helper)%nat eqn:H1; cbn [id];
        destruct (_ =? fill)%nat; cbn [id]; exact Ho.
    + repeat split; try assumption.
      unfold place. rewrite List.Forall_map. eapply List.Forall_impl; [|exact Hbelow].
      cbn beta. intros o Ho. destruct (id o =? helper)%nat; exact Ho.
  - unfold tidy. rewrite Hhelper. repeat split; assumption.
Qed.

Lemma tidy_same (this this' : SelectionTool) :
  scene this' = scene this -> nextId this' = nextId this ->
  selectionHelper this' = selectionHelper this ->
  tidy this -> tidy this'.
Proof. unfold tidy. intros -> -> ->. tauto. Qed.

(** What an action does to the scene: the fills grow by the boxes it
    creates, the foreign objects stay. *)
Lemma act_scene (this : SelectionTool) (a : Action) :
  tidy this ->
  tidy (act this a) /\
  length (idsOf Fill (scene (act this a)))
  = (length (idsOf Fill (scene this)) + creations this a)%nat /\
  idsOf Foreign (scene (act this a)) = idsOf Foreign (scene this).
Proof.
  intros Htidy.
  assert (Hsame : tidy this /\
                  length (idsOf Fill (scene this))
                  = (length (idsOf Fill (scene this)) + 0)%nat /\
                  idsOf Foreign (scene this) = idsOf Foreign (scene this)).
  { split; [exact Htidy|]. split; [lia|reflexivity]. }
  destruct a as [| | |lo hi|event|event|]; cbn [act creations].
  - unfold enable. destruct (enabled this); [exact Hsame|].
    cbn [scene]. split; [|split; [lia|reflexivity]].
    revert Htidy. apply tidy_same; reflexivity.
  - unfold disable. destruct (enabled this); [|exact Hsame].
    cbn [scene]. split; [|split; [lia|reflexivity]].
    revert Htidy. apply tidy_same; reflexivity.
  - destruct (clear_scene this Htidy) as (Ht & Hfill & Hforeign).
    rewrite Hfill, Hforeign. split; [exact Ht|]. split; [lia|reflexivity].
  - unfold setBounds. cbv zeta.
    set (prepared := withPoints (withBounds this (ToolpathGenerator.makeBounds lo hi)) lo hi).
    assert (Hprepared : tidy prepared) by (revert Htidy; apply tidy_same; reflexivity).
    destruct (createSelectionHelper_scene prepared Hprepared) as (Ht & Hfill & Hforeign).
    destruct (updateSelectionHelper_scene _ Ht) as (Ht' & Hfill' & Hforeign').
    rewrite Hfill', Hforeign', Hfill, Hforeign, length_app.
    split; [exact Ht'|]. split; reflexivity.
  - destruct (listening this); [|exact Hsame]. unfold onPointerDown. cbn [andb].
    destruct (enabled this); [|exact Hsame].
    destruct (hasModelMesh this); [|exact Hsame]. cbn [negb orb].
    destruct (picked event) as [point|].
    + match goal with |- context [createSelectionHelper ?t] => set (prepared := t) end.
      assert (Hprepared : tidy prepared) by (revert Htidy; apply tidy_same; reflexivity).
      destruct (createSelectionHelper_scene prepared Hprepared) as (Ht & Hfill & Hforeign).
      rewrite Hfill, Hforeign, length_app. split; [exact Ht|]. split; reflexivity.
    + change (scene (updateMouse (withSelecting this true) event)) with (scene this).
      cbn [andb]. split; [|split; [lia|reflexivity]].
      revert Htidy. apply tidy_same; reflexivity.
  - destruct (listening this); [|exact Hsame]. unfold onPointerMove.
    destruct (negb (enabled this) || negb (isSelecting this) || negb (hasModelMesh this));
      [exact Hsame|].
    destruct (picked event) as [point|].
    + match goal with |- context [updateSelectionHelper ?t] => set (prepared := t) end.
      assert (Hprepared : tidy prepared) by (revert Htidy; apply tidy_same; reflexivity).
      destruct (updateSelectionHelper_scene prepared Hprepared) as (Ht & Hfill & Hforeign).
      rewrite Hfill, Hforeign. split; [exact Ht|]. split; [|reflexivity].
      change (scene prepared) with (scene this). lia.
    + change (scene (updateMouse this event)) with (scene this).
      split; [|split; [lia|reflexivity]].
      revert Htidy. apply tidy_same; reflexivity.
  - destruct (listening this); [|exact Hsame]. unfold onPointerUp.
    destruct (negb (enabled this) || negb (isSelecting this)); [exact Hsame|].
    assert (Hreleased : tidy (withSelecting this false))
      by (revert Htidy; apply tidy_same; reflexivity).
    unfold finalizeSelection. destruct (_ || _ || _); cbn [fst].
    + destruct (clear_scene _ Hreleased) as (Ht & Hfill & Hforeign).
      rewrite Hfill, Hforeign. split; [exact Ht|]. split; [|reflexivity].
      change (scene (withSelecting this false)) with (scene this). lia.
    + change (scene (withSelecting this false)) with (scene this).
      split; [exact Hreleased|]. split; [lia|reflexivity].
Qed.

Lemma run_scene (actions : list Action) :
  forall this : SelectionTool,
  tidy this ->
  tidy (run this actions) /\
  length (idsOf Fill (scene (run this actions)))
  = (length (idsOf Fill (scene this)) + created this actions)%nat /\
  idsOf Foreign (scene (run this actions)) = idsOf Foreign (scene this).
Proof.
  unfold run. induction actions as [|a actions IH]; intros this Htidy.
  - cbn [fold_left created]. split; [exact Htidy|]. split; [lia|reflexivity].
  - cbn [fold_left created].
    destruct (act_scene this a Htidy) as (Ht & Hfill & Hforeign).
    destruct (IH _ Ht) as (Ht' & Hfill' & Hforeign').
    rewrite Hfill', Hforeign', Hfill, Hforeign. split; [exact Ht'|].
    split; [lia|reflexivity].
Qed.

Lemma pristine_scene (objects : list Object3D) (counter : nat) :
  pristine objects counter ->
  idsOf Edges objects = [] /\ idsOf Fill objects = [] /\
  idsOf Foreign objects = map id objects /\
  List.Forall (fun o => (id o < counter)%nat) objects.
Proof.
  intros [_ Hall]. unfold idsOf. induction Hall as [|o objects [Hkind Hid] _ IH].
  - repeat split; constructor.
  - destruct IH as (He & Hf & Hg & Hb). cbn [List.filter map]. rewrite Hkind.
    cbn [map]. rewrite He, Hf, Hg. repeat split. constructor; assumption.
Qed.

(** X18.  The tool never removes a fill from the scene.  Starting from a
    viewport scene of its own, after any sequence of actions the scene
    holds one translucent fill for every box ever created (by a press that
    picks a point or by [setBounds]), [clear] and a failed release
    included, while it holds the edges of the current helper only, and the
    viewport's own objects as they were. *)
Theorem fills_stay_in_the_scene (viewportScene : list Object3D) (counter : nat)
    (controls : option bool) (model : bool) (actions : list Action) :
  pristine viewportScene counter ->
  let start := constructor viewportScene counter controls model in
  let after := run start actions in
  length (idsOf Fill (scene after)) = created start actions /\
  idsOf Edges (scene after)
  = match selectionHelper after with Some helper => [helper] | None => [] end /\
  idsOf Foreign (scene after) = map id viewportScene.
Proof.
  intros Hpristine. cbv zeta.
  destruct (pristine_scene viewportScene counter Hpristine) as (He & Hf & Hg & Hb).
  assert (Hstart : tidy (constructor viewportScene counter controls model)).
  { unfold tidy. cbn [scene nextId selectionHelper constructor].
    split; [exact (proj1 Hpristine)|]. split; [exact Hb|exact He]. }
  destruct (run_scene actions _ Hstart) as ((_ & _ & Hedges) & Hfill & Hforeign).
  cbn [scene constructor] in Hfill, Hforeign. rewrite Hf in Hfill. rewrite Hg in Hforeign.
  split; [exact Hfill|]. split; [exact Hedges|exact Hforeign].
Qed.

(** *** Inside the selection *)

Section Generator.

Context {Mesh : Type} `{RC : Raycasting.Raycaster Mesh}.

(** X19.  The generator's [checkNeedsMachining] and the tool's
    [containsPoint] are the same test: a generator that runs on the bounds
    the tool hands out keeps a surface point exactly when the tool reports
    it as contained, on every number (NaN, for which the two comparisons
    differ in JavaScript, is not a number of the model). *)
Theorem containsPoint_is_checkNeedsMachining (this : SelectionTool) (m : Mesh)
    (p : ToolpathGenerator.Params) (path : list ToolpathGenerator.Layer.t) (x y z : Q) :
  containsPoint this (vec3 x y z)
  = ToolpathGenerator.checkNeedsMachining
      (ToolpathGenerator.running m (getBounds this) p path) x y z.
Proof.
  unfold containsPoint, ToolpathGenerator.checkNeedsMachining, getBounds,
    ToolpathGenerator.Qlt_bool.
  cbn [ToolpathGenerator.thisBounds ToolpathGenerator.bounds ToolpathGenerator.running
       ToolpathGenerator.min ToolpathGenerator.max THREE.x THREE.y THREE.z].
  destruct (Qle_bool (THREE.x (ToolpathGenerator.min (bounds this))) x),
           (Qle_bool x (THREE.x (ToolpathGenerator.max (bounds this)))),
           (Qle_bool (THREE.y (ToolpathGenerator.min (bounds this))) y),
           (Qle_bool y (THREE.y (ToolpathGenerator.max (bounds this)))),
           (Qle_bool (THREE.z (ToolpathGenerator.min (bounds this))) z),
           (Qle_bool z (THREE.z (ToolpathGenerator.max (bounds this))));
    reflexivity.
Qed.

End Generator.

(** *** The pointer *)

Lemma ratio_bounds (u w : Q) :
  0 < w -> (0 <= u / w <-> 0 <= u) /\ (u / w <= 1 <-> u <= w).
Proof.
  intros Hw. assert (Heq : u / w * w == u) by (field; lra).
  pose proof (Qmult_le_r 0 (u / w) w Hw) as H0.
  pose proof (Qmult_le_r (u / w) 1 w Hw) as H1.
  rewrite Heq in H0, H1. rewrite Qmult_0_l in H0. rewrite Qmult_1_l in H1.
  split; symmetry; assumption.
Qed.

(** X20.  [updateMouse] maps the canvas rectangle onto normalised device
    coordinates: over a canvas of positive width and height the pointer is
    inside the rectangle exactly when both coordinates it stores lie in
    [-1, 1]; the middle of the canvas is stored as (0, 0), and Y is flipped:
    the top edge is stored as +1 and the left edge as -1. *)
Theorem pointer_maps_to_device_coordinates (this : SelectionTool) (event : PointerEvent) :
  0 < rectWidth event -> 0 < rectHeight event ->
  let stored := mouse (updateMouse this event) in
  (overCanvas event <-> (-1 <= fst stored <= 1 /\ -1 <= snd stored <= 1)) /\
  (clientX event == rectLeft event -> fst stored == -1) /\
  (clientY event == rectTop event -> snd stored == 1) /\
  (clientX event == rectLeft event + rectWidth event / 2 -> fst stored == 0) /\
  (clientY event == rectTop event + rectHeight event / 2 -> snd stored == 0).
Proof.
  intros Hw Hh. cbv zeta. unfold overCanvas. cbn [mouse updateMouse fst snd].
  destruct (ratio_bounds (clientX event - rectLeft event) (rectWidth event) Hw)
    as [Hx0 Hx1].
  destruct (ratio_bounds (clientY event - rectTop event) (rectHeight event) Hh)
    as [Hy0 Hy1].
  set (u := (clientX event - rectLeft event) / rectWidth event) in *.
  set (v := (clientY event - rectTop event) / rectHeight event) in *.
  split; [|split; [|split; [|split]]].
  - split.
    + intros [[Hxa Hxb] [Hya Hyb]].
      assert (0 <= u) by (apply Hx0; lra). assert (u <= 1) by (apply Hx1; lra).
      assert (0 <= v) by (apply Hy0; lra). assert (v <= 1) by (apply Hy1; lra).
      repeat split; lra.
    + intros [[Hxa Hxb] [Hya Hyb]].
      assert (0 <= u) by lra. assert (u <= 1) by lra.
      assert (0 <= v) by lra. assert (v <= 1) by lra.
      apply Hx0 in H. apply Hx1 in H0. apply Hy0 in H1. apply Hy1 in H2.
      repeat split; lra.
  - intros Heq. unfold u. rewrite Heq. field. lra.
  - intros Heq. unfold v. rewrite Heq. field. lra.
  - intros Heq. unfold u. rewrite Heq. field. lra.
  - intros Heq. unfold v. rewrite Heq. field. lra.
Qed.

(** *** The box on display *)

Lemma place_app (objects objects' : list Object3D) (target : nat) (p s : Vector3 Q) :
  place (objects ++ objects') target p s
  = place objects target p s ++ place objects' target p s.
Proof. apply map_app. Qed.

Lemma place_hit (i : nat) (k : Kind) (p0 s0 p s : Vector3 Q) :
  place [object3D i k p0 s0] i p s = [object3D i k p s].
Proof. unfold place. cbn [map id kind]. rewrite Nat.eqb_refl. reflexivity. Qed.

Lemma place_miss (i j : nat) (k : Kind) (p0 s0 p s : Vector3 Q) :
  i <> j -> place [object3D i k p0 s0] j p s = [object3D i k p0 s0].
Proof.
  intros Hne. unfold place. cbn [map id kind].
  rewrite (proj2 (Nat.eqb_neq i j) Hne). reflexivity.
Qed.

(** X21.  [setBounds] takes its two corners in any order: the bounds it
    leaves are the box spanned by the two points, corners in order, which
    contains both points; and it puts on display new edges and a new fill,
    both centred on the box and scaled to its size. *)
Theorem setBounds_displays_the_spanned_box (this : SelectionTool) (lo hi : Vector3 Q) :
  let after := setBounds this lo hi in
  getBounds after = boxOf lo hi /\
  ordered (getBounds after) /\
  containsPoint after lo = true /\ containsPoint after hi = true /\
  selectionHelper after = Some (nextId this) /\
  selectionFill after = Some (S (nextId this)) /\
  In (object3D (nextId this) Edges (centerOf (boxOf lo hi)) (sizeOf (boxOf lo hi)))
     (scene after) /\
  In (object3D (S (nextId this)) Fill (centerOf (boxOf lo hi)) (sizeOf (boxOf lo hi)))
     (scene after).
Proof.
  cbv zeta.
  assert (Hmin1 : forall a b, Qle_bool (mathMin a b) a = true)
    by (intros a b; apply Qle_bool_iff, mathMin_least).
  assert (Hmin2 : forall a b, Qle_bool (mathMin a b) b = true)
    by (intros a b; apply Qle_bool_iff, mathMin_least).
  assert (Hmax1 : forall a b, Qle_bool a (mathMax a b) = true)
    by (intros a b; apply Qle_bool_iff, mathMax_greatest).
  assert (Hmax2 : forall a b, Qle_bool b (mathMax a b) = true)
    by (intros a b; apply Qle_bool_iff, mathMax_greatest).
  split; [reflexivity|]. split; [apply boxOf_ordered|].
  split; [|split].
  - unfold containsPoint, setBounds, updateSelectionHelper, createSelectionHelper.
    cbn [bounds withScene withBounds withPoints selectionHelper startPoint endPoint
         ToolpathGenerator.min ToolpathGenerator.max cornerMin cornerMax
         THREE.x THREE.y THREE.z].
    rewrite !Hmin1, !Hmax1. reflexivity.
  - unfold containsPoint, setBounds, updateSelectionHelper, createSelectionHelper.
    cbn [bounds withScene withBounds withPoints selectionHelper startPoint endPoint
         ToolpathGenerator.min ToolpathGenerator.max cornerMin cornerMax
         THREE.x THREE.y THREE.z].
    rewrite !Hmin2, !Hmax2. reflexivity.
  - split; [reflexivity|]. split; [reflexivity|].
    unfold setBounds, updateSelectionHelper, createSelectionHelper.
    cbn [bounds withScene withBounds withPoints selectionHelper selectionFill
         startPoint endPoint scene nextId id]. unfold sceneAdd.
    fold (boxOf lo hi). rewrite !place_app.
    rewrite place_hit, (place_miss (nextId this) (S (nextId this))) by lia.
    rewrite (place_miss (S (nextId this)) (nextId this)) by lia. rewrite place_hit.
    split; apply in_or_app.
    + left. apply in_or_app. right. left. reflexivity.
    + right. left. reflexivity.
Qed.

(** *** From the selection to the generator *)

Lemma ceiling_positive (extent step : Q) :
  0 < extent -> 0 < step -> (1 <= ToolpathGenerator.mathCeil (extent / step))%Z.
Proof.
  intros He Hs. unfold ToolpathGenerator.mathCeil.
  assert (Hr : 0 < extent / step).
  { apply Qlt_shift_div_l; [exact Hs|]. rewrite Qmult_0_l. exact He. }
  pose proof (Qle_ceiling (extent / step)) as Hc.
  assert (Hlt : inject_Z 0 < inject_Z (Qceiling (extent / step))).
  { apply Qlt_le_trans with (extent / step); assumption. }
  rewrite <- Zlt_Qlt in Hlt. lia.
Qed.

(** X22.  The application generates only when a model is loaded and
    [getVolume() > 0].  Whatever was done to the tool before, its bounds
    then have a positive extent on all three axes, so that [generate], run
    on [getBounds()], has work on every axis: at least one layer iteration
    for a positive stepdown, at least one row for a positive row spacing,
    and at least two columns per row for a positive tool diameter. *)
Theorem generation_starts_on_a_solid_selection (viewportScene : list Object3D)
    (counter : nat) (controls : option bool) (model : bool) (actions : list Action)
    (currentModel : bool) (p : ToolpathGenerator.Params) :
  let this := run (constructor viewportScene counter controls model) actions in
  App.refusesToGenerate currentModel this = false ->
  currentModel = true /\
  solid (getBounds this) /\
  (0 < ToolpathGenerator.stepdown p ->
   (1 <= ToolpathGenerator.numLayersOf (getBounds this) p)%Z) /\
  (0 < ToolpathGenerator.stepoverOf p ->
   (1 <= ToolpathGenerator.numScansOf (getBounds this) p)%Z) /\
  (0 < ToolpathGenerator.scanStepOf p ->
   (1 <= ToolpathGenerator.numStepsOf (getBounds this) p)%Z).
Proof.
  cbv zeta.
  set (this := run (constructor viewportScene counter controls model) actions).
  unfold App.refusesToGenerate. rewrite orb_false_iff, negb_false_iff.
  intros [Hmodel Hvolume]. split; [exact Hmodel|].
  assert (Hpos : 0 < getVolume this).
  { apply Qnot_le_lt. intros Hle. apply Qle_bool_iff in Hle. congruence. }
  assert (Hord : ordered (bounds this)) by (apply run_ordered, zero_ordered).
  apply (volume_of_ordered this Hord) in Hpos.
  split; [exact Hpos|]. destruct Hpos as (Hx & Hy & Hz).
  unfold sizeOf in Hx, Hy, Hz. cbn [THREE.x THREE.y THREE.z] in Hx, Hy, Hz.
  split; [|split].
  - intros Hs. apply ceiling_positive; assumption.
  - intros Hs. apply ceiling_positive; assumption.
  - intros Hs. apply ceiling_positive; assumption.
Qed.

(** *** A concrete session *)

Section Session.

Import Session.

(** X17 at a drag from (0,0,0) to (1,2,3). *)
Lemma drag_selects_the_spanned_box_witness :
  enabled (enable fresh) = true /\
  listening (enable fresh) = true /\
  hasModelMesh (enable fresh) = true /\
  getBounds (run (enable fresh)
               (drag (vec3 0 0 0) (vec3 1 2 3) (atCentre None) (atCentre None)))
  = boxOf (vec3 0 0 0) (vec3 1 2 3) /\
  selectionHelper (run (enable fresh)
                     (drag (vec3 0 0 0) (vec3 1 2 3) (atCentre None) (atCentre None)))
  = Some 1%nat.
Proof.
  assert (He : enabled (enable fresh) = true) by reflexivity.
  assert (Hl : listening (enable fresh) = true) by reflexivity.
  assert (Hm : hasModelMesh (enable fresh) = true) by reflexivity.
  split; [exact He|]. split; [exact Hl|]. split; [exact Hm|].
  pose proof (drag_selects_the_spanned_box (enable fresh) (vec3 0 0 0) (vec3 1 2 3)
                (atCentre None) (atCentre None) He Hl Hm) as H.
  cbv zeta in H. destruct H as (_ & Hapart & _). apply Hapart.
  repeat split; apply Qle_bool_iff; reflexivity.
Defined.

(** A drag along a face parallel to the XY plane selects nothing. *)
Example flat_drag_is_cleared :
  getBounds (run (enable fresh)
               (drag (vec3 0 0 5) (vec3 1 2 5) (atCentre None) (atCentre None)))
  = ToolpathGenerator.makeBounds origin origin /\
  map id (scene (run (enable fresh)
                   (drag (vec3 0 0 5) (vec3 1 2 5) (atCentre None) (atCentre None))))
  = [0%nat; 2%nat].
Proof. vm_compute. split; reflexivity. Qed.

(** X18 at the session: two boxes are created, two fills are in the
    scene, and the edges of the last box only. *)
Lemma fills_stay_in_the_scene_witness :
  pristine viewportScene 1 /\
  created fresh session = 2%nat /\
  length (idsOf Fill (scene (run fresh session))) = created fresh session /\
  idsOf Edges (scene (run fresh session))
  = match selectionHelper (run fresh session) with
    | Some helper => [helper]
    | None => []
    end /\
  idsOf Foreign (scene (run fresh session)) = map id viewportScene.
Proof.
  assert (Hpristine : pristine viewportScene 1).
  { split.
    - constructor; [intros []|constructor].
    - constructor; [split; [reflexivity|cbn; lia]|constructor]. }
  split; [exact Hpristine|]. split; [reflexivity|].
  exact (fills_stay_in_the_scene viewportScene 1 (Some true) true session Hpristine).
Defined.

(** The scene at the end of the session: the model, the fill of the
    cleared box, the edges and the fill of the box that was set. *)
Example session_scene :
  map (fun o => (id o, kind o)) (scene (run fresh session))
  = [(0%nat, Foreign); (2%nat, Fill); (3%nat, Edges); (4%nat, Fill)] /\
  getBounds (run fresh session)
  = ToolpathGenerator.makeBounds (vec3 2 2 2) (vec3 4 4 4).
Proof. vm_compute. split; reflexivity. Qed.

(** X20 at the middle of a canvas of 800 x 600 pixels. *)
Lemma pointer_maps_to_device_coordinates_witness :
  0 < rectWidth (atCentre None) /\ 0 < rectHeight (atCentre None) /\
  overCanvas (atCentre None) /\
  fst (mouse (updateMouse fresh (atCentre None))) == 0 /\
  snd (mouse (updateMouse fresh (atCentre None))) == 0.
Proof.
  assert (Hw : 0 < rectWidth (atCentre None)) by reflexivity.
  assert (Hh : 0 < rectHeight (atCentre None)) by reflexivity.
  split; [exact Hw|]. split; [exact Hh|].
  pose proof (pointer_maps_to_device_coordinates fresh (atCentre None) Hw Hh) as H.
  cbv zeta in H. destruct H as (Hin & _ & _ & Hx & Hy).
  split; [|split; [apply Hx|apply Hy]; reflexivity].
  apply Hin. repeat split; apply Qle_bool_iff; reflexivity.
Defined.

(** X22 at the end of the session, with the generator's default
    parameters. *)
Lemma generation_starts_on_a_solid_selection_witness :
  App.refusesToGenerate true (run fresh session) = false /\
  solid (getBounds (run fresh session)) /\
  (0 < ToolpathGenerator.stepdown ToolpathGenerator.defaultParams ->
   (1 <= ToolpathGenerator.numLayersOf (getBounds (run fresh session))
           ToolpathGenerator.defaultParams)%Z).
Proof.
  assert (Hruns : App.refusesToGenerate true (run fresh session) = false)
    by (vm_compute; reflexivity).
  split; [exact Hruns|].
  pose proof (generation_starts_on_a_solid_selection viewportScene 1 (Some true) true
                session true ToolpathGenerator.defaultParams Hruns) as H.
  cbv zeta in H. destruct H as (_ & Hsolid & Hlayers & _).
  split; [exact Hsolid|exact Hlayers].
Defined.

End Session.

End SelectionProperties.

(** ** The canvas: orbit controls and selection tool together *)

Module CanvasProperties.

Import Canvas.
Local Open Scope Q_scope.

(** X24.  Turning the selection mode on sets [controls.enabled] to false,
    and the orbit controls never read it: their listeners stay on the
    canvas and handle the events of a selection drag as well.  A press of
    the left button on the model, a move and the release make the tool
    select the box spanned by the two picked points while the controls go
    to their rotating state at the press, take the move as a rotation of
    [-2 pi dx / clientHeight] and [-2 pi dy / clientHeight], and go back to
    rest at the release. *)
Theorem selecting_does_not_stop_the_controls (c : Canvas)
    (frame : OrbitControls.CameraFrame) (press move : SelectionTool.PointerEvent)
    (first last : Vector3 Q) :
  SelectionTool.enabled (selection c) = false ->
  SelectionTool.hasModelMesh (selection c) = true ->
  SelectionTool.controlsEnabled (selection c) = Some true ->
  SelectionTool.button press = 0%Z ->
  let selecting := enableSelection c in
  let pressed := dispatch selecting (Pressed (SelectionTool.picking press first)) in
  let moved := dispatch pressed (Moved frame (SelectionTool.picking move last)) in
  let released := dispatch moved Released in
  SelectionTool.controlsEnabled (selection selecting) = Some false /\
  OrbitControls.state (controls pressed) = OrbitControls.ROTATE /\
  OrbitControls.sphericalDeltaTheta (controls moved)
  = OrbitControls.sphericalDeltaTheta (controls c)
    - 2 * (SelectionTool.clientX move - SelectionTool.clientX press)
      / SelectionTool.clientHeight move /\
  OrbitControls.sphericalDeltaPhi (controls moved)
  = OrbitControls.sphericalDeltaPhi (controls c)
    - 2 * (SelectionTool.clientY move - SelectionTool.clientY press)
      / SelectionTool.clientHeight move /\
  SelectionTool.getBounds (selection moved) = SelectionTool.boxOf first last /\
  OrbitControls.state (controls released) = OrbitControls.NONE.
Proof.
  destruct c as [ctl tool].
  destruct tool as [en sel helper fill b mo sp ep objects counter ce li cu model].
  cbn [selection SelectionTool.enabled SelectionTool.hasModelMesh
       SelectionTool.controlsEnabled].
  intros -> -> -> Hbutton. cbv zeta.
  unfold enableSelection. cbn [controls selection].
  match goal with |- context [SelectionTool.enable ?t] =>
    let r := eval cbv [SelectionTool.enable SelectionTool.enabled
                       SelectionTool.isSelecting SelectionTool.selectionHelper
                       SelectionTool.selectionFill SelectionTool.bounds
                       SelectionTool.mouse SelectionTool.startPoint
                       SelectionTool.endPoint SelectionTool.scene SelectionTool.nextId
                       SelectionTool.controlsEnabled SelectionTool.listening
                       SelectionTool.cursor SelectionTool.hasModelMesh]
             in (SelectionTool.enable t) in
    change (SelectionTool.enable t) with r
  end.
  unfold dispatch at 3 4 5. cbn [controls selection].
  split; [reflexivity|]. split.
  { unfold dispatch. cbn [controls]. unfold OrbitControls.onPointerDown.
    cbn [SelectionTool.button SelectionTool.picking]. rewrite Hbutton. reflexivity. }
  assert (Hcontrols :
    OrbitControls.onPointerDown ctl (SelectionTool.picking press first)
    = OrbitControls.orbitControls (OrbitControls.sphericalDeltaTheta ctl)
        (OrbitControls.sphericalDeltaPhi ctl) (OrbitControls.scale ctl)
        (OrbitControls.panOffset ctl)
        (SelectionTool.clientX press, SelectionTool.clientY press)
        (OrbitControls.rotateEnd ctl) (OrbitControls.rotateDelta ctl)
        (OrbitControls.panStart ctl) (OrbitControls.panEnd ctl)
        (OrbitControls.panDelta ctl) OrbitControls.ROTATE).
  { unfold OrbitControls.onPointerDown.
    cbn [SelectionTool.button SelectionTool.picking]. rewrite Hbutton. reflexivity. }
  unfold dispatch. cbn [controls selection]. rewrite Hcontrols.
  split; [reflexivity|]. split; [reflexivity|]. split; [|reflexivity].
  match goal with |- context [SelectionTool.act ?t (SelectionTool.PointerDown ?e)] =>
    let r := eval cbv [SelectionTool.act SelectionTool.onPointerDown
                       SelectionTool.createSelectionHelper SelectionTool.withPoints
                       SelectionTool.updateMouse SelectionTool.withSelecting
                       SelectionTool.listening SelectionTool.enabled
                       SelectionTool.isSelecting SelectionTool.hasModelMesh
                       SelectionTool.selectionHelper SelectionTool.selectionFill
                       SelectionTool.bounds SelectionTool.mouse SelectionTool.startPoint
                       SelectionTool.endPoint SelectionTool.scene SelectionTool.nextId
                       SelectionTool.controlsEnabled SelectionTool.cursor
                       SelectionTool.picked SelectionTool.picking negb orb]
             in (SelectionTool.act t (SelectionTool.PointerDown e)) in
    change (SelectionTool.act t (SelectionTool.PointerDown e)) with r
  end.
  reflexivity.
Qed.

(** *** A concrete drag *)

(** X24 at a drag of 80 pixels to the right, from the middle of the
    canvas, over the model. *)
Lemma selecting_does_not_stop_the_controls_witness :
  SelectionTool.enabled (selection fresh) = false /\
  SelectionTool.hasModelMesh (selection fresh) = true /\
  SelectionTool.controlsEnabled (selection fresh) = Some true /\
  SelectionTool.controlsEnabled (selection (enableSelection fresh)) = Some false /\
  OrbitControls.state
    (controls (dispatch (enableSelection fresh)
                 (Pressed (SelectionTool.picking (SelectionTool.Session.atCentre None)
                             (vec3 0 0 0)))))
  = OrbitControls.ROTATE.
Proof.
  assert (He : SelectionTool.enabled (selection fresh) = false) by reflexivity.
  assert (Hm : SelectionTool.hasModelMesh (selection fresh) = true) by reflexivity.
  assert (Hc : SelectionTool.controlsEnabled (selection fresh) = Some true)
    by reflexivity.
  assert (Hb : SelectionTool.button (SelectionTool.Session.atCentre None) = 0%Z)
    by reflexivity.
  split; [exact He|]. split; [exact Hm|]. split; [exact Hc|].
  pose proof (selecting_does_not_stop_the_controls fresh frame
                (SelectionTool.Session.atCentre None)
                (SelectionTool.pointerEvent 0 480 300 0 0 800 600 600 None)
                (vec3 0 0 0) (vec3 1 2 3) He Hm Hc Hb) as H.
  cbv zeta in H. destruct H as (Hflag & Hstate & _).
  split; [exact Hflag|exact Hstate].
Defined.

(** The drag of the witness in numbers: the tool selects the box from
    (0,0,0) to (1,2,3) and the controls hold a rotation of -2 * 80 / 600 =
    -4/15 of pi about the vertical axis. *)
Example drag_rotates_and_selects :
  let moved :=
    dispatch (dispatch (enableSelection fresh)
                (Pressed (SelectionTool.picking (SelectionTool.Session.atCentre None)
                            (vec3 0 0 0))))
      (Moved frame (SelectionTool.pointerEvent 0 480 300 0 0 800 600 600
                      (Some (vec3 1 2 3)))) in
  Qred (OrbitControls.sphericalDeltaTheta (controls moved)) = -4 # 15 /\
  SelectionTool.getBounds (selection moved)
  = ToolpathGenerator.makeBounds (vec3 0 0 0) (vec3 1 2 3).
Proof. vm_compute. split; reflexivity. Qed.

End CanvasProperties.
